(** * Camera target coordination of the [Viewer] widget

    A shallow embedding of [src/modules/exts/Viewer.js]: the zoom / fly-to
    sequencing ([zoomToOrFly], [cancelZoom], [updateZoomTarget]), the
    tracked-entity follower (the [trackedEntity] setter,
    [updateTrackedEntity], [_onTick]) and the bookkeeping done when data
    sources and entities are removed.

    The viewer is a mutable JavaScript object driven by a single-threaded
    event loop.  It is modelled by explicit state passing over a record
    [World]: a handler of the source is a function [World -> World], and
    [zoomToOrFly], which can throw, returns a completion with the world.
    Promises created by the viewer live in a table of outcomes, arrays of
    entities live in a heap indexed by reference (so that aliasing between
    the caller's array and the copy kept by the viewer is visible), and the
    callbacks the viewer hands to promises, events and camera flights are
    kept in a list of pending callbacks that the environment may invoke
    later, in any order.

    The engine (Cesium) is outside the repository.  Its data are records,
    its display of the data sources is a record of the answers it gives,
    and the geometric functions the viewer calls are the fields of the
    class [Engine], over which the properties are generic. *)

From Stdlib Require Import QArith.
From stdpp Require Import gmap strings list.

Set Default Proof Using "Type".
Local Open Scope nat_scope.

(** ** Values of the rendering engine *)

(** JavaScript numbers are only passed around by this code, never computed
    with; the two literals that occur ([0.0] and [-0.5]) are rationals. *)
Definition Number := Q.

Definition JulianDate := nat.
Definition ObjectId := nat.
Definition ArrayRef := nat.
Definition PromiseId := nat.

Record Cartesian3 := { cx : Number; cy : Number; cz : Number }.
Record Cartographic := { longitude : Number; latitude : Number; height : Number }.
Record Rectangle := { west : Number; south : Number; east : Number; north : Number }.
Record BoundingSphere := { center : Cartesian3; radius : Number }.
Record HeadingPitchRange := { heading : Number; pitch : Number; range : Number }.

Inductive Matrix4 := IDENTITY | Transform (frame : nat).

Inductive SceneMode := MORPHING | COLUMBUS_VIEW | SCENE2D | SCENE3D.
Inductive BoundingSphereState := DONE | PENDING | FAILED.

Definition SceneMode_eqb (a b : SceneMode) : bool :=
  match a, b with
  | MORPHING, MORPHING | COLUMBUS_VIEW, COLUMBUS_VIEW
  | SCENE2D, SCENE2D | SCENE3D, SCENE3D => true
  | _, _ => false
  end.

Definition BoundingSphereState_eqb (a b : BoundingSphereState) : bool :=
  match a, b with
  | DONE, DONE | PENDING, PENDING | FAILED, FAILED => true
  | _, _ => false
  end.

(** An entity is a JavaScript object: [===] compares the identity
    [objectId], not the contents.  [position] is the optional position
    property, sampled at a time by [Property.getValueOrUndefined]. *)
Record Entity := {
  objectId : ObjectId;
  id : string;
  position : option (JulianDate -> option Cartesian3);
  isShowing : bool;
  isAvailable : JulianDate -> bool
}.

(** [getById] of an entity collection is a finite map from ids; [values]
    is the collection's live array of entities. *)
Record EntityCollection := {
  values : ArrayRef;
  getById : gmap string Entity
}.

Record DataSource := {
  isLoading : bool;
  loadingEvent : bool;              (* [defined(loadingEvent)] *)
  entities : EntityCollection
}.

Record ImageryLayer := { getImageryRectangle : Rectangle }.

(** Cesium3DTileset, TimeDynamicPointCloud and VoxelPrimitive objects:
    the class decides the [instanceof] tests. *)
Inductive PrimitiveClass := Cesium3DTileset | TimeDynamicPointCloud | VoxelPrimitive.

Record Primitive := {
  class : PrimitiveClass;
  boundingSphere : BoundingSphere
}.

(** The display of the data sources, as the viewer sees it: [update(time)]
    says whether every visualizer is up to date, and
    [getBoundingSphere(entity, allowPartial, result)] reports a state and,
    when it has a sphere, the sphere it stores in [result]. *)
Record DataSourceDisplay := {
  update : JulianDate -> bool;
  sphereState : Entity -> bool -> BoundingSphereState;
  sphereValue : Entity -> bool -> BoundingSphere
}.

Definition getBoundingSphere (display : DataSourceDisplay) (entity : Entity)
    (allowPartial : bool) (result : BoundingSphere)
  : BoundingSphereState * BoundingSphere :=
  match sphereState display entity allowPartial with
  | DONE => (DONE, sphereValue display entity allowPartial)
  | state => (state, result)
  end.

(** The geometric functions of the engine that the viewer calls. *)
Class Engine := {
  fromBoundingSpheres : list BoundingSphere -> BoundingSphere;
  cartographicToCartesian : Cartographic -> Cartesian3;
  computeFlyToLocationForRectangle : Rectangle -> Cartographic
}.

(** ** The arguments of [zoomTo] and [flyTo] *)

Inductive ZoomArg :=
| ImageryLayerArg (layer : ImageryLayer)
| PrimitiveArg (primitive : Primitive)
| DataSourceArg (dataSource : DataSource)
| EntityCollectionArg (collection : EntityCollection)
| ArrayArg (array : ArrayRef)
| EntityArg (entity : Entity).

Record ZoomOptions := {
  offset : option HeadingPitchRange;
  duration : option Number;
  maximumHeight : option Number
}.

(** [{}] *)
Definition emptyOptions : ZoomOptions :=
  {| offset := None; duration := None; maximumHeight := None |}.

(** What [_zoomTarget] holds once the argument is normalised. *)
Inductive ZoomTarget :=
| TargetPrimitive (primitive : Primitive)
| TargetCartographic (location : Cartographic)
| TargetEntities (array : ArrayRef).

(** ** Camera, scene and clock *)

(** The calls the viewer makes on [scene.camera]. *)
Module Camera.
Inductive Call :=
| viewBoundingSphere (sphere : BoundingSphere) (offset : option HeadingPitchRange)
| flyToBoundingSphere (sphere : BoundingSphere) (options : ZoomOptions)
| setView (destination : Cartesian3)
| flyTo (destination : Cartesian3) (duration maximumHeight : option Number)
| lookAtTransform (matrix : Matrix4).
End Camera.

Record Scene := {
  mode : SceneMode;
  enableTranslate : bool;           (* screenSpaceCameraController *)
  enableTilt : bool;
  transform : Matrix4;              (* camera.transform *)
  cameraCalls : list Camera.Call;    (* calls on [scene.camera], oldest first *)
  renderRequests : nat              (* calls of [requestRender] *)
}.

Record Clock := { currentTime : JulianDate; canAnimate : bool }.

(** The camera helper [EntityView]: the entity it follows and the calls
    of [update(time, boundingSphere)] made on it. *)
Record EntityView := {
  followed : Entity;
  updates : list (JulianDate * option BoundingSphere)
}.

(** ** The viewer *)

Record Viewer := {
  scene : Scene;
  clock : Clock;
  _dataSourceDisplay : DataSourceDisplay;
  _allowDataSourcesToSuspendAnimation : bool;
  _entityView : option EntityView;
  _enableInfoOrSelection : bool;
  _trackedEntity : option Entity;
  _needTrackedEntityUpdate : bool;
  _selectedEntity : option Entity;
  _zoomIsFlight : bool;
  _zoomTarget : option ZoomTarget;
  _zoomPromise : option PromiseId;
  _zoomOptions : option ZoomOptions;
  (** the closure [function (value) { resolve(value) }] of the promise *)
  _completeZoom : option PromiseId;
  (** values raised on the two events, oldest first *)
  _selectedEntityChanged : list (option Entity);
  _trackedEntityChanged : list (option Entity)
}.

(** Callbacks the viewer has handed out and that may still be invoked. *)
Inductive Callback :=
| ThenTarget (zoomPromise : PromiseId) (zoomTarget : ZoomArg)
    (* [Promise.resolve(zoomTarget).then(...)] *)
| ThenPosition (zoomPromise : PromiseId) (layer : ImageryLayer)
    (* the end of the [rectanglePromise] chain *)
| OnLoaded (zoomPromise : PromiseId) (dataSource : DataSource)
    (* the [loadingEvent] listener *)
| ThenReady (target : Primitive) (zoomOptions : ZoomOptions) (hasCatch : bool)
    (* [target._readyPromise.then(...)], with or without [.catch] *)
| Flight
    (* the [complete] and [cancel] functions given to a camera flight *).

(** The viewer together with the state of the JavaScript program around
    it: the module's scratch sphere, the heap of arrays, the outcome of
    every promise made by [zoomToOrFly] (in creation order, [None] while
    unresolved), every call of a [resolve] function, and the pending
    callbacks. *)
Record World := {
  viewer : Viewer;
  boundingSphereScratch : BoundingSphere;
  arrays : gmap ArrayRef (list Entity);
  promises : list (option bool);
  resolveCalls : list (PromiseId * bool);
  pending : list Callback
}.

(** ** Field updates

    One function per field the source assigns. *)

Definition updScene (f : Scene -> Scene) (v : Viewer) : Viewer :=
  {| scene := f (scene v); clock := clock v;
     _dataSourceDisplay := _dataSourceDisplay v;
     _allowDataSourcesToSuspendAnimation := _allowDataSourcesToSuspendAnimation v;
     _entityView := _entityView v;
     _enableInfoOrSelection := _enableInfoOrSelection v;
     _trackedEntity := _trackedEntity v;
     _needTrackedEntityUpdate := _needTrackedEntityUpdate v;
     _selectedEntity := _selectedEntity v;
     _zoomIsFlight := _zoomIsFlight v; _zoomTarget := _zoomTarget v;
     _zoomPromise := _zoomPromise v; _zoomOptions := _zoomOptions v;
     _completeZoom := _completeZoom v;
     _selectedEntityChanged := _selectedEntityChanged v;
     _trackedEntityChanged := _trackedEntityChanged v |}.

Definition setClock (value : Clock) (v : Viewer) : Viewer :=
  {| scene := scene v; clock := value;
     _dataSourceDisplay := _dataSourceDisplay v;
     _allowDataSourcesToSuspendAnimation := _allowDataSourcesToSuspendAnimation v;
     _entityView := _entityView v;
     _enableInfoOrSelection := _enableInfoOrSelection v;
     _trackedEntity := _trackedEntity v;
     _needTrackedEntityUpdate := _needTrackedEntityUpdate v;
     _selectedEntity := _selectedEntity v; _zoomIsFlight := _zoomIsFlight v;
     _zoomTarget := _zoomTarget v; _zoomPromise := _zoomPromise v;
     _zoomOptions := _zoomOptions v; _completeZoom := _completeZoom v;
     _selectedEntityChanged := _selectedEntityChanged v;
     _trackedEntityChanged := _trackedEntityChanged v |}.

Definition setDataSourceDisplay (value : DataSourceDisplay) (v : Viewer) : Viewer :=
  {| scene := scene v; clock := clock v; _dataSourceDisplay := value;
     _allowDataSourcesToSuspendAnimation := _allowDataSourcesToSuspendAnimation v;
     _entityView := _entityView v;
     _enableInfoOrSelection := _enableInfoOrSelection v;
     _trackedEntity := _trackedEntity v;
     _needTrackedEntityUpdate := _needTrackedEntityUpdate v;
     _selectedEntity := _selectedEntity v; _zoomIsFlight := _zoomIsFlight v;
     _zoomTarget := _zoomTarget v; _zoomPromise := _zoomPromise v;
     _zoomOptions := _zoomOptions v; _completeZoom := _completeZoom v;
     _selectedEntityChanged := _selectedEntityChanged v;
     _trackedEntityChanged := _trackedEntityChanged v |}.

Definition setEntityView (value : option EntityView) (v : Viewer) : Viewer :=
  {| scene := scene v; clock := clock v;
     _dataSourceDisplay := _dataSourceDisplay v;
     _allowDataSourcesToSuspendAnimation := _allowDataSourcesToSuspendAnimation v;
     _entityView := value; _enableInfoOrSelection := _enableInfoOrSelection v;
     _trackedEntity := _trackedEntity v;
     _needTrackedEntityUpdate := _needTrackedEntityUpdate v;
     _selectedEntity := _selectedEntity v; _zoomIsFlight := _zoomIsFlight v;
     _zoomTarget := _zoomTarget v; _zoomPromise := _zoomPromise v;
     _zoomOptions := _zoomOptions v; _completeZoom := _completeZoom v;
     _selectedEntityChanged := _selectedEntityChanged v;
     _trackedEntityChanged := _trackedEntityChanged v |}.

Definition setTrackedEntity (value : option Entity) (v : Viewer) : Viewer :=
  {| scene := scene v; clock := clock v;
     _dataSourceDisplay := _dataSourceDisplay v;
     _allowDataSourcesToSuspendAnimation := _allowDataSourcesToSuspendAnimation v;
     _entityView := _entityView v;
     _enableInfoOrSelection := _enableInfoOrSelection v;
     _trackedEntity := value;
     _needTrackedEntityUpdate := _needTrackedEntityUpdate v;
     _selectedEntity := _selectedEntity v; _zoomIsFlight := _zoomIsFlight v;
     _zoomTarget := _zoomTarget v; _zoomPromise := _zoomPromise v;
     _zoomOptions := _zoomOptions v; _completeZoom := _completeZoom v;
     _selectedEntityChanged := _selectedEntityChanged v;
     _trackedEntityChanged := _trackedEntityChanged v |}.

Definition setNeedTrackedEntityUpdate (value : bool) (v : Viewer) : Viewer :=
  {| scene := scene v; clock := clock v;
     _dataSourceDisplay := _dataSourceDisplay v;
     _allowDataSourcesToSuspendAnimation := _allowDataSourcesToSuspendAnimation v;
     _entityView := _entityView v;
     _enableInfoOrSelection := _enableInfoOrSelection v;
     _trackedEntity := _trackedEntity v; _needTrackedEntityUpdate := value;
     _selectedEntity := _selectedEntity v; _zoomIsFlight := _zoomIsFlight v;
     _zoomTarget := _zoomTarget v; _zoomPromise := _zoomPromise v;
     _zoomOptions := _zoomOptions v; _completeZoom := _completeZoom v;
     _selectedEntityChanged := _selectedEntityChanged v;
     _trackedEntityChanged := _trackedEntityChanged v |}.

Definition setSelectedEntity (value : option Entity) (v : Viewer) : Viewer :=
  {| scene := scene v; clock := clock v;
     _dataSourceDisplay := _dataSourceDisplay v;
     _allowDataSourcesToSuspendAnimation := _allowDataSourcesToSuspendAnimation v;
     _entityView := _entityView v;
     _enableInfoOrSelection := _enableInfoOrSelection v;
     _trackedEntity := _trackedEntity v;
     _needTrackedEntityUpdate := _needTrackedEntityUpdate v;
     _selectedEntity := value; _zoomIsFlight := _zoomIsFlight v;
     _zoomTarget := _zoomTarget v; _zoomPromise := _zoomPromise v;
     _zoomOptions := _zoomOptions v; _completeZoom := _completeZoom v;
     _selectedEntityChanged := _selectedEntityChanged v;
     _trackedEntityChanged := _trackedEntityChanged v |}.

Definition setZoomIsFlight (value : bool) (v : Viewer) : Viewer :=
  {| scene := scene v; clock := clock v;
     _dataSourceDisplay := _dataSourceDisplay v;
     _allowDataSourcesToSuspendAnimation := _allowDataSourcesToSuspendAnimation v;
     _entityView := _entityView v;
     _enableInfoOrSelection := _enableInfoOrSelection v;
     _trackedEntity := _trackedEntity v;
     _needTrackedEntityUpdate := _needTrackedEntityUpdate v;
     _selectedEntity := _selectedEntity v; _zoomIsFlight := value;
     _zoomTarget := _zoomTarget v; _zoomPromise := _zoomPromise v;
     _zoomOptions := _zoomOptions v; _completeZoom := _completeZoom v;
     _selectedEntityChanged := _selectedEntityChanged v;
     _trackedEntityChanged := _trackedEntityChanged v |}.

Definition setZoomTarget (value : option ZoomTarget) (v : Viewer) : Viewer :=
  {| scene := scene v; clock := clock v;
     _dataSourceDisplay := _dataSourceDisplay v;
     _allowDataSourcesToSuspendAnimation := _allowDataSourcesToSuspendAnimation v;
     _entityView := _entityView v;
     _enableInfoOrSelection := _enableInfoOrSelection v;
     _trackedEntity := _trackedEntity v;
     _needTrackedEntityUpdate := _needTrackedEntityUpdate v;
     _selectedEntity := _selectedEntity v; _zoomIsFlight := _zoomIsFlight v;
     _zoomTarget := value; _zoomPromise := _zoomPromise v;
     _zoomOptions := _zoomOptions v; _completeZoom := _completeZoom v;
     _selectedEntityChanged := _selectedEntityChanged v;
     _trackedEntityChanged := _trackedEntityChanged v |}.

Definition setZoomPromise (value : option PromiseId) (v : Viewer) : Viewer :=
  {| scene := scene v; clock := clock v;
     _dataSourceDisplay := _dataSourceDisplay v;
     _allowDataSourcesToSuspendAnimation := _allowDataSourcesToSuspendAnimation v;
     _entityView := _entityView v;
     _enableInfoOrSelection := _enableInfoOrSelection v;
     _trackedEntity := _trackedEntity v;
     _needTrackedEntityUpdate := _needTrackedEntityUpdate v;
     _selectedEntity := _selectedEntity v; _zoomIsFlight := _zoomIsFlight v;
     _zoomTarget := _zoomTarget v; _zoomPromise := value;
     _zoomOptions := _zoomOptions v; _completeZoom := _completeZoom v;
     _selectedEntityChanged := _selectedEntityChanged v;
     _trackedEntityChanged := _trackedEntityChanged v |}.

Definition setZoomOptions (value : option ZoomOptions) (v : Viewer) : Viewer :=
  {| scene := scene v; clock := clock v;
     _dataSourceDisplay := _dataSourceDisplay v;
     _allowDataSourcesToSuspendAnimation := _allowDataSourcesToSuspendAnimation v;
     _entityView := _entityView v;
     _enableInfoOrSelection := _enableInfoOrSelection v;
     _trackedEntity := _trackedEntity v;
     _needTrackedEntityUpdate := _needTrackedEntityUpdate v;
     _selectedEntity := _selectedEntity v; _zoomIsFlight := _zoomIsFlight v;
     _zoomTarget := _zoomTarget v; _zoomPromise := _zoomPromise v;
     _zoomOptions := value; _completeZoom := _completeZoom v;
     _selectedEntityChanged := _selectedEntityChanged v;
     _trackedEntityChanged := _trackedEntityChanged v |}.

Definition setCompleteZoom (value : option PromiseId) (v : Viewer) : Viewer :=
  {| scene := scene v; clock := clock v;
     _dataSourceDisplay := _dataSourceDisplay v;
     _allowDataSourcesToSuspendAnimation := _allowDataSourcesToSuspendAnimation v;
     _entityView := _entityView v;
     _enableInfoOrSelection := _enableInfoOrSelection v;
     _trackedEntity := _trackedEntity v;
     _needTrackedEntityUpdate := _needTrackedEntityUpdate v;
     _selectedEntity := _selectedEntity v; _zoomIsFlight := _zoomIsFlight v;
     _zoomTarget := _zoomTarget v; _zoomPromise := _zoomPromise v;
     _zoomOptions := _zoomOptions v; _completeZoom := value;
     _selectedEntityChanged := _selectedEntityChanged v;
     _trackedEntityChanged := _trackedEntityChanged v |}.

Definition setSelectedEntityChanged (value : list (option Entity)) (v : Viewer) : Viewer :=
  {| scene := scene v; clock := clock v;
     _dataSourceDisplay := _dataSourceDisplay v;
     _allowDataSourcesToSuspendAnimation := _allowDataSourcesToSuspendAnimation v;
     _entityView := _entityView v;
     _enableInfoOrSelection := _enableInfoOrSelection v;
     _trackedEntity := _trackedEntity v;
     _needTrackedEntityUpdate := _needTrackedEntityUpdate v;
     _selectedEntity := _selectedEntity v; _zoomIsFlight := _zoomIsFlight v;
     _zoomTarget := _zoomTarget v; _zoomPromise := _zoomPromise v;
     _zoomOptions := _zoomOptions v; _completeZoom := _completeZoom v;
     _selectedEntityChanged := value;
     _trackedEntityChanged := _trackedEntityChanged v |}.

Definition setTrackedEntityChanged (value : list (option Entity)) (v : Viewer) : Viewer :=
  {| scene := scene v; clock := clock v;
     _dataSourceDisplay := _dataSourceDisplay v;
     _allowDataSourcesToSuspendAnimation := _allowDataSourcesToSuspendAnimation v;
     _entityView := _entityView v;
     _enableInfoOrSelection := _enableInfoOrSelection v;
     _trackedEntity := _trackedEntity v;
     _needTrackedEntityUpdate := _needTrackedEntityUpdate v;
     _selectedEntity := _selectedEntity v; _zoomIsFlight := _zoomIsFlight v;
     _zoomTarget := _zoomTarget v; _zoomPromise := _zoomPromise v;
     _zoomOptions := _zoomOptions v; _completeZoom := _completeZoom v;
     _selectedEntityChanged := _selectedEntityChanged v;
     _trackedEntityChanged := value |}.

Definition setMode (value : SceneMode) (s : Scene) : Scene :=
  {| mode := value; enableTranslate := enableTranslate s;
     enableTilt := enableTilt s; transform := transform s;
     cameraCalls := cameraCalls s; renderRequests := renderRequests s |}.

Definition setEnableTranslate (value : bool) (s : Scene) : Scene :=
  {| mode := mode s; enableTranslate := value; enableTilt := enableTilt s;
     transform := transform s; cameraCalls := cameraCalls s;
     renderRequests := renderRequests s |}.

Definition setEnableTilt (value : bool) (s : Scene) : Scene :=
  {| mode := mode s; enableTranslate := enableTranslate s;
     enableTilt := value; transform := transform s;
     cameraCalls := cameraCalls s; renderRequests := renderRequests s |}.

Definition setTransform (value : Matrix4) (s : Scene) : Scene :=
  {| mode := mode s; enableTranslate := enableTranslate s;
     enableTilt := enableTilt s; transform := value;
     cameraCalls := cameraCalls s; renderRequests := renderRequests s |}.

Definition setCameraCalls (value : list Camera.Call) (s : Scene) : Scene :=
  {| mode := mode s; enableTranslate := enableTranslate s;
     enableTilt := enableTilt s; transform := transform s;
     cameraCalls := value; renderRequests := renderRequests s |}.

Definition setRenderRequests (value : nat) (s : Scene) : Scene :=
  {| mode := mode s; enableTranslate := enableTranslate s;
     enableTilt := enableTilt s; transform := transform s;
     cameraCalls := cameraCalls s; renderRequests := value |}.

Definition setViewer (value : Viewer) (w : World) : World :=
  {| viewer := value; boundingSphereScratch := boundingSphereScratch w;
     arrays := arrays w; promises := promises w;
     resolveCalls := resolveCalls w; pending := pending w |}.

Definition setScratch (value : BoundingSphere) (w : World) : World :=
  {| viewer := viewer w; boundingSphereScratch := value; arrays := arrays w;
     promises := promises w; resolveCalls := resolveCalls w;
     pending := pending w |}.

Definition setArrays (value : gmap ArrayRef (list Entity)) (w : World) : World :=
  {| viewer := viewer w; boundingSphereScratch := boundingSphereScratch w;
     arrays := value; promises := promises w; resolveCalls := resolveCalls w;
     pending := pending w |}.

Definition setPromises (value : list (option bool)) (w : World) : World :=
  {| viewer := viewer w; boundingSphereScratch := boundingSphereScratch w;
     arrays := arrays w; promises := value; resolveCalls := resolveCalls w;
     pending := pending w |}.

Definition setResolveCalls (value : list (PromiseId * bool)) (w : World) : World :=
  {| viewer := viewer w; boundingSphereScratch := boundingSphereScratch w;
     arrays := arrays w; promises := promises w; resolveCalls := value;
     pending := pending w |}.

Definition setPending (value : list Callback) (w : World) : World :=
  {| viewer := viewer w; boundingSphereScratch := boundingSphereScratch w;
     arrays := arrays w; promises := promises w;
     resolveCalls := resolveCalls w; pending := value |}.

(** [w.viewer.field = value] and [w.viewer.scene.field = value]. *)
Definition onViewer (f : Viewer -> Viewer) (w : World) : World :=
  setViewer (f (viewer w)) w.

Definition onScene (f : Scene -> Scene) (w : World) : World :=
  onViewer (updScene f) w.

(** ** JavaScript helpers *)

Definition defined {A} (value : option A) : bool :=
  match value with Some _ => true | None => false end.

Definition defaultValue {A} (value : option A) (fallback : A) : A :=
  match value with Some a => a | None => fallback end.

(** [a === b] on two entity references (or [undefined]). *)
Definition sameEntity (a b : option Entity) : bool :=
  match a, b with
  | Some e1, Some e2 => objectId e1 =? objectId e2
  | None, None => true
  | _, _ => false
  end.

(** [that._zoomPromise === zoomPromise] *)
Definition samePromise (a : option PromiseId) (zoomPromise : PromiseId) : bool :=
  match a with
  | Some p => p =? zoomPromise
  | None => false
  end.

(** [array.slice(0)] and [[entity]]: a new array with the given contents;
    its reference is one the heap does not use yet. *)
Definition newArray (contents : list Entity) (w : World) : ArrayRef * World :=
  let r := fresh (dom (arrays w)) in
  (r, setArrays (<[r := contents]> (arrays w)) w).

Definition readArray (array : ArrayRef) (w : World) : list Entity :=
  default [] (arrays w !! array).

Definition slice0 (array : ArrayRef) (w : World) : ArrayRef * World :=
  newArray (readArray array w) w.

(** [resolve(value)] of the promise [p]: only the first call settles it. *)
Definition resolve (p : PromiseId) (value : bool) (w : World) : World :=
  let w := setResolveCalls (resolveCalls w ++ [(p, value)]) w in
  match promises w !! p with
  | Some None => setPromises (<[p := Some value]> (promises w)) w
  | _ => w
  end.

(** The outcome of the promise [p]: [Some b] once it has resolved to [b]. *)
Definition outcome (w : World) (p : PromiseId) : option bool :=
  default None (promises w !! p).

Definition addCallback (c : Callback) (w : World) : World :=
  setPending (pending w ++ [c]) w.

(** ** The scene and the camera *)

Definition requestRender (w : World) : World :=
  onScene (fun s => setRenderRequests (S (renderRequests s)) s) w.

Definition call (c : Camera.Call) (w : World) : World :=
  onScene (fun s => setCameraCalls (cameraCalls s ++ [c]) s) w.

Definition camera_lookAtTransform (matrix : Matrix4) (w : World) : World :=
  call (Camera.lookAtTransform matrix) (onScene (setTransform matrix) w).

Definition camera_viewBoundingSphere (sphere : BoundingSphere)
    (offset : option HeadingPitchRange) (w : World) : World :=
  call (Camera.viewBoundingSphere sphere offset) w.

Definition camera_setView (destination : Cartesian3) (w : World) : World :=
  call (Camera.setView destination) w.

(** A flight keeps the two functions [complete] and [cancel] of its
    options; both look up [viewer._completeZoom] when they are invoked. *)
Definition camera_flyToBoundingSphere (sphere : BoundingSphere)
    (options : ZoomOptions) (w : World) : World :=
  addCallback Flight (call (Camera.flyToBoundingSphere sphere options) w).

Definition camera_flyTo (destination : Cartesian3)
    (duration maximumHeight : option Number) (w : World) : World :=
  addCallback Flight (call (Camera.flyTo destination duration maximumHeight) w).

(** ** Zoom requests *)

(** [viewer._completeZoom(value)].  The field is assigned by the first
    [zoomToOrFly]; before that nothing invokes it ([completeZoom_installed]). *)
Definition completeZoom (value : bool) (w : World) : World :=
  match _completeZoom (viewer w) with
  | Some p => resolve p value w
  | None => w
  end.

Definition clearZoom (w : World) : World :=
  let w := onViewer (setZoomPromise None) w in
  let w := onViewer (setZoomTarget None) w in
  onViewer (setZoomOptions None) w.

Definition cancelZoom (w : World) : World :=
  let zoomPromise := _zoomPromise (viewer w) in
  if defined zoomPromise then
    let w := clearZoom w in
    completeZoom false w
  else w.

(** ** Tracked and selected entity *)

Definition hasPosition (value : option Entity) : bool :=
  match value with
  | Some e => defined (position e)
  | None => false
  end.

(** The setter of [trackedEntity]. *)
Definition set_trackedEntity (value : option Entity) (w : World) : World :=
  if negb (sameEntity (_trackedEntity (viewer w)) value) then
    let w := onViewer (setTrackedEntity value) w in
    (* Cancel any pending zoom *)
    let w := cancelZoom w in
    let sceneMode := mode (scene (viewer w)) in
    let w :=
      (* Stop tracking *)
      if negb (defined value) || negb (hasPosition value) then
        let w := onViewer (setNeedTrackedEntityUpdate false) w in
        let w :=
          if SceneMode_eqb sceneMode COLUMBUS_VIEW || SceneMode_eqb sceneMode SCENE2D
          then onScene (setEnableTranslate true) w else w in
        let w :=
          if SceneMode_eqb sceneMode COLUMBUS_VIEW || SceneMode_eqb sceneMode SCENE3D
          then onScene (setEnableTilt true) w else w in
        let w := onViewer (setEntityView None) w in
        camera_lookAtTransform IDENTITY w
      else
        onViewer (setNeedTrackedEntityUpdate true) w in
    let w :=
      onViewer (fun v => setTrackedEntityChanged (_trackedEntityChanged v ++ [value]) v) w in
    requestRender w
  else w.

(** The setter of [selectedEntity]. *)
Definition set_selectedEntity (value : option Entity) (w : World) : World :=
  if negb (sameEntity (_selectedEntity (viewer w)) value) then
    let w := onViewer (setSelectedEntity value) w in
    onViewer (fun v => setSelectedEntityChanged (_selectedEntityChanged v ++ [value]) v) w
  else w.

(** [entityCollection.getById(entity.id) === entity] *)
Definition owns (entityCollection : EntityCollection) (entity : Entity) : bool :=
  sameEntity (getById entityCollection !! id entity) (Some entity).

(** [Viewer.prototype._dataSourceRemoved] *)
Definition _dataSourceRemoved (dataSource : DataSource) (w : World) : World :=
  let entityCollection := entities dataSource in
  let w :=
    match _trackedEntity (viewer w) with
    | Some trackedEntity =>
        if owns entityCollection trackedEntity then set_trackedEntity None w else w
    | None => w
    end in
  match _selectedEntity (viewer w) with
  | Some selectedEntity =>
      if owns entityCollection selectedEntity then set_selectedEntity None w else w
  | None => w
  end.

(** [Viewer.prototype._onEntityCollectionChanged]: the loop over [removed]. *)
Fixpoint _onEntityCollectionChanged (removed : list Entity) (w : World) : World :=
  match removed with
  | [] => w
  | removedObject :: rest =>
      let w :=
        if sameEntity (_trackedEntity (viewer w)) (Some removedObject)
        then set_trackedEntity None w else w in
      let w :=
        if sameEntity (_selectedEntity (viewer w)) (Some removedObject)
        then set_selectedEntity None w else w in
      _onEntityCollectionChanged rest w
  end.

(** [Viewer.prototype._clearTrackedObject], the [morphStart] listener. *)
Definition _clearTrackedObject (w : World) : World :=
  set_trackedEntity None w.

(** ** Clock ticks *)

Definition entityView_update (time : JulianDate) (sphere : option BoundingSphere)
    (entityView : EntityView) : EntityView :=
  {| followed := followed entityView;
     updates := updates entityView ++ [(time, sphere)] |}.

(** [Viewer.prototype._onTick].  The selection branch at its end only
    computes two locals, but its query writes the shared scratch sphere.
    A follower helper without a tracked entity does not occur
    ([entityView_has_tracked]); the engine would reject the query. *)
Definition _onTick (w : World) : World :=
  let time := currentTime (clock (viewer w)) in
  let isUpdated := update (_dataSourceDisplay (viewer w)) time in
  let w :=
    if _allowDataSourcesToSuspendAnimation (viewer w) then
      onViewer (setClock {| currentTime := time; canAnimate := isUpdated |}) w
    else w in
  let w :=
    match _entityView (viewer w), _trackedEntity (viewer w) with
    | Some entityView, Some trackedEntity =>
        let '(trackedState, scratch) :=
          getBoundingSphere (_dataSourceDisplay (viewer w)) trackedEntity false
            (boundingSphereScratch w) in
        let w := setScratch scratch w in
        if BoundingSphereState_eqb trackedState DONE then
          onViewer (setEntityView (Some (entityView_update time (Some scratch) entityView))) w
        else w
    | _, _ => w
    end in
  match _selectedEntity (viewer w) with
  | Some selectedEntity =>
      if _enableInfoOrSelection (viewer w) && isShowing selectedEntity
         && isAvailable selectedEntity time then
        let '(_, scratch) :=
          getBoundingSphere (_dataSourceDisplay (viewer w)) selectedEntity true
            (boundingSphereScratch w) in
        setScratch scratch w
      else w
  | None => w
  end.

(** ** Starting to follow the tracked entity *)

(** [Property.getValueOrUndefined(property, time)] *)
Definition getValueOrUndefined (property : option (JulianDate -> option Cartesian3))
    (time : JulianDate) : option Cartesian3 :=
  match property with
  | Some p => p time
  | None => None
  end.

Definition updateTrackedEntity (w : World) : World :=
  if negb (_needTrackedEntityUpdate (viewer w)) then w
  else
    match _trackedEntity (viewer w) with
    | None => w
    | Some trackedEntity =>
        let currentTime := currentTime (clock (viewer w)) in
        let currentPosition := getValueOrUndefined (position trackedEntity) currentTime in
        if negb (defined currentPosition) then w
        else
          let '(state, scratch) :=
            getBoundingSphere (_dataSourceDisplay (viewer w)) trackedEntity false
              (boundingSphereScratch w) in
          let w := setScratch scratch w in
          if BoundingSphereState_eqb state PENDING then w
          else
            let sceneMode := mode (scene (viewer w)) in
            let w :=
              if SceneMode_eqb sceneMode COLUMBUS_VIEW || SceneMode_eqb sceneMode SCENE2D
              then onScene (setEnableTranslate false) w else w in
            let w :=
              if SceneMode_eqb sceneMode COLUMBUS_VIEW || SceneMode_eqb sceneMode SCENE3D
              then onScene (setEnableTilt false) w else w in
            let bs :=
              if negb (BoundingSphereState_eqb state FAILED) then Some scratch else None in
            let entityView := {| followed := trackedEntity; updates := [] |} in
            let w :=
              onViewer (setEntityView (Some (entityView_update currentTime bs entityView))) w in
            onViewer (setNeedTrackedEntityUpdate false) w
    end.

(** ** [zoomTo] and [flyTo] *)

Record DeveloperError := { message : string }.

Inductive Completion (A : Type) :=
| Return (value : A)
| Throw (error : DeveloperError).
Arguments Return {A} value.
Arguments Throw {A} error.

(** [zoomToOrFly]: the part that runs during the call.  The function given
    to [then] is [thenTarget] below. *)
Definition zoomToOrFly (zoomTarget : option ZoomArg) (options : option ZoomOptions)
    (isFlight : bool) (that : World) : Completion PromiseId * World :=
  match zoomTarget with
  | None => (Throw {| message := "zoomTarget is required." |}, that)
  | Some zoomTarget =>
      let that := cancelZoom that in
      (* new Promise(...): the executor assigns [_completeZoom] *)
      let zoomPromise := length (promises that) in
      let that := setPromises (promises that ++ [None]) that in
      let that := onViewer (setCompleteZoom (Some zoomPromise)) that in
      let that := onViewer (setZoomPromise (Some zoomPromise)) that in
      let that := onViewer (setZoomIsFlight isFlight) that in
      let that := onViewer (setZoomOptions options) that in
      let that := addCallback (ThenTarget zoomPromise zoomTarget) that in
      let that := requestRender that in
      (Return zoomPromise, that)
  end.

Definition zoomTo (target : option ZoomArg) (offset : option HeadingPitchRange)
    (w : World) : Completion PromiseId * World :=
  let options := {| offset := offset; duration := None; maximumHeight := None |} in
  zoomToOrFly target (Some options) false w.

Definition flyTo (target : option ZoomArg) (options : option ZoomOptions)
    (w : World) : Completion PromiseId * World :=
  zoomToOrFly target options true w.

(** [that._zoomTarget = array.slice(0)] *)
Definition storeCopy (array : ArrayRef) (that : World) : World :=
  let '(copy, that) := slice0 array that in
  onViewer (setZoomTarget (Some (TargetEntities copy))) that.

(** The function given to [Promise.resolve(zoomTarget).then]. *)
Definition thenTarget (zoomPromise : PromiseId) (zoomTarget : ZoomArg)
    (that : World) : World :=
  (* Only perform the zoom if it wasn't cancelled before the promise resolved. *)
  if negb (samePromise (_zoomPromise (viewer that)) zoomPromise) then that
  else
    match zoomTarget with
    | ImageryLayerArg layer =>
        (* rectanglePromise.then(...).then(...) *)
        addCallback (ThenPosition zoomPromise layer) that
    | PrimitiveArg primitive =>
        onViewer (setZoomTarget (Some (TargetPrimitive primitive))) that
    | DataSourceArg dataSource =>
        if isLoading dataSource && loadingEvent dataSource then
          addCallback (OnLoaded zoomPromise dataSource) that
        else
          (* [values] is undefined on a data source, [entities] is not *)
          storeCopy (values (entities dataSource)) that
    | ArrayArg array => storeCopy array that
    | EntityCollectionArg collection =>
        (* zoomTarget = defaultValue(zoomTarget.values, zoomTarget) *)
        storeCopy (values collection) that
    | EntityArg entity =>
        (* Single entity *)
        let '(array, that) := newArray [entity] that in
        onViewer (setZoomTarget (Some (TargetEntities array))) that
    end.

(** The listener of [loadingEvent]. *)
Definition onLoaded (zoomPromise : PromiseId) (dataSource : DataSource)
    (that : World) : World :=
  if samePromise (_zoomPromise (viewer that)) zoomPromise then
    storeCopy (values (entities dataSource)) that
  else that.

Section WithEngine.
Context `{Engine}.

(** The last function of the imagery-layer chain. *)
Definition thenPosition (zoomPromise : PromiseId) (layer : ImageryLayer)
    (that : World) : World :=
  let position := computeFlyToLocationForRectangle (getImageryRectangle layer) in
  if samePromise (_zoomPromise (viewer that)) zoomPromise then
    onViewer (setZoomTarget (Some (TargetCartographic position))) that
  else that.

(** The function given to [target._readyPromise.then] in both primitive
    branches of [updateZoomTarget].  [zoomOptions] is the object the pass
    read.  The source stores the default offset into that object; here
    options are values, so no two requests share an options object: every
    [FlyTo] brings options of its own, as every [zoomTo] does in the
    source. *)
Definition thenReady (target : Primitive) (zoomOptions : ZoomOptions)
    (w : World) : World :=
  let boundingSphere := boundingSphere target in
  let offset :=
    if negb (defined (offset zoomOptions)) then
      Some {| heading := 0%Q; pitch := (- (1 # 2))%Q; range := radius boundingSphere |}
    else offset zoomOptions in
  let options :=
    {| offset := offset; duration := duration zoomOptions;
       maximumHeight := maximumHeight zoomOptions |} in
  let w :=
    if _zoomIsFlight (viewer w) then
      camera_flyToBoundingSphere boundingSphere options w
    else
      let w := camera_viewBoundingSphere boundingSphere offset w in
      let w := camera_lookAtTransform IDENTITY w in
      (* Finish the promise *)
      completeZoom true w in
  clearZoom w.

(** The loop of [updateZoomTarget] over the entities: [None] when an
    entity is PENDING (the function returns), else the spheres pushed. *)
Fixpoint pollEntities (display : DataSourceDisplay) (entities : list Entity)
    (boundingSpheres : list BoundingSphere) (scratch : BoundingSphere)
  : option (list BoundingSphere) * BoundingSphere :=
  match entities with
  | [] => (Some boundingSpheres, scratch)
  | entity :: rest =>
      let '(state, scratch) := getBoundingSphere display entity false scratch in
      if BoundingSphereState_eqb state PENDING then (None, scratch)
      else if negb (BoundingSphereState_eqb state FAILED) then
        pollEntities display rest (boundingSpheres ++ [scratch]) scratch
      else
        pollEntities display rest boundingSpheres scratch
  end.

Definition updateZoomTarget (w : World) : World :=
  match _zoomTarget (viewer w) with
  | None => w
  | Some target =>
      if SceneMode_eqb (mode (scene (viewer w))) MORPHING then w
      else
        let zoomOptions := defaultValue (_zoomOptions (viewer w)) emptyOptions in
        match target with
        | TargetPrimitive primitive =>
            match class primitive with
            | Cesium3DTileset | VoxelPrimitive =>
                addCallback (ThenReady primitive zoomOptions true) w
            | TimeDynamicPointCloud =>
                addCallback (ThenReady primitive zoomOptions false) w
            end
        | TargetCartographic location =>
            let destination := cartographicToCartesian location in
            let w :=
              if _zoomIsFlight (viewer w) then
                camera_flyTo destination (duration zoomOptions) (maximumHeight zoomOptions) w
              else
                let w := camera_setView destination w in
                completeZoom true w in
            clearZoom w
        | TargetEntities array =>
            let entities := readArray array w in
            let '(polled, scratch) :=
              pollEntities (_dataSourceDisplay (viewer w)) entities []
                (boundingSphereScratch w) in
            let w := setScratch scratch w in
            match polled with
            | None => w
            | Some boundingSpheres =>
                if length boundingSpheres =? 0 then cancelZoom w
                else
                  (* Stop tracking the current entity. *)
                  let w := set_trackedEntity None w in
                  let boundingSphere := fromBoundingSpheres boundingSpheres in
                  if negb (_zoomIsFlight (viewer w)) then
                    let w := camera_viewBoundingSphere boundingSphere (offset zoomOptions) w in
                    let w := camera_lookAtTransform IDENTITY w in
                    let w := clearZoom w in
                    completeZoom true w
                  else
                    let w := clearZoom w in
                    camera_flyToBoundingSphere boundingSphere
                      {| duration := duration zoomOptions;
                         maximumHeight := maximumHeight zoomOptions;
                         offset := offset zoomOptions |} w
            end
        end
  end.

(** [Viewer.prototype._postRender] *)
Definition _postRender (w : World) : World :=
  updateTrackedEntity (updateZoomTarget w).

(** ** The event loop

    What a pending callback does when the environment invokes it.  [ok]
    tells how the promise it waits for settled (fulfilled or rejected) and,
    for a flight, whether the camera calls [complete] or [cancel]; a
    listener or a [then] function without a rejection handler does nothing
    on a rejection. *)
Definition invoke (c : Callback) (ok : bool) (w : World) : World :=
  match c with
  | ThenTarget zoomPromise zoomTarget =>
      if ok then thenTarget zoomPromise zoomTarget w else w
  | ThenPosition zoomPromise layer =>
      if ok then thenPosition zoomPromise layer w else w
  | OnLoaded zoomPromise dataSource =>
      if ok then onLoaded zoomPromise dataSource w else w
  | ThenReady target zoomOptions hasCatch =>
      if ok then thenReady target zoomOptions w
      else if hasCatch then cancelZoom w
      else w
  | Flight => completeZoom ok w
  end.

(** Everything that can happen to a viewer: calls of its interface by the
    application, and the engine raising the events the constructor
    subscribed to, settling promises, finishing flights and advancing its
    own state. *)
Inductive Event :=
| ZoomTo (target : option ZoomArg) (offset : option HeadingPitchRange)
| FlyTo (target : option ZoomArg) (options : option ZoomOptions)
| Invoke (index : nat) (ok : bool)
| PostRender
| Tick (time : JulianDate)
| SetTrackedEntity (value : option Entity)
| SetSelectedEntity (value : option Entity)
| DataSourceRemoved (dataSource : DataSource)
| EntityCollectionChanged (removed : list Entity)
| MorphStart
| SetMode (sceneMode : SceneMode)
| Visualize (display : DataSourceDisplay)
| ArrayWrite (array : ArrayRef) (contents : list Entity).

Definition step (w : World) (e : Event) : World :=
  match e with
  | ZoomTo target offset => snd (zoomTo target offset w)
  | FlyTo target options => snd (flyTo target options w)
  | Invoke index ok =>
      match pending w !! index with
      | Some c => invoke c ok (setPending (delete index (pending w)) w)
      | None => w
      end
  | PostRender => _postRender w
  | Tick time =>
      _onTick (onViewer (fun v =>
        setClock {| currentTime := time; canAnimate := canAnimate (clock v) |} v) w)
  | SetTrackedEntity value => set_trackedEntity value w
  | SetSelectedEntity value => set_selectedEntity value w
  | DataSourceRemoved dataSource => _dataSourceRemoved dataSource w
  | EntityCollectionChanged removed => _onEntityCollectionChanged removed w
  | MorphStart => _clearTrackedObject w
  | SetMode sceneMode => onScene (setMode sceneMode) w
  | Visualize display => onViewer (setDataSourceDisplay display) w
  | ArrayWrite array contents => setArrays (<[array := contents]> (arrays w)) w
  end.

Definition run (w : World) (events : list Event) : World :=
  foldl step w events.

End WithEngine.

(** The viewer as the constructor leaves it. *)
Definition initial (sceneMode : SceneMode) (display : DataSourceDisplay) : World :=
  {| viewer :=
       {| scene :=
            {| mode := sceneMode; enableTranslate := true; enableTilt := true;
               transform := IDENTITY; cameraCalls := []; renderRequests := 0 |};
          clock := {| currentTime := 0; canAnimate := true |};
          _dataSourceDisplay := display;
          _allowDataSourcesToSuspendAnimation := true;
          _entityView := None;
          _enableInfoOrSelection := false;
          _trackedEntity := None;
          _needTrackedEntityUpdate := false;
          _selectedEntity := None;
          _zoomIsFlight := false;
          _zoomTarget := None;
          _zoomPromise := None;
          _zoomOptions := None;
          _completeZoom := None;
          _selectedEntityChanged := [];
          _trackedEntityChanged := [] |};
     boundingSphereScratch :=
       {| center := {| cx := 0%Q; cy := 0%Q; cz := 0%Q |}; radius := 0%Q |};
     arrays := ∅;
     promises := [];
     resolveCalls := [];
     pending := [] |}.

(** ** Predicates used by the properties *)

(** What holds of the zoom fields after any sequence of events: the
    installed promise is the one [_completeZoom] resolves, which is the
    latest promise made; a stored target belongs to an installed promise;
    and no callback is pending before the first request. *)
Record consistent (w : World) : Prop := {
  promise_installed :
    ∀ p, _zoomPromise (viewer w) = Some p → _completeZoom (viewer w) = Some p;
  resolver_latest :
    ∀ q, _completeZoom (viewer w) = Some q → S q = length (promises w);
  target_has_promise :
    ∀ t, _zoomTarget (viewer w) = Some t → is_Some (_zoomPromise (viewer w));
  completeZoom_installed :
    _completeZoom (viewer w) = None → pending w = [] ∧ promises w = []
}.

(** No promise is lost between [w] and [w'], and the promises made before
    the latest one of [w] are as they were. *)
Definition earlier_kept (w w' : World) : Prop :=
  length (promises w) ≤ length (promises w') ∧
  ∀ p, S p < length (promises w) → promises w' !! p = promises w !! p.

(** [w] is a consistent successor of [w0]. *)
Definition after (w0 w : World) : Prop :=
  consistent w ∧ earlier_kept w0 w.

(** The fields the invariants read. *)
Definition zoomFields (w : World) :=
  (_zoomPromise (viewer w), _completeZoom (viewer w), _zoomTarget (viewer w),
   pending w, promises w).

(** A follower helper exists only while an entity with a position is
    tracked. *)
Definition tracking_consistent (w : World) : Prop :=
  is_Some (_entityView (viewer w)) →
  hasPosition (_trackedEntity (viewer w)) = true.

(** The entities a render pass polls for the stored target. *)
Definition polledEntities (w : World) : list Entity :=
  match _zoomTarget (viewer w) with
  | Some (TargetEntities array) => readArray array w
  | _ => []
  end.

#[global] Instance BoundingSphereState_eq_dec : EqDecision BoundingSphereState.
Proof. solve_decision. Defined.

(** The spheres of the entities that did not report FAILED, in the order
    of the list. *)
Definition usableSpheres (display : DataSourceDisplay) (entities : list Entity)
  : list BoundingSphere :=
  (λ e, sphereValue display e false) <$>
    filter (λ e, sphereState display e false ≠ FAILED) entities.

(** The array an argument is normalised from, when it is a list. *)
Definition sourceArray (zoomTarget : ZoomArg) : option ArrayRef :=
  match zoomTarget with
  | ArrayArg array => Some array
  | EntityCollectionArg collection => Some (values collection)
  | DataSourceArg dataSource =>
      if isLoading dataSource && loadingEvent dataSource then None
      else Some (values (entities dataSource))
  | _ => None
  end.

(** The application assigns [contents] to the elements of [array]. *)
Definition writeEvent (write : ArrayRef * list Entity) : Event :=
  ArrayWrite write.1 write.2.

(** ** Concrete scenes for the examples *)

Module Scenario.

Definition origin : Cartesian3 := {| cx := 0%Q; cy := 0%Q; cz := 0%Q |}.

Definition ball (r : nat) : BoundingSphere :=
  {| center := origin; radius := (Z.of_nat r # 1)%Q |}.

(** A model without a position, and a vehicle that has one. *)
Definition beacon : Entity :=
  {| objectId := 1; id := "beacon"; position := None;
     isShowing := true; isAvailable := λ _, true |}.

Definition rover : Entity :=
  {| objectId := 2; id := "rover"; position := Some (λ _, Some origin);
     isShowing := true; isAvailable := λ _, true |}.

Definition tower : Entity :=
  {| objectId := 3; id := "tower"; position := None;
     isShowing := true; isAvailable := λ _, true |}.

(** Every entity visualised, with a sphere of radius [objectId]. *)
Definition allDone : DataSourceDisplay :=
  {| update := λ _, true;
     sphereState := λ _ _, DONE;
     sphereValue := λ e _, ball (objectId e) |}.

(** Nothing visualised. *)
Definition allFailed : DataSourceDisplay :=
  {| update := λ _, true;
     sphereState := λ _ _, FAILED;
     sphereValue := λ e _, ball (objectId e) |}.

(** Only the beacon is visualised. *)
Definition beaconOnly : DataSourceDisplay :=
  {| update := λ _, true;
     sphereState := λ e _, if objectId e =? 1 then DONE else FAILED;
     sphereValue := λ e _, ball (objectId e) |}.

Definition allPending : DataSourceDisplay :=
  {| update := λ _, false;
     sphereState := λ _ _, PENDING;
     sphereValue := λ e _, ball (objectId e) |}.

Definition cloud : Primitive :=
  {| class := TimeDynamicPointCloud; boundingSphere := ball 5 |}.

(** A stand-in engine for the examples: the sphere it makes of a list of
    spheres sits at the origin with the summed radii. *)
Definition sumEngine : Engine :=
  {| fromBoundingSpheres := λ l,
       {| center := origin; radius := foldr Qplus 0%Q (radius <$> l) |};
     cartographicToCartesian := λ c,
       {| cx := longitude c; cy := latitude c; cz := height c |};
     computeFlyToLocationForRectangle := λ r,
       {| longitude := west r; latitude := south r; height := 0%Q |} |}.

(** [flyTo([beacon])], its settlement on the next pass, and a second
    [flyTo] made while the first flight is still under way. *)
Definition flightThenRequest : list Event :=
  [ArrayWrite 0 [beacon];
   FlyTo (Some (ArrayArg 0)) None;
   Invoke 0 true;
   PostRender;
   FlyTo (Some (EntityArg tower)) None].

(** The camera follows the rover; [zoomTo(beacon)] is then requested and
    settles on the next pass. *)
Definition zoomWhileTracking : list Event :=
  [SetTrackedEntity (Some rover);
   ZoomTo (Some (EntityArg beacon)) None;
   Invoke 0 true;
   PostRender].

(** [flyTo(cloud)] where the readiness promise of the point cloud is
    rejected: the pass hands [then] its function, the rejection skips it. *)
Definition rejectedCloud : list Event :=
  [FlyTo (Some (PrimitiveArg cloud)) None;
   Invoke 0 true;
   PostRender;
   Invoke 0 false].

(** [flyTo([beacon])] settles and its flight starts; while the flight is
    under way [zoomTo(tower)] is called and normalised; then the flight
    completes.  The next pass finds the request on the tower. *)
Definition requestDuringFlight : list Event :=
  [ArrayWrite 0 [beacon];
   FlyTo (Some (ArrayArg 0)) None;
   Invoke 0 true;
   PostRender;
   ZoomTo (Some (EntityArg tower)) None;
   Invoke 1 true;
   Invoke 0 true].

(** A world with a pending snap request on the array [0]. *)
Definition pendingList (display : DataSourceDisplay) (contents : list Entity)
  : World :=
  run (H := sumEngine) (initial SCENE3D display)
    [ArrayWrite 0 contents; ZoomTo (Some (ArrayArg 0)) None; Invoke 0 true].

(** The rover is followed by the camera. *)
Definition following : World :=
  run (H := sumEngine) (initial SCENE3D allDone)
    [SetTrackedEntity (Some rover); PostRender].

End Scenario.

(** ** The info box and the layout *)

(** A call that ends with the runtime's [TypeError] (a property read on
    [undefined], a call of [undefined]) instead of a value. *)
Inductive Attempt (A : Type) :=
| Finished (value : A)
| TypeError.
Arguments Finished {A} value.
Arguments TypeError {A}.

(** [Viewer.prototype._onInfoBoxCameraClicked]; of the view model only
    [isCameraTracking] is read.  [selectedEntity.position] on an undefined
    selection is the [TypeError]. *)
Definition _onInfoBoxCameraClicked (isCameraTracking : bool) (w : World)
  : Attempt unit * World :=
  if isCameraTracking
     && sameEntity (_trackedEntity (viewer w)) (_selectedEntity (viewer w)) then
    (Finished (), set_trackedEntity None w)
  else
    match _selectedEntity (viewer w) with
    | None => (TypeError, w)
    | Some selectedEntity =>
        let position := position selectedEntity in
        if defined position then
          (Finished (), set_trackedEntity (Some selectedEntity) w)
        else
          (Finished (), snd (zoomTo (Some (EntityArg selectedEntity)) None w))
    end.

(** [Viewer.prototype._clearObjects] *)
Definition _clearObjects (w : World) : World :=
  set_selectedEntity None (set_trackedEntity None w).

(** The container as [resize] reads it, the size the viewer remembers,
    the two style properties it writes on the bottom container, and the
    calls of [cesiumWidget.resize()]. *)
Record Layout := {
  clientWidth : Z;
  clientHeight : Z;
  _lastWidth : Z;
  _lastHeight : Z;
  style_left : option string;
  style_bottom : option string;
  widgetResizes : nat
}.

(** [Viewer.prototype.resize] *)
Definition resize (l : Layout) : Layout :=
  let width := clientWidth l in
  let height := clientHeight l in
  let resized := S (widgetResizes l) in
  if (width =? _lastWidth l)%Z && (height =? _lastHeight l)%Z then
    {| clientWidth := clientWidth l; clientHeight := clientHeight l;
       _lastWidth := _lastWidth l; _lastHeight := _lastHeight l;
       style_left := style_left l; style_bottom := style_bottom l;
       widgetResizes := resized |}
  else
    {| clientWidth := clientWidth l; clientHeight := clientHeight l;
       _lastWidth := width; _lastHeight := height;
       style_left := Some "0px"; style_bottom := Some "0px";
       widgetResizes := resized |}.

(** [Viewer.prototype.forceResize] *)
Definition forceResize (l : Layout) : Layout :=
  resize
    {| clientWidth := clientWidth l; clientHeight := clientHeight l;
       _lastWidth := 0; _lastHeight := _lastHeight l;
       style_left := style_left l; style_bottom := style_bottom l;
       widgetResizes := widgetResizes l |}.

(** ** The clock and the data sources

    The part of the viewer that lets its clock follow the clock of a data
    source.  It shares no field with the zoom and tracking state, and has
    a state of its own here. *)

(** What [DataSourceClock.getValue(clock)] copies into the viewer's clock. *)
Definition ClockSettings := nat.

(** A data source as this part reads it: its identity, the id of its
    entity collection, and its optional clock. *)
Record ClockedSource := {
  sourceId : ObjectId;
  entitiesId : string;
  sourceClock : option ClockSettings
}.

(** [_dataSourceChangedListeners] is a plain object, [{}].  Its own
    properties are kept in two fields: those whose value is a removal
    function, and those that have been set to [undefined].  Under any
    other name a read finds what the object inherits from
    [Object.prototype], which the engine does not decide and which is
    part of the state: [inheritedMembers name] is [None] when there is no
    such member, and otherwise tells whether a call of the member on the
    table, without arguments, returns; it does not return when the member
    is not a function or rejects the call.  Entity-collection ids are
    taken to be names that an assignment stores on the object itself,
    which leaves out [__proto__]. *)
Record ClockTracking := {
  _automaticallyTrackDataSourceClocks : bool;
  _clockTrackedDataSource : option ClockedSource;
  (** the removal functions by entity-collection id: each unsubscribes from
      the [changedEvent] of the data source it was made for *)
  _dataSourceChangedListeners : gmap string ObjectId;
  (** the ids whose property has been set to [undefined] *)
  clearedListeners : gset string;
  inheritedMembers : string → option bool;
  (** the data sources whose [changedEvent] calls [_onDataSourceChanged] *)
  changedSubscriptions : list ObjectId;
  (** the calls of [getValue(clock)], oldest first *)
  clockValues : list ClockSettings
}.

Definition sameSource (a b : option ClockedSource) : bool :=
  match a, b with
  | Some s1, Some s2 => sourceId s1 =? sourceId s2
  | None, None => true
  | _, _ => false
  end.

(** [trackDataSourceClock(timeline, clock, dataSource)] *)
Definition trackDataSourceClock (dataSource : option ClockedSource)
    (t : ClockTracking) : ClockTracking :=
  match dataSource with
  | Some dataSource =>
      match sourceClock dataSource with
      | Some dataSourceClock =>
          {| _automaticallyTrackDataSourceClocks := _automaticallyTrackDataSourceClocks t;
             _clockTrackedDataSource := _clockTrackedDataSource t;
             _dataSourceChangedListeners := _dataSourceChangedListeners t;
             clearedListeners := clearedListeners t;
             inheritedMembers := inheritedMembers t;
             changedSubscriptions := changedSubscriptions t;
             clockValues := clockValues t ++ [dataSourceClock] |}
      | None => t
      end
  | None => t
  end.

(** The setter of [clockTrackedDataSource]. *)
Definition set_clockTrackedDataSource (value : option ClockedSource)
    (t : ClockTracking) : ClockTracking :=
  if negb (sameSource (_clockTrackedDataSource t) value) then
    trackDataSourceClock value
      {| _automaticallyTrackDataSourceClocks := _automaticallyTrackDataSourceClocks t;
         _clockTrackedDataSource := value;
         _dataSourceChangedListeners := _dataSourceChangedListeners t;
         clearedListeners := clearedListeners t;
         inheritedMembers := inheritedMembers t;
         changedSubscriptions := changedSubscriptions t;
         clockValues := clockValues t |}
  else t.

(** [Viewer.prototype._onDataSourceChanged] *)
Definition _onDataSourceChanged (dataSource : ClockedSource) (t : ClockTracking)
  : ClockTracking :=
  if sameSource (_clockTrackedDataSource t) (Some dataSource) then
    trackDataSourceClock (Some dataSource) t
  else t.

(** [Viewer.prototype._onDataSourceAdded] *)
Definition _onDataSourceAdded (dataSource : ClockedSource) (t : ClockTracking)
  : ClockTracking :=
  let t :=
    if _automaticallyTrackDataSourceClocks t then
      set_clockTrackedDataSource (Some dataSource) t
    else t in
  let id := entitiesId dataSource in
  (* removalFunc = this._eventHelper.add(dataSource.changedEvent, ...);
     this._dataSourceChangedListeners[id] = removalFunc *)
  {| _automaticallyTrackDataSourceClocks := _automaticallyTrackDataSourceClocks t;
     _clockTrackedDataSource := _clockTrackedDataSource t;
     _dataSourceChangedListeners :=
       <[id := sourceId dataSource]> (_dataSourceChangedListeners t);
     clearedListeners := clearedListeners t ∖ {[id]};
     inheritedMembers := inheritedMembers t;
     changedSubscriptions := changedSubscriptions t ++ [sourceId dataSource];
     clockValues := clockValues t |}.

(** One listener less on the [changedEvent] of the data source [source]. *)
Fixpoint unsubscribe (source : ObjectId) (subscriptions : list ObjectId)
  : list ObjectId :=
  match subscriptions with
  | [] => []
  | s :: rest => if s =? source then rest else s :: unsubscribe source rest
  end.

(** What a read of [this._dataSourceChangedListeners[id]] finds. *)
Inductive Listener :=
| Removal (subscribed : ObjectId)
| Inherited (returns : bool)
| Undefined.

Definition listenerAt (id : string) (t : ClockTracking) : Listener :=
  match _dataSourceChangedListeners t !! id with
  | Some subscribed => Removal subscribed
  | None =>
      if bool_decide (id ∈ clearedListeners t) then Undefined
      else
        match inheritedMembers t id with
        | Some returns => Inherited returns
        | None => Undefined
        end
  end.

(** [this._dataSourceChangedListeners[id]()]: the subscriptions after a
    call that returns.  A call of [undefined], and a call that does not
    return, is the [TypeError]. *)
Definition callListener (id : string) (t : ClockTracking) : Attempt (list ObjectId) :=
  match listenerAt id t with
  | Removal subscribed => Finished (unsubscribe subscribed (changedSubscriptions t))
  | Inherited true => Finished (changedSubscriptions t)
  | Inherited false | Undefined => TypeError
  end.

(** [Viewer.prototype._onDataSourceRemoved]; [dataSourceCollection] is the
    collection as the event passes it. *)
Definition _onDataSourceRemoved (dataSourceCollection : list ClockedSource)
    (dataSource : ClockedSource) (t : ClockTracking)
  : Attempt unit * ClockTracking :=
  let resetClock := sameSource (_clockTrackedDataSource t) (Some dataSource) in
  let id := entitiesId dataSource in
  match callListener id t with
  | TypeError => (TypeError, t)
  | Finished subscriptions =>
      (* this._dataSourceChangedListeners[id] = undefined *)
      let t :=
        {| _automaticallyTrackDataSourceClocks := _automaticallyTrackDataSourceClocks t;
           _clockTrackedDataSource := _clockTrackedDataSource t;
           _dataSourceChangedListeners := delete id (_dataSourceChangedListeners t);
           clearedListeners := {[id]} ∪ clearedListeners t;
           inheritedMembers := inheritedMembers t;
           changedSubscriptions := subscriptions;
           clockValues := clockValues t |} in
      if resetClock then
        let numDataSources := length dataSourceCollection in
        if _automaticallyTrackDataSourceClocks t && (0 <? numDataSources) then
          (Finished (),
           set_clockTrackedDataSource (dataSourceCollection !! (numDataSources - 1)) t)
        else
          (Finished (), set_clockTrackedDataSource None t)
      else (Finished (), t)
  end.

(** ** Concrete cases for the further properties *)

Module Cases.

(** A request for a snap view of the rover is installed and normalised
    while nothing is visualised yet. *)
Definition waiting : World := Scenario.pendingList Scenario.allPending [Scenario.rover].

(** [zoomTo(tileset)], normalised. *)
Definition tileset : Primitive :=
  {| class := Cesium3DTileset; boundingSphere := Scenario.ball 4 |}.

Definition tilesetRequest : World :=
  run (H := Scenario.sumEngine) (initial SCENE3D Scenario.allDone)
    [ZoomTo (Some (PrimitiveArg tileset)) None; Invoke 0 true].

(** [flyTo([beacon])], normalised, in the Columbus view. *)
Definition flightRequest : World :=
  run (H := Scenario.sumEngine) (initial COLUMBUS_VIEW Scenario.allDone)
    [ArrayWrite 0 [Scenario.beacon]; FlyTo (Some (ArrayArg 0)) None; Invoke 0 true].


Definition layer : ImageryLayer :=
  {| getImageryRectangle :=
       {| west := 1%Q; south := 2%Q; east := 3%Q; north := 4%Q |} |}.

Definition kml : ClockedSource :=
  {| sourceId := 10; entitiesId := "kml"; sourceClock := Some 100 |}.

Definition czml : ClockedSource :=
  {| sourceId := 11; entitiesId := "czml"; sourceClock := Some 200 |}.

(** The clock part as the constructor leaves it. *)
(** A viewer of 800 by 600 that has been laid out, its styles cleared
    since. *)
Definition laidOut : Layout :=
  {| clientWidth := 800; clientHeight := 600;
     _lastWidth := 800; _lastHeight := 600;
     style_left := None; style_bottom := None;
     widgetResizes := 1 |}.

(** What a plain object inherits when nothing has been added to
    [Object.prototype]: the functions that return when called without
    arguments, and the members whose call does not return (the two
    functions that want a function as an argument, and the accessor
    [__proto__], whose value is not a function). *)
Definition standardPrototype (name : string) : option bool :=
  if bool_decide (name ∈ ["constructor"; "hasOwnProperty"; "isPrototypeOf";
                          "propertyIsEnumerable"; "toLocaleString"; "toString";
                          "valueOf"; "__lookupGetter__"; "__lookupSetter__"])
  then Some true
  else if bool_decide (name ∈ ["__defineGetter__"; "__defineSetter__"; "__proto__"])
  then Some false
  else None.


Definition noSources (automatic : bool) : ClockTracking :=
  {| _automaticallyTrackDataSourceClocks := automatic;
     _clockTrackedDataSource := None;
     _dataSourceChangedListeners := ∅;
     clearedListeners := ∅;
     inheritedMembers := standardPrototype;
     changedSubscriptions := [];
     clockValues := [] |}.

End Cases.

(** * Properties *)

(** ** Promises *)

Lemma resolve_viewer p value w : viewer (resolve p value w) = viewer w.
Proof. unfold resolve. simpl. by destruct (promises w !! p) as [[?|]|]. Qed.

Lemma resolve_pending p value w : pending (resolve p value w) = pending w.
Proof. unfold resolve. simpl. by destruct (promises w !! p) as [[?|]|]. Qed.

Lemma resolve_arrays p value w : arrays (resolve p value w) = arrays w.
Proof. unfold resolve. simpl. by destruct (promises w !! p) as [[?|]|]. Qed.

Lemma resolve_scratch p value w :
  boundingSphereScratch (resolve p value w) = boundingSphereScratch w.
Proof. unfold resolve. simpl. by destruct (promises w !! p) as [[?|]|]. Qed.

Lemma resolve_calls p value w :
  resolveCalls (resolve p value w) = resolveCalls w ++ [(p, value)].
Proof. unfold resolve. simpl. by destruct (promises w !! p) as [[?|]|]. Qed.

Lemma resolve_length p value w :
  length (promises (resolve p value w)) = length (promises w).
Proof.
  unfold resolve. simpl. destruct (promises w !! p) as [[?|]|]; simpl; try done.
  by rewrite length_insert.
Qed.

Lemma resolve_other p q value w :
  p ≠ q → promises (resolve p value w) !! q = promises w !! q.
Proof.
  intros Hne. unfold resolve. simpl.
  destruct (promises w !! p) as [[?|]|]; simpl; try done.
  by rewrite list_lookup_insert_ne.
Qed.

(** The first [resolve] settles an unresolved promise ... *)
Lemma resolve_unresolved p value w :
  promises w !! p = Some None → outcome (resolve p value w) p = Some value.
Proof.
  intros Hp. unfold outcome, resolve. simpl. rewrite Hp. simpl.
  rewrite list_lookup_insert_eq; [done|]. by eapply lookup_lt_Some.
Qed.

(** ... and a later one changes nothing. *)
Lemma resolve_resolved p b value w :
  outcome w p = Some b → outcome (resolve p value w) p = Some b.
Proof.
  unfold outcome, resolve. simpl.
  destruct (promises w !! p) as [[?|]|] eqn:Hp; simpl; try done.
  by rewrite Hp.
Qed.

(** ** Invariants of the zoom state *)

Lemma earlier_kept_refl w : earlier_kept w w.
Proof. by split. Qed.

Lemma earlier_kept_trans w1 w2 w3 :
  earlier_kept w1 w2 → earlier_kept w2 w3 → earlier_kept w1 w3.
Proof.
  intros [Hl1 H1] [Hl2 H2]. split; [lia|].
  intros p Hp. rewrite H2 by lia. by apply H1.
Qed.

Lemma after_start w : consistent w → after w w.
Proof. intros Hw. split; [done | apply earlier_kept_refl]. Qed.

Lemma after_trans w0 w1 w2 : after w0 w1 → after w1 w2 → after w0 w2.
Proof. intros [_ H1] [Hc H2]. split; [done | by eapply earlier_kept_trans]. Qed.

Lemma consistent_same_fields w w' :
  zoomFields w' = zoomFields w → consistent w → consistent w'.
Proof.
  unfold zoomFields. intros [= E1 E2 E3 E4 E5] [H1 H2 H3 H4].
  split; rewrite ?E1, ?E2, ?E3, ?E4, ?E5; done.
Qed.

Lemma after_same_fields w0 w w' :
  zoomFields w' = zoomFields w → after w0 w → after w0 w'.
Proof.
  intros E [Hc Hk]. split; [by eapply consistent_same_fields|].
  unfold zoomFields in E. injection E as _ _ _ _ E5.
  unfold earlier_kept in *. by rewrite E5.
Qed.

Ltac world_simpl :=
  rewrite ?resolve_viewer, ?resolve_pending, ?resolve_arrays, ?resolve_scratch,
    ?resolve_length in *; simpl in *.

Lemma after_completeZoom w0 w value :
  after w0 w → after w0 (completeZoom value w).
Proof.
  intros Hw. eapply after_trans; [done|]. destruct Hw as [Hw _].
  unfold completeZoom.
  destruct (_completeZoom (viewer w)) as [q|] eqn:Hq; [|by apply after_start].
  destruct Hw as [H1 H2 H3 H4]. split.
  - split; world_simpl; try done. congruence.
  - split; world_simpl; [done|].
    intros p Hp. apply resolve_other. specialize (H2 _ Hq). lia.
Qed.

Lemma after_clearZoom w0 w : after w0 w → after w0 (clearZoom w).
Proof.
  intros [[H1 H2 H3 H4] Hk]. split; [|done]. split; simpl; done.
Qed.

Lemma after_cancelZoom w0 w : after w0 w → after w0 (cancelZoom w).
Proof.
  intros Hw. unfold cancelZoom.
  destruct (defined (_zoomPromise (viewer w))); [|done].
  by apply after_completeZoom, after_clearZoom.
Qed.

(** Storing a target is sound while a promise is installed. *)
Lemma after_setZoomTarget w0 w target :
  is_Some (_zoomPromise (viewer w)) → after w0 w →
  after w0 (onViewer (setZoomTarget target) w).
Proof.
  intros Hp [[H1 H2 H3 H4] Hk]. split; [|done]. split; simpl; done.
Qed.

(** Handing out a callback is sound once [_completeZoom] is assigned. *)
Lemma after_addCallback w0 w c :
  is_Some (_completeZoom (viewer w)) → after w0 w → after w0 (addCallback c w).
Proof.
  intros [q Hq] [[H1 H2 H3 H4] Hk]. split; [|done]. split; simpl; try done.
  congruence.
Qed.

Lemma samePromise_true a p : samePromise a p = true → a = Some p.
Proof.
  destruct a as [q|]; simpl; [|done]. intros Hq. f_equal. by apply Nat.eqb_eq.
Qed.

(** One step of a derivation of [after]: the zoom operations by their
    lemmas, updates of other fields by [after_same_fields]. *)
Ltac after_step :=
  match goal with
  | |- after _ (completeZoom _ _) => apply after_completeZoom
  | |- after _ (clearZoom _) => apply after_clearZoom
  | |- after _ (cancelZoom _) => apply after_cancelZoom
  | |- after _ (if ?c then _ else _) => destruct c eqn:?
  | |- after _ (match ?c with _ => _ end) => destruct c eqn:?
  | |- after _ (?f ?w) => apply (after_same_fields _ w); [reflexivity|]
  end.

Ltac after_auto := repeat first [assumption | after_step].

Lemma after_set_trackedEntity w0 w value :
  after w0 w → after w0 (set_trackedEntity value w).
Proof. intros Hw. unfold set_trackedEntity, camera_lookAtTransform. after_auto. Qed.

Lemma after_set_selectedEntity w0 w value :
  after w0 w → after w0 (set_selectedEntity value w).
Proof. intros Hw. unfold set_selectedEntity. after_auto. Qed.

Lemma after_dataSourceRemoved w0 w dataSource :
  after w0 w → after w0 (_dataSourceRemoved dataSource w).
Proof.
  intros Hw. unfold _dataSourceRemoved.
  set (w1 := match _trackedEntity (viewer w) with Some _ => _ | None => _ end).
  assert (after w0 w1) as Hw1.
  { subst w1. repeat case_match; try done. by apply after_set_trackedEntity. }
  clearbody w1. repeat case_match; try done. by apply after_set_selectedEntity.
Qed.

Lemma after_onEntityCollectionChanged w0 w removed :
  after w0 w → after w0 (_onEntityCollectionChanged removed w).
Proof.
  revert w. induction removed as [|removedObject rest IH]; intros w Hw; [done|].
  simpl. apply IH.
  set (w1 := if sameEntity (_trackedEntity (viewer w)) _ then _ else _).
  assert (after w0 w1) as Hw1.
  { subst w1. case_match; [by apply after_set_trackedEntity | done]. }
  clearbody w1. case_match; [by apply after_set_selectedEntity | done].
Qed.

Lemma after_onTick w0 w : after w0 w → after w0 (_onTick w).
Proof.
  intros Hw. unfold _onTick.
  repeat first [assumption | after_step | case_match].
Qed.

Lemma after_updateTrackedEntity w0 w :
  after w0 w → after w0 (updateTrackedEntity w).
Proof.
  intros Hw. unfold updateTrackedEntity.
  repeat first [assumption | after_step | case_match].
Qed.

Lemma after_zoomToOrFly w0 w zoomTarget options isFlight :
  after w0 w → after w0 (snd (zoomToOrFly zoomTarget options isFlight w)).
Proof.
  intros Hw. destruct zoomTarget as [zoomTarget|]; [|done]. simpl.
  apply (after_cancelZoom w0) in Hw. revert Hw.
  generalize (cancelZoom w). clear w. intros w Hw.
  eapply after_trans; [done|]. destruct Hw as [[H1 H2 H3 H4] _].
  split; [split|split]; simpl.
  - by intros p [= ->].
  - intros q [= <-]. rewrite length_app. simpl. lia.
  - done.
  - done.
  - rewrite length_app. lia.
  - intros p Hp. by rewrite lookup_app_l by lia.
Qed.

Lemma after_storeCopy w0 w array :
  is_Some (_zoomPromise (viewer w)) → after w0 w → after w0 (storeCopy array w).
Proof.
  intros Hp Hw. unfold storeCopy, slice0, newArray.
  apply after_setZoomTarget; [done|]. by apply (after_same_fields _ w).
Qed.

Lemma after_thenTarget w0 w zoomPromise zoomTarget :
  after w0 w → after w0 (thenTarget zoomPromise zoomTarget w).
Proof.
  intros Hw. unfold thenTarget.
  destruct (samePromise _ _) eqn:Hp; simpl; [|done].
  apply samePromise_true in Hp.
  assert (is_Some (_zoomPromise (viewer w))) as Hs by (by rewrite Hp).
  assert (is_Some (_completeZoom (viewer w))) as Hc.
  { destruct Hw as [[H1 _ _ _] _]. rewrite (H1 _ Hp). done. }
  destruct zoomTarget; repeat case_match;
    first [ by apply after_addCallback
          | by apply after_storeCopy
          | by apply after_setZoomTarget
          | idtac ].
  unfold newArray. apply after_setZoomTarget; [done|].
  by apply (after_same_fields _ w).
Qed.

Lemma after_onLoaded w0 w zoomPromise dataSource :
  after w0 w → after w0 (onLoaded zoomPromise dataSource w).
Proof.
  intros Hw. unfold onLoaded.
  destruct (samePromise _ _) eqn:Hp; simpl; [|done].
  apply samePromise_true in Hp. apply after_storeCopy; [|done]. by rewrite Hp.
Qed.

Section Invariants.
Context `{Engine}.

Lemma after_thenPosition w0 w zoomPromise layer :
  after w0 w → after w0 (thenPosition zoomPromise layer w).
Proof.
  intros Hw. unfold thenPosition.
  destruct (samePromise _ _) eqn:Hp; simpl; [|done].
  apply samePromise_true in Hp. apply after_setZoomTarget; [|done]. by rewrite Hp.
Qed.

Lemma after_thenReady w0 w target zoomOptions :
  is_Some (_completeZoom (viewer w)) →
  after w0 w → after w0 (thenReady target zoomOptions w).
Proof.
  intros Hc Hw. unfold thenReady. apply after_clearZoom.
  destruct (_zoomIsFlight (viewer w)).
  - unfold camera_flyToBoundingSphere. apply after_addCallback; [done|].
    by apply (after_same_fields _ w).
  - apply after_completeZoom. unfold camera_lookAtTransform, camera_viewBoundingSphere.
    by apply (after_same_fields _ w).
Qed.

Lemma completeZoom_viewer value w : viewer (completeZoom value w) = viewer w.
Proof. unfold completeZoom. case_match; [apply resolve_viewer | done]. Qed.

Lemma completeZoom_pending value w : pending (completeZoom value w) = pending w.
Proof. unfold completeZoom. case_match; [apply resolve_pending | done]. Qed.

Lemma cancelZoom_resolver w :
  _completeZoom (viewer (cancelZoom w)) = _completeZoom (viewer w).
Proof.
  unfold cancelZoom. case_match; [|done]. by rewrite completeZoom_viewer.
Qed.

Lemma set_trackedEntity_resolver value w :
  _completeZoom (viewer (set_trackedEntity value w)) = _completeZoom (viewer w).
Proof.
  unfold set_trackedEntity. repeat case_match; simpl; by rewrite ?cancelZoom_resolver.
Qed.

Lemma after_updateZoomTarget w0 w : after w0 w → after w0 (updateZoomTarget w).
Proof.
  intros Hw. unfold updateZoomTarget.
  destruct (_zoomTarget (viewer w)) as [target|] eqn:Ht; [|done].
  assert (is_Some (_completeZoom (viewer w))) as Hc.
  { destruct Hw as [[H1 _ H3 _] _]. destruct (H3 _ Ht) as [p Hp].
    rewrite (H1 _ Hp). done. }
  case_match; [done|]. destruct target as [primitive|location|array].
  - case_match; by apply after_addCallback.
  - apply after_clearZoom. case_match.
    + unfold camera_flyTo. apply after_addCallback; [done|].
      by apply (after_same_fields _ w).
    + apply after_completeZoom. by apply (after_same_fields _ w).
  - destruct (pollEntities _ _ _ _) as [[boundingSpheres|] scratch]; cycle 1.
    { by apply (after_same_fields _ w). }
    assert (after w0 (setScratch scratch w)) as Hw'
      by (by apply (after_same_fields _ w)).
    assert (is_Some (_completeZoom (viewer (setScratch scratch w)))) as Hc' by done.
    revert Hw' Hc'. generalize (setScratch scratch w). intros w1 Hw1 Hc1.
    case_match; [by apply after_cancelZoom|].
    apply (after_set_trackedEntity _ _ None) in Hw1.
    rewrite <- (set_trackedEntity_resolver None) in Hc1.
    revert Hw1 Hc1. generalize (set_trackedEntity None w1). intros w2 Hw2 Hc2.
    case_match.
    + apply after_completeZoom, after_clearZoom.
      unfold camera_lookAtTransform, camera_viewBoundingSphere.
      by apply (after_same_fields _ w2).
    + unfold camera_flyToBoundingSphere. apply after_addCallback; [done|].
      apply (after_same_fields _ (clearZoom w2)); [done|]. by apply after_clearZoom.
Qed.

Lemma after_postRender w0 w : after w0 w → after w0 (_postRender w).
Proof. intros Hw. by apply after_updateTrackedEntity, after_updateZoomTarget. Qed.

Lemma after_invoke w0 w c ok :
  is_Some (_completeZoom (viewer w)) → after w0 w → after w0 (invoke c ok w).
Proof.
  intros Hc Hw. destruct c, ok; simpl; try done.
  - by apply after_thenTarget.
  - by apply after_thenPosition.
  - by apply after_onLoaded.
  - by apply after_thenReady.
  - case_match; [by apply after_cancelZoom | done].
  - by apply after_completeZoom.
  - by apply after_completeZoom.
Qed.

Lemma after_step w0 w e : after w0 w → after w0 (step w e).
Proof.
  intros Hw. destruct e; simpl.
  - by apply after_zoomToOrFly.
  - by apply after_zoomToOrFly.
  - destruct (pending w !! index) as [c|] eqn:Hi; [|done].
    assert (is_Some (_completeZoom (viewer w))) as Hc.
    { destruct (_completeZoom (viewer w)) eqn:Hq; [done|].
      destruct Hw as [[_ _ _ H4] _]. destruct (H4 Hq) as [Hp _].
      by rewrite Hp in Hi. }
    apply after_invoke; [done|].
    destruct Hw as [[H1 H2 H3 H4] Hk]. split; [|done]. split; simpl; try done.
    intros Hq. rewrite Hq in Hc. by destruct Hc.
  - by apply after_postRender.
  - apply after_onTick. by apply (after_same_fields _ w).
  - by apply after_set_trackedEntity.
  - by apply after_set_selectedEntity.
  - by apply after_dataSourceRemoved.
  - by apply after_onEntityCollectionChanged.
  - by apply after_set_trackedEntity.
  - by apply (after_same_fields _ w).
  - by apply (after_same_fields _ w).
  - by apply (after_same_fields _ w).
Qed.

Lemma after_run w0 w events : after w0 w → after w0 (run w events).
Proof.
  revert w. induction events as [|e events IH]; intros w Hw; [done|].
  simpl. by apply IH, after_step.
Qed.

Lemma consistent_initial sceneMode display : consistent (initial sceneMode display).
Proof. by split. Qed.

(** Every world the viewer can be in is consistent. *)
Lemma consistent_run sceneMode display events :
  consistent (run (initial sceneMode display) events).
Proof.
  by apply (after_run (initial sceneMode display)), after_start, consistent_initial.
Qed.

(** Once a later request exists, the outcome of an earlier one is whatever
    it was: no event resolves it any more. *)
Lemma earlier_outcomes_frozen w events p :
  consistent w → S p < length (promises w) →
  outcome (run w events) p = outcome w p.
Proof.
  intros Hw Hp. destruct (after_run w w events (after_start _ Hw)) as [_ [_ Hk]].
  unfold outcome. by rewrite Hk.
Qed.

End Invariants.

(** ** What cancelling leaves alone *)

Lemma cancelZoom_viewer w :
  viewer (cancelZoom w) =
  if defined (_zoomPromise (viewer w)) then viewer (clearZoom w) else viewer w.
Proof.
  unfold cancelZoom. case_match; [|done]. by rewrite completeZoom_viewer.
Qed.

Lemma cancelZoom_scene w : scene (viewer (cancelZoom w)) = scene (viewer w).
Proof. rewrite cancelZoom_viewer. by case_match. Qed.

(** Cancelling a request whose promise is installed and unresolved
    resolves it to [false], once, and clears the request. *)
Lemma cancelZoom_pending_request w p :
  _zoomPromise (viewer w) = Some p →
  _completeZoom (viewer w) = Some p →
  promises w !! p = Some None →
  outcome (cancelZoom w) p = Some false ∧
  resolveCalls (cancelZoom w) = resolveCalls w ++ [(p, false)] ∧
  _zoomPromise (viewer (cancelZoom w)) = None ∧
  _zoomTarget (viewer (cancelZoom w)) = None ∧
  _zoomOptions (viewer (cancelZoom w)) = None.
Proof.
  intros Hp Hc Hu. rewrite cancelZoom_viewer. unfold cancelZoom.
  rewrite Hp. simpl. unfold completeZoom. simpl. rewrite Hc.
  rewrite resolve_calls. split; [|done]. by apply resolve_unresolved.
Qed.

(** A call of the resolver: it is recorded, it settles an unresolved
    outcome, and it leaves a resolved one as it is. *)
Lemma completeZoom_outcome w p value :
  _completeZoom (viewer w) = Some p →
  resolveCalls (completeZoom value w) = resolveCalls w ++ [(p, value)] ∧
  (promises w !! p = Some None → outcome (completeZoom value w) p = Some value) ∧
  (∀ b, outcome w p = Some b → outcome (completeZoom value w) p = Some b).
Proof.
  intros Hc. unfold completeZoom. rewrite Hc.
  split; [apply resolve_calls|].
  split; [apply resolve_unresolved | intros b; apply resolve_resolved].
Qed.

(** Cancelling an installed request calls its resolver with [false],
    once, and clears the request. *)
Lemma cancelZoom_installed w p :
  _zoomPromise (viewer w) = Some p →
  _completeZoom (viewer w) = Some p →
  resolveCalls (cancelZoom w) = resolveCalls w ++ [(p, false)] ∧
  (promises w !! p = Some None → outcome (cancelZoom w) p = Some false) ∧
  (∀ b, outcome w p = Some b → outcome (cancelZoom w) p = Some b) ∧
  _zoomPromise (viewer (cancelZoom w)) = None ∧
  _zoomTarget (viewer (cancelZoom w)) = None.
Proof.
  intros Hp Hc. rewrite cancelZoom_viewer. unfold cancelZoom.
  rewrite Hp. cbn [defined].
  destruct (completeZoom_outcome (clearZoom w) p false Hc) as (Hcalls & Hnew & Hold).
  by repeat split.
Qed.

(** ** The tracked entity *)

(** C7.  Assigning to [trackedEntity] a value that is not the entity
    tracked so far and that is undefined or has no position stops the
    tracking at once: the value is stored, the flag that asks for a first
    fix is off, translation is enabled again in the Columbus and 2D modes
    and tilting in the Columbus and 3D modes, the follower helper is
    dropped and the camera transform is set back to the identity. *)
Theorem C7_untrackable_value_stops_tracking (w : World) (value : option Entity) :
  sameEntity (_trackedEntity (viewer w)) value = false →
  hasPosition value = false →
  let w' := set_trackedEntity value w in
  let sceneMode := mode (scene (viewer w)) in
  _trackedEntity (viewer w') = value ∧
  _needTrackedEntityUpdate (viewer w') = false ∧
  enableTranslate (scene (viewer w')) =
    (if SceneMode_eqb sceneMode COLUMBUS_VIEW || SceneMode_eqb sceneMode SCENE2D
     then true else enableTranslate (scene (viewer w))) ∧
  enableTilt (scene (viewer w')) =
    (if SceneMode_eqb sceneMode COLUMBUS_VIEW || SceneMode_eqb sceneMode SCENE3D
     then true else enableTilt (scene (viewer w))) ∧
  _entityView (viewer w') = None ∧
  transform (scene (viewer w')) = IDENTITY ∧
  cameraCalls (scene (viewer w')) =
    cameraCalls (scene (viewer w)) ++ [Camera.lookAtTransform IDENTITY].
Proof.
  intros Hnew Hpos. cbv zeta. unfold set_trackedEntity.
  rewrite Hnew, Hpos, orb_true_r. cbn [negb].
  set (w1 := cancelZoom (onViewer (setTrackedEntity value) w)).
  assert (scene (viewer w1) = scene (viewer w)) as Hscene
    by (subst w1; by rewrite cancelZoom_scene).
  assert (_trackedEntity (viewer w1) = value) as Htracked.
  { subst w1. rewrite cancelZoom_viewer. by case_match. }
  clearbody w1. rewrite Hscene.
  destruct (mode (scene (viewer w))); simpl; rewrite Hscene; done.
Qed.

Lemma C7_witness :
  _entityView (viewer Scenario.following) ≠ None ∧
  enableTilt (scene (viewer Scenario.following)) = false ∧
  _needTrackedEntityUpdate
    (viewer (set_trackedEntity (Some Scenario.beacon) Scenario.following)) = false ∧
  enableTilt
    (scene (viewer (set_trackedEntity (Some Scenario.beacon) Scenario.following))) = true ∧
  _entityView
    (viewer (set_trackedEntity (Some Scenario.beacon) Scenario.following)) = None ∧
  transform
    (scene (viewer (set_trackedEntity (Some Scenario.beacon) Scenario.following)))
    = IDENTITY.
Proof.
  assert (sameEntity (_trackedEntity (viewer Scenario.following))
            (Some Scenario.beacon) = false) as Hnew by reflexivity.
  assert (hasPosition (Some Scenario.beacon) = false) as Hpos by reflexivity.
  destruct (C7_untrackable_value_stops_tracking
              Scenario.following (Some Scenario.beacon) Hnew Hpos)
    as (_ & Hneed & _ & Htilt & Hview & Htransform & _).
  split; [discriminate|]. split; [reflexivity|]. split; [exact Hneed|].
  split; [exact Htilt|]. split; [exact Hview | exact Htransform].
Defined.

Lemma set_trackedEntity_selected value w :
  _selectedEntity (viewer (set_trackedEntity value w)) = _selectedEntity (viewer w).
Proof.
  unfold set_trackedEntity. repeat case_match; simpl;
    rewrite ?cancelZoom_viewer; by repeat case_match.
Qed.

Lemma set_trackedEntity_undefined e w :
  _trackedEntity (viewer w) = Some e →
  _trackedEntity (viewer (set_trackedEntity None w)) = None.
Proof.
  intros He. unfold set_trackedEntity. rewrite He. simpl.
  repeat case_match; simpl; rewrite cancelZoom_viewer; by case_match.
Qed.

Lemma set_selectedEntity_tracked value w :
  _trackedEntity (viewer (set_selectedEntity value w)) = _trackedEntity (viewer w).
Proof. unfold set_selectedEntity. by case_match. Qed.

Lemma set_selectedEntity_undefined e w :
  _selectedEntity (viewer w) = Some e →
  _selectedEntity (viewer (set_selectedEntity None w)) = None.
Proof. intros He. unfold set_selectedEntity. by rewrite He. Qed.

(** ** Removal of a data source *)

(** C8.  When a data source is removed, the tracked entity becomes
    undefined exactly when the collection of the data source returns that
    very object for its id, and is kept otherwise; the same holds of the
    selected entity, and neither decision depends on the other. *)
Theorem C8_removed_data_source_clears_its_entities (w : World) (dataSource : DataSource) :
  _trackedEntity (viewer (_dataSourceRemoved dataSource w)) =
    match _trackedEntity (viewer w) with
    | Some trackedEntity =>
        if owns (entities dataSource) trackedEntity then None else Some trackedEntity
    | None => None
    end
  ∧
  _selectedEntity (viewer (_dataSourceRemoved dataSource w)) =
    match _selectedEntity (viewer w) with
    | Some selectedEntity =>
        if owns (entities dataSource) selectedEntity then None else Some selectedEntity
    | None => None
    end.
Proof.
  unfold _dataSourceRemoved.
  set (w1 := match _trackedEntity (viewer w) with Some _ => _ | None => _ end).
  assert (_selectedEntity (viewer w1) = _selectedEntity (viewer w)) as Hsel.
  { subst w1. repeat case_match; try done. apply set_trackedEntity_selected. }
  assert (_trackedEntity (viewer w1) =
          match _trackedEntity (viewer w) with
          | Some trackedEntity =>
              if owns (entities dataSource) trackedEntity
              then None else Some trackedEntity
          | None => None
          end) as Htr.
  { subst w1. destruct (_trackedEntity (viewer w)) as [e|] eqn:He; [|done].
    destruct (owns (entities dataSource) e); [|done].
    by eapply set_trackedEntity_undefined. }
  clearbody w1. rewrite <- Htr, <- Hsel.
  destruct (_selectedEntity (viewer w1)) as [e|] eqn:He; [|done].
  destruct (owns (entities dataSource) e); [|done].
  rewrite set_selectedEntity_tracked. split; [done|].
  by eapply set_selectedEntity_undefined.
Qed.

(** The rover is followed and the beacon selected; the data source that
    holds the rover alone goes away: the tracking stops, the selection
    stays. *)
Example dataSourceRemoved_rover :
  let w := set_selectedEntity (Some Scenario.beacon) Scenario.following in
  let garage :=
    {| isLoading := false; loadingEvent := true;
       entities := {| values := 7; getById := {["rover" := Scenario.rover]} |} |} in
  _trackedEntity (viewer (_dataSourceRemoved garage w)) = None ∧
  sameEntity (_selectedEntity (viewer (_dataSourceRemoved garage w)))
    (Some Scenario.beacon) = true.
Proof. by vm_compute. Qed.

(** ** The follower helper *)

Lemma tracking_same w w' :
  _entityView (viewer w') = _entityView (viewer w) →
  _trackedEntity (viewer w') = _trackedEntity (viewer w) →
  tracking_consistent w → tracking_consistent w'.
Proof. unfold tracking_consistent. by intros -> ->. Qed.

Lemma cancelZoom_tracking w :
  _entityView (viewer (cancelZoom w)) = _entityView (viewer w) ∧
  _trackedEntity (viewer (cancelZoom w)) = _trackedEntity (viewer w).
Proof. rewrite cancelZoom_viewer. by case_match. Qed.

Lemma tracking_cancelZoom w :
  tracking_consistent w → tracking_consistent (cancelZoom w).
Proof. destruct (cancelZoom_tracking w). by apply tracking_same. Qed.

Lemma tracking_set_trackedEntity value w :
  tracking_consistent w → tracking_consistent (set_trackedEntity value w).
Proof.
  intros Hw. unfold set_trackedEntity. case_match; [|done].
  destruct (negb (defined value) || negb (hasPosition value)) eqn:Hstop.
  - intros Hview. exfalso. revert Hview.
    repeat case_match; simpl; by intros [? ?].
  - intros _. simpl. destruct (cancelZoom_tracking
      (onViewer (setTrackedEntity value) w)) as [_ ->]. simpl.
    by destruct (hasPosition value), (defined value).
Qed.

Lemma tracking_set_selectedEntity value w :
  tracking_consistent w → tracking_consistent (set_selectedEntity value w).
Proof. unfold set_selectedEntity. by case_match. Qed.

Lemma tracking_dataSourceRemoved dataSource w :
  tracking_consistent w → tracking_consistent (_dataSourceRemoved dataSource w).
Proof.
  intros Hw. unfold _dataSourceRemoved.
  set (w1 := match _trackedEntity (viewer w) with Some _ => _ | None => _ end).
  assert (tracking_consistent w1) as Hw1.
  { subst w1. repeat case_match; try done. by apply tracking_set_trackedEntity. }
  clearbody w1. repeat case_match; try done. by apply tracking_set_selectedEntity.
Qed.

Lemma tracking_onEntityCollectionChanged removed w :
  tracking_consistent w → tracking_consistent (_onEntityCollectionChanged removed w).
Proof.
  revert w. induction removed as [|removedObject rest IH]; intros w Hw; [done|].
  simpl. apply IH.
  set (w1 := if sameEntity (_trackedEntity (viewer w)) _ then _ else _).
  assert (tracking_consistent w1) as Hw1.
  { subst w1. case_match; [by apply tracking_set_trackedEntity | done]. }
  clearbody w1. case_match; [by apply tracking_set_selectedEntity | done].
Qed.

Lemma tracking_onTick w : tracking_consistent w → tracking_consistent (_onTick w).
Proof.
  unfold tracking_consistent, _onTick. intros Hw.
  repeat case_match; simpl in *; intros Hview; simplify_eq; apply Hw; done.
Qed.

Lemma tracking_updateTrackedEntity w :
  tracking_consistent w → tracking_consistent (updateTrackedEntity w).
Proof.
  intros Hw. unfold updateTrackedEntity. case_match; [done|].
  destruct (_trackedEntity (viewer w)) as [e|] eqn:He; [|done].
  destruct (getValueOrUndefined (position e) _) as [pos|] eqn:Hpos; simpl; [|done].
  destruct (getBoundingSphere _ _ _ _) as [state scratch].
  case_match; [by apply (tracking_same w)|].
  assert (hasPosition (Some e) = true) as Hhas.
  { simpl. by destruct (position e). }
  intros _. by repeat case_match; simpl; rewrite He.
Qed.

Lemma tracking_zoomToOrFly zoomTarget options isFlight w :
  tracking_consistent w →
  tracking_consistent (snd (zoomToOrFly zoomTarget options isFlight w)).
Proof.
  intros Hw. destruct zoomTarget; [|done]. simpl.
  destruct (cancelZoom_tracking w). by apply (tracking_same w).
Qed.

Section Follower.
Context `{Engine}.

Lemma tracking_updateZoomTarget w :
  tracking_consistent w → tracking_consistent (updateZoomTarget w).
Proof.
  intros Hw. unfold updateZoomTarget.
  destruct (_zoomTarget (viewer w)) as [[primitive|location|array]|]; [| | |done];
    (case_match; [done|]).
  - by case_match.
  - apply (tracking_same w); [| |done];
      simpl; case_match; by rewrite ?completeZoom_viewer.
  - destruct (pollEntities _ _ _ _) as [[boundingSpheres|] scratch]; [|done].
    case_match.
    { by apply tracking_cancelZoom. }
    assert (tracking_consistent (set_trackedEntity None (setScratch scratch w)))
      as Hw1 by (by apply tracking_set_trackedEntity).
    revert Hw1. generalize (set_trackedEntity None (setScratch scratch w)).
    intros w1 Hw1. case_match; [|done].
    apply (tracking_same w1); [by rewrite completeZoom_viewer..|done].
Qed.

Lemma tracking_invoke c ok w :
  tracking_consistent w → tracking_consistent (invoke c ok w).
Proof.
  intros Hw. destruct c, ok; simpl; try done.
  - apply (tracking_same w); [..|done];
      unfold thenTarget, storeCopy, slice0, newArray; by repeat case_match.
  - apply (tracking_same w); [..|done]; unfold thenPosition; by case_match.
  - apply (tracking_same w); [..|done];
      unfold onLoaded, storeCopy, slice0, newArray; by case_match.
  - apply (tracking_same w); [..|done]; unfold thenReady; simpl;
      case_match; by rewrite ?completeZoom_viewer.
  - case_match; [by apply tracking_cancelZoom | done].
  - apply (tracking_same w); [by rewrite completeZoom_viewer..|done].
  - apply (tracking_same w); [by rewrite completeZoom_viewer..|done].
Qed.

Lemma tracking_step w e : tracking_consistent w → tracking_consistent (step w e).
Proof.
  intros Hw. destruct e; simpl; try done.
  - by apply tracking_zoomToOrFly.
  - by apply tracking_zoomToOrFly.
  - case_match; [|done]. by apply tracking_invoke.
  - by apply tracking_updateTrackedEntity, tracking_updateZoomTarget.
  - by apply tracking_onTick.
  - by apply tracking_set_trackedEntity.
  - by apply tracking_set_selectedEntity.
  - by apply tracking_dataSourceRemoved.
  - by apply tracking_onEntityCollectionChanged.
  - by apply tracking_set_trackedEntity.
Qed.

(** In every world the viewer can be in, a follower helper comes with a
    tracked entity that has a position. *)
Lemma entityView_has_tracked sceneMode display events :
  tracking_consistent (run (initial sceneMode display) events).
Proof.
  assert (∀ w, tracking_consistent w → tracking_consistent (run w events)) as Hrun.
  { induction events as [|e events IH]; intros w Hw; [done|].
    simpl. by apply IH, tracking_step. }
  apply Hrun. by intros [? ?].
Qed.

End Follower.

(** ** Clock ticks *)

(** C9.  On a tick with a follower helper and a tracked entity, the
    sphere of the tracked entity is queried (without partial results) and
    the helper receives one more [update], with the time of the tick and
    the sphere found, exactly when the query reports DONE; on PENDING and
    on FAILED the helper is left as it was.  The tick itself calls no
    camera function. *)
Theorem C9_tick_updates_follower_only_when_done
    (w : World) (entityView : EntityView) (trackedEntity : Entity) :
  _entityView (viewer w) = Some entityView →
  _trackedEntity (viewer w) = Some trackedEntity →
  let time := currentTime (clock (viewer w)) in
  let display := _dataSourceDisplay (viewer w) in
  _entityView (viewer (_onTick w)) =
    Some match sphereState display trackedEntity false with
         | DONE =>
             entityView_update time
               (Some (sphereValue display trackedEntity false)) entityView
         | PENDING | FAILED => entityView
         end
  ∧ cameraCalls (scene (viewer (_onTick w))) = cameraCalls (scene (viewer w)).
Proof.
  intros Hview Htracked. cbv zeta. unfold _onTick, getBoundingSphere.
  destruct (_allowDataSourcesToSuspendAnimation (viewer w)); simpl;
    rewrite Hview, Htracked;
    destruct (sphereState (_dataSourceDisplay (viewer w)) trackedEntity false);
    simpl; repeat case_match; done.
Qed.

Lemma C9_witness :
  (updates <$> _entityView (viewer (_onTick Scenario.following))) =
    Some [(0, Some (Scenario.ball 2)); (0, Some (Scenario.ball 2))]
  ∧ (updates <$> _entityView (viewer (_onTick
       (onViewer (setDataSourceDisplay Scenario.allPending) Scenario.following)))) =
    Some [(0, Some (Scenario.ball 2))].
Proof.
  assert (_entityView (viewer Scenario.following) =
          Some {| followed := Scenario.rover;
                  updates := [(0, Some (Scenario.ball 2))] |}) as Hview
    by reflexivity.
  assert (_trackedEntity (viewer Scenario.following) = Some Scenario.rover)
    as Htracked by reflexivity.
  split.
  - destruct (C9_tick_updates_follower_only_when_done
                Scenario.following _ _ Hview Htracked) as [Hupdate _].
    rewrite Hupdate. reflexivity.
  - destruct (C9_tick_updates_follower_only_when_done
                (onViewer (setDataSourceDisplay Scenario.allPending) Scenario.following)
                _ _ Hview Htracked) as [Hupdate _].
    rewrite Hupdate. reflexivity.
Defined.

(** ** Requests without a target *)

(** C4.  [zoomTo] and [flyTo] with an undefined target throw the
    developer error "zoomTarget is required." and leave the whole state as
    it was: in particular the installed promise, its outcome, the stored
    target, the options and the flight flag. *)
Theorem C4_missing_target_throws (w : World) (offset : option HeadingPitchRange)
    (options : option ZoomOptions) :
  zoomTo None offset w = (Throw {| message := "zoomTarget is required." |}, w) ∧
  flyTo None options w = (Throw {| message := "zoomTarget is required." |}, w).
Proof. split; reflexivity. Qed.

(** ** Settlement of a request on a list of entities *)

Lemma SceneMode_eqb_false a b : a ≠ b → SceneMode_eqb a b = false.
Proof. by destruct a, b. Qed.

Lemma usableSpheres_cons display e entities :
  usableSpheres display (e :: entities) =
  match sphereState display e false with
  | FAILED => usableSpheres display entities
  | _ => sphereValue display e false :: usableSpheres display entities
  end.
Proof.
  unfold usableSpheres. rewrite filter_cons.
  destruct (decide (sphereState display e false ≠ FAILED)) as [Hne|Heq].
  - by destruct (sphereState display e false).
  - apply dec_stable in Heq. by rewrite Heq.
Qed.

Lemma usableSpheres_all_failed display entities :
  Forall (λ e, sphereState display e false = FAILED) entities →
  usableSpheres display entities = [].
Proof.
  induction 1 as [|e entities He _ IH]; [done|].
  by rewrite usableSpheres_cons, He.
Qed.

(** When no entity is PENDING the loop runs to its end, and what it has
    pushed are the spheres of the entities that did not fail. *)
Lemma pollEntities_settled display entities boundingSpheres scratch :
  Forall (λ e, sphereState display e false ≠ PENDING) entities →
  ∃ scratch',
    pollEntities display entities boundingSpheres scratch =
    (Some (boundingSpheres ++ usableSpheres display entities), scratch').
Proof.
  intros Hall. revert boundingSpheres scratch.
  induction Hall as [|e entities He _ IH]; intros boundingSpheres scratch.
  - exists scratch. simpl. by rewrite app_nil_r.
  - simpl. unfold getBoundingSphere. rewrite usableSpheres_cons.
    destruct (sphereState display e false); simpl; [|done|].
    + destruct (IH (boundingSpheres ++ [sphereValue display e false])
                  (sphereValue display e false)) as [scratch' ->].
      exists scratch'. by rewrite <- app_assoc.
    + apply IH.
Qed.

(** One PENDING entity makes the pass give up. *)
Lemma pollEntities_pending display entities boundingSpheres scratch :
  Exists (λ e, sphereState display e false = PENDING) entities →
  ∃ scratch',
    pollEntities display entities boundingSpheres scratch = (None, scratch').
Proof.
  intros Hex. revert boundingSpheres scratch.
  induction entities as [|e entities IH]; intros boundingSpheres scratch.
  - by apply Exists_nil in Hex.
  - simpl. unfold getBoundingSphere.
    destruct (sphereState display e false) eqn:He; simpl; [| by eexists |].
    + apply IH. apply Exists_cons in Hex as [Hex|Hex]; [congruence | done].
    + apply IH. apply Exists_cons in Hex as [Hex|Hex]; [congruence | done].
Qed.

Lemma updateTrackedEntity_frame w :
  promises (updateTrackedEntity w) = promises w ∧
  resolveCalls (updateTrackedEntity w) = resolveCalls w ∧
  cameraCalls (scene (viewer (updateTrackedEntity w))) = cameraCalls (scene (viewer w)) ∧
  _zoomPromise (viewer (updateTrackedEntity w)) = _zoomPromise (viewer w) ∧
  _zoomTarget (viewer (updateTrackedEntity w)) = _zoomTarget (viewer w) ∧
  _trackedEntity (viewer (updateTrackedEntity w)) = _trackedEntity (viewer w) ∧
  transform (scene (viewer (updateTrackedEntity w))) = transform (scene (viewer w)).
Proof. unfold updateTrackedEntity. by repeat case_match. Qed.

Lemma set_trackedEntity_undefined_calls w :
  cameraCalls (scene (viewer (set_trackedEntity None w))) =
  cameraCalls (scene (viewer w)) ++
    (if defined (_trackedEntity (viewer w)) then [Camera.lookAtTransform IDENTITY] else []).
Proof.
  unfold set_trackedEntity.
  destruct (_trackedEntity (viewer w)) as [e|]; simpl; [|by rewrite app_nil_r].
  repeat case_match; simpl; by rewrite cancelZoom_scene.
Qed.

Lemma set_trackedEntity_isFlight value w :
  _zoomIsFlight (viewer (set_trackedEntity value w)) = _zoomIsFlight (viewer w).
Proof.
  unfold set_trackedEntity. repeat case_match; simpl;
    rewrite ?cancelZoom_viewer; by repeat case_match.
Qed.

Section Settlement.
Context `{Engine}.

Lemma polledEntities_target w array :
  _zoomTarget (viewer w) = Some (TargetEntities array) →
  polledEntities w = readArray array w.
Proof. unfold polledEntities. by intros ->. Qed.

(** While an entity of the list is PENDING a pass commits nothing: only
    the scratch sphere may have been written. *)
Lemma pending_entity_defers w array :
  _zoomTarget (viewer w) = Some (TargetEntities array) →
  Exists (λ e, sphereState (_dataSourceDisplay (viewer w)) e false = PENDING)
    (readArray array w) →
  ∃ scratch, updateZoomTarget w = setScratch scratch w.
Proof.
  intros Ht Hpending. unfold updateZoomTarget. rewrite Ht.
  destruct (pollEntities_pending (_dataSourceDisplay (viewer w))
              (readArray array w) [] (boundingSphereScratch w) Hpending)
    as [scratch Hpoll].
  case_match.
  - exists (boundingSphereScratch w). by destruct w.
  - rewrite Hpoll. by exists scratch.
Qed.

(** A pass that finds an installed request on a list of entities all of
    which report FAILED cancels it: it calls the resolver with [false],
    once, clears the request and calls no function of the camera.  An
    unresolved outcome becomes [false]; a resolved one stays. *)
Lemma all_failed_cancels (w : World) (array : ArrayRef) (p : PromiseId) :
  _zoomTarget (viewer w) = Some (TargetEntities array) →
  mode (scene (viewer w)) ≠ MORPHING →
  _zoomPromise (viewer w) = Some p →
  _completeZoom (viewer w) = Some p →
  Forall (λ e, sphereState (_dataSourceDisplay (viewer w)) e false = FAILED)
    (readArray array w) →
  resolveCalls (_postRender w) = resolveCalls w ++ [(p, false)] ∧
  (promises w !! p = Some None → outcome (_postRender w) p = Some false) ∧
  (∀ b, outcome w p = Some b → outcome (_postRender w) p = Some b) ∧
  cameraCalls (scene (viewer (_postRender w))) = cameraCalls (scene (viewer w)) ∧
  _zoomPromise (viewer (_postRender w)) = None ∧
  _zoomTarget (viewer (_postRender w)) = None.
Proof.
  intros Ht Hmode Hp Hc Hfailed. unfold _postRender.
  destruct (updateTrackedEntity_frame (updateZoomTarget w))
    as (Ep & Er & Ec & Ez & Et & _).
  unfold outcome. rewrite Ep, Er, Ec, Ez, Et. clear Ep Er Ec Ez Et.
  unfold updateZoomTarget. rewrite Ht, (SceneMode_eqb_false _ _ Hmode).
  destruct (pollEntities_settled (_dataSourceDisplay (viewer w))
              (readArray array w) [] (boundingSphereScratch w)) as [scratch ->].
  { eapply Forall_impl; [done|]. simpl. intros e ->. done. }
  rewrite (usableSpheres_all_failed _ _ Hfailed). simpl.
  destruct (cancelZoom_installed (setScratch scratch w) p Hp Hc)
    as (Hr & Hnew & Hold & Hz & Hz').
  rewrite cancelZoom_scene. done.
Qed.

(** C5.  [flyTo([beacon])] settles and its flight starts; [zoomTo(tower)]
    is called while the flight is under way, and the flight completes
    before the next pass.  The tower is not visualised: on that pass the
    one entity of the list reports FAILED.  The pass calls no function of
    the camera and calls the resolver with [false], as the claim says;
    but the outcome of [zoomTo(tower)] is [true], since the [complete]
    function of the earlier flight had called the resolver of this request
    with [true]. *)
Theorem C5_failed_target_after_finished_flight_resolves_true :
  _zoomPromise
    (viewer (run (initial SCENE3D Scenario.beaconOnly) Scenario.requestDuringFlight))
    = Some 1
  ∧ polledEntities (run (initial SCENE3D Scenario.beaconOnly) Scenario.requestDuringFlight)
    = [Scenario.tower]
  ∧ sphereState Scenario.beaconOnly Scenario.tower false = FAILED
  ∧ outcome
      (run (initial SCENE3D Scenario.beaconOnly)
         (Scenario.requestDuringFlight ++ [PostRender])) 1
    = Some true
  ∧ resolveCalls
      (run (initial SCENE3D Scenario.beaconOnly)
         (Scenario.requestDuringFlight ++ [PostRender]))
    = [(1, true); (1, false)]
  ∧ cameraCalls
      (scene (viewer (run (initial SCENE3D Scenario.beaconOnly)
                        (Scenario.requestDuringFlight ++ [PostRender]))))
    = cameraCalls
        (scene (viewer (run (initial SCENE3D Scenario.beaconOnly)
                          Scenario.requestDuringFlight)))
  ∧ _zoomPromise
      (viewer (run (initial SCENE3D Scenario.beaconOnly)
                 (Scenario.requestDuringFlight ++ [PostRender])))
    = None.
Proof. by vm_compute. Qed.

(** C6.  A render pass finds a request on a list of entities none of
    which is PENDING and at least one of which did not fail.  The calls
    the pass makes on the camera are: the reset of the transform when an
    entity was being tracked, and then the move, a flight to or a view of
    the sphere [fromBoundingSpheres] computes from the spheres of exactly
    the entities that did not report FAILED. *)
Theorem C6_move_frames_usable_spheres (w : World) (array : ArrayRef) :
  _zoomTarget (viewer w) = Some (TargetEntities array) →
  mode (scene (viewer w)) ≠ MORPHING →
  Forall (λ e, sphereState (_dataSourceDisplay (viewer w)) e false ≠ PENDING)
    (readArray array w) →
  usableSpheres (_dataSourceDisplay (viewer w)) (readArray array w) ≠ [] →
  cameraCalls (scene (viewer (updateZoomTarget w))) =
    cameraCalls (scene (viewer w)) ++
    (if defined (_trackedEntity (viewer w)) then [Camera.lookAtTransform IDENTITY] else []) ++
    let boundingSphere :=
      fromBoundingSpheres
        (usableSpheres (_dataSourceDisplay (viewer w)) (readArray array w)) in
    let zoomOptions := defaultValue (_zoomOptions (viewer w)) emptyOptions in
    if _zoomIsFlight (viewer w) then
      [Camera.flyToBoundingSphere boundingSphere
         {| offset := offset zoomOptions; duration := duration zoomOptions;
            maximumHeight := maximumHeight zoomOptions |}]
    else
      [Camera.viewBoundingSphere boundingSphere (offset zoomOptions);
       Camera.lookAtTransform IDENTITY].
Proof.
  intros Ht Hmode Hsettled Husable.
  unfold updateZoomTarget. rewrite Ht, (SceneMode_eqb_false _ _ Hmode).
  destruct (pollEntities_settled (_dataSourceDisplay (viewer w))
              (readArray array w) [] (boundingSphereScratch w) Hsettled)
    as [scratch ->].
  simpl app at 1.
  destruct (usableSpheres _ _) as [|sphere spheres] eqn:Hspheres; [done|].
  simpl length. simpl Nat.eqb. cbv iota.
  rewrite set_trackedEntity_isFlight. simpl _zoomIsFlight.
  destruct (_zoomIsFlight (viewer w)); simpl negb; cbv iota.
  - unfold camera_flyToBoundingSphere. simpl.
    rewrite set_trackedEntity_undefined_calls. simpl. by rewrite <- app_assoc.
  - rewrite completeZoom_viewer. simpl.
    rewrite set_trackedEntity_undefined_calls. simpl.
    rewrite <- !app_assoc. done.
Qed.

End Settlement.

Lemma C6_witness :
  cameraCalls (scene (viewer (updateZoomTarget (H := Scenario.sumEngine)
    (Scenario.pendingList Scenario.beaconOnly [Scenario.beacon; Scenario.tower])))) =
  [Camera.viewBoundingSphere
     (fromBoundingSpheres (Engine := Scenario.sumEngine) [Scenario.ball 1]) None;
   Camera.lookAtTransform IDENTITY].
Proof.
  set (w := Scenario.pendingList Scenario.beaconOnly [Scenario.beacon; Scenario.tower]).
  assert (_zoomTarget (viewer w) = Some (TargetEntities 1)) as Ht by reflexivity.
  assert (mode (scene (viewer w)) ≠ MORPHING) as Hmode by discriminate.
  assert (Forall (λ e, sphereState (_dataSourceDisplay (viewer w)) e false ≠ PENDING)
            (readArray 1 w)) as Hsettled
    by (vm_compute; repeat constructor; discriminate).
  assert (usableSpheres (_dataSourceDisplay (viewer w)) (readArray 1 w) ≠ [])
    as Husable by (vm_compute; discriminate).
  rewrite (C6_move_frames_usable_spheres (H := Scenario.sumEngine)
             w 1 Ht Hmode Hsettled Husable).
  reflexivity.
Defined.

(** ** The list kept by a request *)

Section Copies.
Context `{Engine}.

Lemma storeCopy_target array w :
  _zoomTarget (viewer (storeCopy array w)) =
    Some (TargetEntities (fresh (dom (arrays w)))) ∧
  arrays (storeCopy array w) !! fresh (dom (arrays w)) = Some (readArray array w).
Proof. unfold storeCopy. simpl. split; [done|]. by rewrite lookup_insert_eq. Qed.

(** Writes to other arrays do not reach the array of the stored target. *)
Lemma polledEntities_writes w copy contents (writes : list (ArrayRef * list Entity)) :
  _zoomTarget (viewer w) = Some (TargetEntities copy) →
  arrays w !! copy = Some contents →
  Forall (λ write, write.1 ≠ copy) writes →
  polledEntities (run w (writeEvent <$> writes)) = contents.
Proof.
  intros Ht Hc Hwrites. revert w Ht Hc.
  induction Hwrites as [|[a l] writes Ha _ IH]; intros w Ht Hc.
  - simpl. unfold polledEntities, readArray. by rewrite Ht, Hc.
  - simpl in *. apply IH; simpl; [done|]. by rewrite lookup_insert_ne.
Qed.

Lemma storeCopy_isolated w array (writes : list (ArrayRef * list Entity)) :
  Forall (λ write, is_Some (arrays w !! write.1)) writes →
  polledEntities (run (storeCopy array w) (writeEvent <$> writes)) =
  readArray array w.
Proof.
  intros Hwrites. destruct (storeCopy_target array w) as [Ht Hc].
  eapply polledEntities_writes; [done..|].
  eapply Forall_impl; [done|]. intros [a l] Ha Heq. simpl in *. subst a.
  apply elem_of_dom in Ha. by apply is_fresh in Ha.
Qed.

(** C10.  When the function given to [then] normalises an array, an
    entity collection or a loaded data source for the request that is
    still installed, and when the listener of a loading data source does,
    the target stored is a new array holding the entities the source array
    had at that moment.  Whatever is then written to arrays that existed
    at that moment, the caller's array among them, a render pass still
    polls those entities. *)
Theorem C10_stored_list_is_a_private_copy (w : World) (zoomPromise : PromiseId)
    (writes : list (ArrayRef * list Entity)) :
  samePromise (_zoomPromise (viewer w)) zoomPromise = true →
  Forall (λ write, is_Some (arrays w !! write.1)) writes →
  (∀ zoomTarget array,
     sourceArray zoomTarget = Some array →
     polledEntities (run (thenTarget zoomPromise zoomTarget w) (writeEvent <$> writes))
     = readArray array w) ∧
  (∀ dataSource,
     polledEntities (run (onLoaded zoomPromise dataSource w) (writeEvent <$> writes))
     = readArray (values (entities dataSource)) w).
Proof.
  intros Hp Hwrites. split.
  - intros zoomTarget array Hsource. unfold thenTarget. rewrite Hp. simpl.
    destruct zoomTarget; simpl in Hsource; try done.
    + destruct (isLoading dataSource && loadingEvent dataSource); [done|].
      injection Hsource as <-. by apply storeCopy_isolated.
    + injection Hsource as <-. by apply storeCopy_isolated.
    + injection Hsource as <-. by apply storeCopy_isolated.
  - intros dataSource. unfold onLoaded. rewrite Hp. by apply storeCopy_isolated.
Qed.

End Copies.

Lemma C10_witness :
  polledEntities
    (run (H := Scenario.sumEngine)
       (Scenario.pendingList Scenario.allDone [Scenario.beacon; Scenario.tower])
       [ArrayWrite 0 []; ArrayWrite 0 [Scenario.rover]])
  = [Scenario.beacon; Scenario.tower].
Proof.
  pose (w := run (H := Scenario.sumEngine) (initial SCENE3D Scenario.allDone)
               [ArrayWrite 0 [Scenario.beacon; Scenario.tower];
                ZoomTo (Some (ArrayArg 0)) None]).
  pose (writes := [(0, []); (0, [Scenario.rover])] : list (ArrayRef * list Entity)).
  assert (samePromise (_zoomPromise (viewer w)) 0 = true) as Hp by reflexivity.
  assert (Forall (λ write, is_Some (arrays w !! write.1)) writes) as Hwrites
    by (repeat constructor; vm_compute; eauto).
  destruct (C10_stored_list_is_a_private_copy (H := Scenario.sumEngine)
              w 0 writes Hp Hwrites) as [Hcopy _].
  exact (Hcopy (ArrayArg 0) 0 eq_refl).
Defined.

(** ** Superseded requests *)

Section Sequences.
Context `{Engine}.

Lemma run_app w events1 events2 :
  run w (events1 ++ events2) = run (run w events1) events2.
Proof. apply foldl_app. Qed.

(** C1.  [flyTo] on a list whose entity is visualised settles on the next
    pass: the request is cleared and a flight starts, its outcome to be
    resolved when the flight ends.  A second [flyTo] made during the
    flight finds no installed promise to cancel and assigns
    [_completeZoom] anew.  From then on no sequence of events resolves the
    outcome of the first call: it is neither [true] nor [false], and the
    [cancel] function of the first flight resolves the outcome of the
    second call instead. *)
Theorem C1_superseded_flight_is_never_resolved (events : list Event) :
  cameraCalls (scene (viewer (run (initial SCENE3D Scenario.allDone)
                                Scenario.flightThenRequest)))
    = [Camera.flyToBoundingSphere (fromBoundingSpheres [Scenario.ball 1]) emptyOptions]
  ∧ outcome (run (initial SCENE3D Scenario.allDone)
               (Scenario.flightThenRequest ++ events)) 0 = None
  ∧ outcome (run (initial SCENE3D Scenario.allDone)
               (Scenario.flightThenRequest ++ [Invoke 0 false])) 1 = Some false.
Proof.
  split; [by vm_compute|]. split; [|by vm_compute].
  rewrite run_app, earlier_outcomes_frozen.
  - by vm_compute.
  - apply consistent_run.
  - vm_compute. lia.
Qed.

(** Where the first half of the claim does hold: a request that is still
    installed, with its outcome unresolved, when the next call is made has
    its outcome resolved to [false] by one call of the resolver. *)
Lemma superseding_cancels_installed_request w p zoomTarget options isFlight :
  _zoomPromise (viewer w) = Some p →
  _completeZoom (viewer w) = Some p →
  promises w !! p = Some None →
  outcome (snd (zoomToOrFly (Some zoomTarget) options isFlight w)) p = Some false ∧
  resolveCalls (snd (zoomToOrFly (Some zoomTarget) options isFlight w)) =
    resolveCalls w ++ [(p, false)].
Proof.
  intros Hp Hc Hu.
  destruct (cancelZoom_pending_request w p Hp Hc Hu) as (Ho & Hr & _).
  simpl. split; [|done]. unfold outcome in *. simpl.
  destruct (promises (cancelZoom w) !! p) as [o|] eqn:Hl; [|done].
  by rewrite (lookup_app_l_Some _ _ _ _ Hl).
Qed.

(** ** Settlement while an entity is tracked *)

Lemma set_trackedEntity_promises value w :
  promises (set_trackedEntity value w) =
  if sameEntity (_trackedEntity (viewer w)) value then promises w
  else promises (cancelZoom (onViewer (setTrackedEntity value) w)).
Proof. unfold set_trackedEntity. by repeat case_match. Qed.

(** In snap mode the outcome of a settling request on a list is [true]
    exactly when no entity was tracked at the pass: the assignment
    [viewer.trackedEntity = undefined] cancels the request it is part of. *)
Lemma snap_settlement_outcome w array p :
  _zoomTarget (viewer w) = Some (TargetEntities array) →
  mode (scene (viewer w)) ≠ MORPHING →
  _zoomPromise (viewer w) = Some p →
  _completeZoom (viewer w) = Some p →
  promises w !! p = Some None →
  _zoomIsFlight (viewer w) = false →
  Forall (λ e, sphereState (_dataSourceDisplay (viewer w)) e false ≠ PENDING)
    (readArray array w) →
  usableSpheres (_dataSourceDisplay (viewer w)) (readArray array w) ≠ [] →
  outcome (updateZoomTarget w) p = Some (negb (defined (_trackedEntity (viewer w)))).
Proof.
  intros Ht Hmode Hp Hc Hu Hsnap Hsettled Husable.
  unfold updateZoomTarget. rewrite Ht, (SceneMode_eqb_false _ _ Hmode).
  destruct (pollEntities_settled (_dataSourceDisplay (viewer w))
              (readArray array w) [] (boundingSphereScratch w) Hsettled)
    as [scratch ->].
  simpl app at 1.
  destruct (usableSpheres _ _) as [|sphere spheres] eqn:Hspheres; [done|].
  simpl length. simpl Nat.eqb. cbv iota.
  rewrite set_trackedEntity_isFlight. simpl _zoomIsFlight. rewrite Hsnap.
  simpl negb. cbv iota.
  unfold completeZoom at 1. simpl.
  rewrite set_trackedEntity_resolver. simpl. rewrite Hc.
  destruct (_trackedEntity (viewer w)) as [tracked|] eqn:Htracked; simpl.
  - apply resolve_resolved. unfold outcome. simpl.
    rewrite set_trackedEntity_promises. simpl. rewrite Htracked. simpl.
    set (w1 := onViewer (setTrackedEntity None) (setScratch scratch w)).
    by destruct (cancelZoom_pending_request w1 p Hp Hc Hu) as (Ho & _).
  - apply resolve_unresolved. simpl.
    rewrite set_trackedEntity_promises. simpl. by rewrite Htracked.
Qed.

(** C2.  The camera follows the rover when [zoomTo(beacon)] is called;
    the beacon is visualised and the request settles on the next pass.
    The pass stops the tracking, moves the camera to the sphere of the
    beacon and sets the transform back to the identity, as the claim
    says; but the outcome of the request is [false]: the resolver was
    called with [false] by the assignment to [trackedEntity] before the
    pass called it with [true]. *)
Theorem C2_zoom_while_tracking_resolves_false :
  outcome (run (initial SCENE3D Scenario.allDone) Scenario.zoomWhileTracking) 0
    = Some false
  ∧ resolveCalls (run (initial SCENE3D Scenario.allDone) Scenario.zoomWhileTracking)
    = [(0, false); (0, true)]
  ∧ _trackedEntity
      (viewer (run (initial SCENE3D Scenario.allDone) Scenario.zoomWhileTracking))
    = None
  ∧ transform
      (scene (viewer (run (initial SCENE3D Scenario.allDone) Scenario.zoomWhileTracking)))
    = IDENTITY
  ∧ cameraCalls
      (scene (viewer (run (initial SCENE3D Scenario.allDone) Scenario.zoomWhileTracking)))
    = [Camera.lookAtTransform IDENTITY;
       Camera.viewBoundingSphere (fromBoundingSpheres [Scenario.ball 1]) None;
       Camera.lookAtTransform IDENTITY].
Proof. by vm_compute. Qed.

(** ** Readiness of a primitive *)

Lemma updateTrackedEntity_pending w : pending (updateTrackedEntity w) = pending w.
Proof. unfold updateTrackedEntity. by repeat case_match. Qed.

(** For a tileset and for a voxel primitive the function handed to
    [then] comes with a [catch]: a rejected readiness promise cancels the
    request and resolves its outcome to [false]. *)
Lemma rejected_readiness_cancels w primitive p :
  _zoomTarget (viewer w) = Some (TargetPrimitive primitive) →
  class primitive ≠ TimeDynamicPointCloud →
  mode (scene (viewer w)) ≠ MORPHING →
  _zoomPromise (viewer w) = Some p →
  _completeZoom (viewer w) = Some p →
  promises w !! p = Some None →
  pending w = [] →
  outcome (run w [PostRender; Invoke 0 false]) p = Some false ∧
  _zoomPromise (viewer (run w [PostRender; Invoke 0 false])) = None ∧
  _zoomTarget (viewer (run w [PostRender; Invoke 0 false])) = None.
Proof.
  intros Ht Hclass Hmode Hp Hc Hu Hpending. simpl. unfold _postRender.
  rewrite updateTrackedEntity_pending.
  assert (updateZoomTarget w =
          addCallback (ThenReady primitive
            (defaultValue (_zoomOptions (viewer w)) emptyOptions) true) w) as ->.
  { unfold updateZoomTarget. rewrite Ht, (SceneMode_eqb_false _ _ Hmode).
    by destruct (class primitive). }
  simpl. rewrite Hpending. simpl.
  set (w1 := setPending [] _).
  destruct (updateTrackedEntity_frame
              (addCallback (ThenReady primitive
                 (defaultValue (_zoomOptions (viewer w)) emptyOptions) true) w))
    as (Ep & _ & _ & Ez & _).
  assert (_zoomPromise (viewer w1) = Some p) as Hp1
    by (etrans; [exact Ez | exact Hp]).
  assert (_completeZoom (viewer w1) = Some p) as Hc1.
  { subst w1. simpl. unfold updateTrackedEntity. by repeat case_match. }
  assert (promises w1 = promises w) as Ep1 by (etrans; [exact Ep | done]).
  assert (promises w1 !! p = Some None) as Hu1 by (by rewrite Ep1).
  destruct (cancelZoom_pending_request w1 p Hp1 Hc1 Hu1) as (Ho & _ & Hz & Hz' & _).
  done.
Qed.

Lemma run_repeated w events n :
  run w events = w → run w (concat (replicate n events)) = w.
Proof.
  intros Hw. induction n as [|n IH]; [done|].
  change (concat (replicate (S n) events))
    with (events ++ concat (replicate n events)).
  by rewrite run_app, Hw.
Qed.

(** C3.  [flyTo] on a point cloud whose readiness promise is rejected.
    The pass hands [then] a function without a [catch], so the rejection
    runs nothing: the outcome stays unresolved and the request stays
    installed, and this repeats on every later pass. *)
Theorem C3_rejected_point_cloud_is_not_cancelled (passes : nat) :
  outcome (run (initial SCENE3D Scenario.allDone)
             (Scenario.rejectedCloud ++
              concat (replicate passes [PostRender; Invoke 0 false]))) 0 = None
  ∧ _zoomPromise (viewer (run (initial SCENE3D Scenario.allDone)
             (Scenario.rejectedCloud ++
              concat (replicate passes [PostRender; Invoke 0 false])))) = Some 0
  ∧ _zoomTarget (viewer (run (initial SCENE3D Scenario.allDone)
             (Scenario.rejectedCloud ++
              concat (replicate passes [PostRender; Invoke 0 false]))))
    = Some (TargetPrimitive Scenario.cloud).
Proof.
  rewrite run_app.
  assert (run (run (initial SCENE3D Scenario.allDone) Scenario.rejectedCloud)
            (concat (replicate passes [PostRender; Invoke 0 false]))
          = run (initial SCENE3D Scenario.allDone) Scenario.rejectedCloud) as ->.
  { apply run_repeated. by vm_compute. }
  by vm_compute.
Qed.

End Sequences.

(** * Further properties *)

(** ** The zoom state over any run *)

Section Runs.
Context `{Engine}.

(** X1.  Whatever the application and the engine do to a new viewer, the
    zoom fields stay consistent: an installed promise is the one
    [_completeZoom] resolves, [_completeZoom] resolves the latest promise
    made, a stored target comes with an installed promise, and before the
    first request there is neither a promise nor a pending callback. *)
Theorem zoom_fields_stay_consistent (sceneMode : SceneMode)
    (display : DataSourceDisplay) (events : list Event) :
  consistent (run (initial sceneMode display) events).
Proof. apply consistent_run. Qed.

(** X2.  Whatever happens to a new viewer, a follower helper exists only
    while the tracked entity is defined and has a position. *)
Theorem follower_only_with_tracked_entity (sceneMode : SceneMode)
    (display : DataSourceDisplay) (events : list Event) :
  is_Some (_entityView (viewer (run (initial sceneMode display) events))) →
  hasPosition (_trackedEntity (viewer (run (initial sceneMode display) events))) = true.
Proof. apply entityView_has_tracked. Qed.

(** X3.  Once a later request has been made, the outcome of an earlier
    one is final: no further event changes it, whether it was resolved or
    not. *)
Theorem superseded_outcome_is_final (sceneMode : SceneMode)
    (display : DataSourceDisplay) (before later : list Event) (p : PromiseId) :
  S p < length (promises (run (initial sceneMode display) before)) →
  outcome (run (initial sceneMode display) (before ++ later)) p =
  outcome (run (initial sceneMode display) before) p.
Proof.
  intros Hp. rewrite run_app. apply earlier_outcomes_frozen; [|done].
  apply consistent_run.
Qed.

(** X4.  Once a later request has been made, the functions an earlier
    request left with [then] and with the loading event do nothing when
    they are finally invoked: no target is stored for the new request. *)
Theorem stale_normalisation_is_inert (sceneMode : SceneMode)
    (display : DataSourceDisplay) (events : list Event) (p : PromiseId) :
  S p < length (promises (run (initial sceneMode display) events)) →
  (∀ zoomTarget,
     thenTarget p zoomTarget (run (initial sceneMode display) events)
     = run (initial sceneMode display) events) ∧
  (∀ layer,
     thenPosition p layer (run (initial sceneMode display) events)
     = run (initial sceneMode display) events) ∧
  (∀ dataSource,
     onLoaded p dataSource (run (initial sceneMode display) events)
     = run (initial sceneMode display) events).
Proof.
  intros Hp. pose proof (consistent_run sceneMode display events) as [H1 H2 _ _].
  revert Hp H1 H2. generalize (run (initial sceneMode display) events).
  intros w Hp H1 H2.
  assert (samePromise (_zoomPromise (viewer w)) p = false) as Hstale.
  { destruct (_zoomPromise (viewer w)) as [q|] eqn:Hq; [|done]. simpl.
    apply Nat.eqb_neq. specialize (H2 _ (H1 _ eq_refl)). lia. }
  unfold thenTarget, thenPosition, onLoaded. by rewrite Hstale.
Qed.

(** X5.  A call of [zoomTo] or [flyTo] with a target returns a promise
    that did not exist before and is unresolved, installs it with its
    resolver, the flight flag and the options, leaves no target stored,
    hands one function to [then] and requests one render. *)
Theorem request_installs_a_fresh_promise (sceneMode : SceneMode)
    (display : DataSourceDisplay) (events : list Event)
    (zoomTarget : ZoomArg) (options : option ZoomOptions) (isFlight : bool) :
  ∃ p,
    fst (zoomToOrFly (Some zoomTarget) options isFlight
           (run (initial sceneMode display) events)) = Return p ∧
    promises (run (initial sceneMode display) events) !! p = None ∧
    promises (snd (zoomToOrFly (Some zoomTarget) options isFlight
                (run (initial sceneMode display) events))) !! p = Some None ∧
    _zoomPromise (viewer (snd (zoomToOrFly (Some zoomTarget) options isFlight
                (run (initial sceneMode display) events)))) = Some p ∧
    _completeZoom (viewer (snd (zoomToOrFly (Some zoomTarget) options isFlight
                (run (initial sceneMode display) events)))) = Some p ∧
    _zoomIsFlight (viewer (snd (zoomToOrFly (Some zoomTarget) options isFlight
                (run (initial sceneMode display) events)))) = isFlight ∧
    _zoomOptions (viewer (snd (zoomToOrFly (Some zoomTarget) options isFlight
                (run (initial sceneMode display) events)))) = options ∧
    _zoomTarget (viewer (snd (zoomToOrFly (Some zoomTarget) options isFlight
                (run (initial sceneMode display) events)))) = None ∧
    renderRequests (scene (viewer (snd (zoomToOrFly (Some zoomTarget) options isFlight
                (run (initial sceneMode display) events))))) =
      S (renderRequests (scene (viewer (run (initial sceneMode display) events)))) ∧
    pending (snd (zoomToOrFly (Some zoomTarget) options isFlight
               (run (initial sceneMode display) events))) =
      pending (run (initial sceneMode display) events) ++ [ThenTarget p zoomTarget].
Proof.
  pose proof (consistent_run sceneMode display events) as [_ _ H3 _].
  revert H3. generalize (run (initial sceneMode display) events). intros w H3.
  exists (length (promises w)).
  assert (length (promises (cancelZoom w)) = length (promises w)) as Hlen.
  { unfold cancelZoom. case_match; [|done]. unfold completeZoom.
    case_match; [|done]. by rewrite resolve_length. }
  assert (pending (cancelZoom w) = pending w) as Hpending.
  { unfold cancelZoom. case_match; [|done]. by rewrite completeZoom_pending. }
  simpl. rewrite Hlen, Hpending, cancelZoom_scene.
  split; [done|]. split; [by apply lookup_ge_None|].
  split; [by rewrite lookup_app_r, Hlen, Nat.sub_diag by lia|].
  repeat (split; [done|]). split; [|done].
  rewrite cancelZoom_viewer.
  destruct (_zoomPromise (viewer w)) as [q|] eqn:Hq; simpl; [done|].
  destruct (_zoomTarget (viewer w)) as [t|] eqn:Ht; [|done].
  destruct (H3 _ eq_refl) as [? ?]. done.
Qed.

End Runs.

Lemma X2_witness :
  hasPosition (_trackedEntity (viewer Scenario.following)) = true.
Proof.
  apply (follower_only_with_tracked_entity (H := Scenario.sumEngine)
           SCENE3D Scenario.allDone [SetTrackedEntity (Some Scenario.rover); PostRender]).
  vm_compute. eauto.
Defined.

Lemma X3_witness :
  outcome (run (H := Scenario.sumEngine) (initial SCENE3D Scenario.allDone)
             (Scenario.flightThenRequest ++ [Invoke 0 true; PostRender])) 0
  = None.
Proof.
  rewrite (superseded_outcome_is_final (H := Scenario.sumEngine)
             SCENE3D Scenario.allDone Scenario.flightThenRequest
             [Invoke 0 true; PostRender] 0).
  - reflexivity.
  - vm_compute. lia.
Defined.

Lemma X4_witness :
  thenTarget 0 (ArrayArg 0)
    (run (H := Scenario.sumEngine) (initial SCENE3D Scenario.allDone)
       [ArrayWrite 0 [Scenario.beacon];
        ZoomTo (Some (ArrayArg 0)) None;
        ZoomTo (Some (EntityArg Scenario.tower)) None])
  = run (H := Scenario.sumEngine) (initial SCENE3D Scenario.allDone)
       [ArrayWrite 0 [Scenario.beacon];
        ZoomTo (Some (ArrayArg 0)) None;
        ZoomTo (Some (EntityArg Scenario.tower)) None].
Proof.
  apply (stale_normalisation_is_inert (H := Scenario.sumEngine)
           SCENE3D Scenario.allDone
           [ArrayWrite 0 [Scenario.beacon];
            ZoomTo (Some (ArrayArg 0)) None;
            ZoomTo (Some (EntityArg Scenario.tower)) None] 0).
  vm_compute. lia.
Defined.

(** ** Assigning the tracked and the selected entity *)

Lemma sameEntity_refl value : sameEntity value value = true.
Proof. destruct value; simpl; [apply Nat.eqb_refl | done]. Qed.

Lemma set_trackedEntity_stored value w :
  sameEntity (_trackedEntity (viewer (set_trackedEntity value w))) value = true.
Proof.
  unfold set_trackedEntity.
  destruct (sameEntity (_trackedEntity (viewer w)) value) eqn:Hsame; [done|].
  simpl. repeat case_match; simpl; rewrite cancelZoom_viewer;
    case_match; simpl; apply sameEntity_refl.
Qed.

(** X6.  Assigning to [trackedEntity] or to [selectedEntity] the value it
    already holds (the same object) does nothing; so assigning a value
    twice is assigning it once: one event raised, one render requested. *)
Theorem assigning_twice_is_assigning_once (value : option Entity) (w : World) :
  set_trackedEntity value (set_trackedEntity value w) = set_trackedEntity value w ∧
  set_selectedEntity value (set_selectedEntity value w) = set_selectedEntity value w.
Proof.
  split.
  - unfold set_trackedEntity at 1. by rewrite set_trackedEntity_stored.
  - unfold set_selectedEntity at 1.
    assert (sameEntity (_selectedEntity (viewer (set_selectedEntity value w))) value
            = true) as ->; [|done].
    unfold set_selectedEntity. case_match eqn:Hsame; simpl.
    + apply sameEntity_refl.
    + by apply negb_false_iff in Hsame.
Qed.

(** X7.  Assigning to [trackedEntity] an entity with a position that is
    not the one tracked so far stores the entity and sets the flag that
    asks for a first fix.  No zoom request stays installed, and one that
    was installed and unresolved is resolved to [false].  The camera, its
    controls and the follower helper are left as they are until a pass
    finds the entity.  The change is raised once and one render is
    requested. *)
Theorem trackable_value_waits_for_first_fix (w : World) (entity : Entity) :
  sameEntity (_trackedEntity (viewer w)) (Some entity) = false →
  defined (position entity) = true →
  _trackedEntity (viewer (set_trackedEntity (Some entity) w)) = Some entity ∧
  _needTrackedEntityUpdate (viewer (set_trackedEntity (Some entity) w)) = true ∧
  _entityView (viewer (set_trackedEntity (Some entity) w)) = _entityView (viewer w) ∧
  _zoomPromise (viewer (set_trackedEntity (Some entity) w)) = None ∧
  (∀ p, _zoomPromise (viewer w) = Some p → _completeZoom (viewer w) = Some p →
        promises w !! p = Some None →
        outcome (set_trackedEntity (Some entity) w) p = Some false) ∧
  _trackedEntityChanged (viewer (set_trackedEntity (Some entity) w)) =
    _trackedEntityChanged (viewer w) ++ [Some entity] ∧
  scene (viewer (set_trackedEntity (Some entity) w)) =
    setRenderRequests (S (renderRequests (scene (viewer w)))) (scene (viewer w)).
Proof.
  intros Hnew Hpos. unfold set_trackedEntity. rewrite Hnew. simpl.
  rewrite Hpos. simpl.
  set (w1 := cancelZoom (onViewer (setTrackedEntity (Some entity)) w)).
  assert (viewer w1 =
          if defined (_zoomPromise (viewer w))
          then viewer (clearZoom (onViewer (setTrackedEntity (Some entity)) w))
          else viewer (onViewer (setTrackedEntity (Some entity)) w)) as Hviewer
    by (subst w1; by rewrite cancelZoom_viewer).
  assert (∀ p, _zoomPromise (viewer w) = Some p → _completeZoom (viewer w) = Some p →
               promises w !! p = Some None → outcome w1 p = Some false) as Hcancel.
  { intros p Hp Hc Hu.
    by destruct (cancelZoom_pending_request
                   (onViewer (setTrackedEntity (Some entity)) w) p Hp Hc Hu). }
  clearbody w1. rewrite Hviewer.
  destruct (_zoomPromise (viewer w)) as [q|] eqn:Hq; simpl; by repeat split.
Qed.

Lemma X7_witness :
  _needTrackedEntityUpdate
    (viewer (set_trackedEntity (Some Scenario.rover) Cases.waiting)) = true
  ∧ _zoomPromise (viewer Cases.waiting) = Some 0
  ∧ outcome (set_trackedEntity (Some Scenario.rover) Cases.waiting) 0 = Some false.
Proof.
  assert (sameEntity (_trackedEntity (viewer Cases.waiting)) (Some Scenario.rover)
          = false) as Hnew by reflexivity.
  assert (defined (position Scenario.rover) = true) as Hpos by reflexivity.
  destruct (trackable_value_waits_for_first_fix Cases.waiting Scenario.rover Hnew Hpos)
    as (_ & Hneed & _ & _ & Hcancel & _).
  split; [exact Hneed|]. split; [reflexivity|].
  apply Hcancel; reflexivity.
Defined.

(** ** The first fix of the follower *)





Lemma set_trackedEntity_trackable w entity :
  sameEntity (_trackedEntity (viewer w)) (Some entity) = false →
  defined (position entity) = true →
  _trackedEntity (viewer (set_trackedEntity (Some entity) w)) = Some entity ∧
  _needTrackedEntityUpdate (viewer (set_trackedEntity (Some entity) w)) = true ∧
  scene (viewer (set_trackedEntity (Some entity) w)) =
    setRenderRequests (S (renderRequests (scene (viewer w)))) (scene (viewer w)).
Proof.
  intros Hnew Hpos. unfold set_trackedEntity. rewrite Hnew. simpl.
  rewrite Hpos. simpl. rewrite cancelZoom_viewer. simpl.
  by destruct (_zoomPromise (viewer w)).
Qed.

Lemma first_fix_controls w trackedEntity currentPosition :
  _needTrackedEntityUpdate (viewer w) = true →
  _trackedEntity (viewer w) = Some trackedEntity →
  getValueOrUndefined (position trackedEntity) (currentTime (clock (viewer w)))
    = Some currentPosition →
  sphereState (_dataSourceDisplay (viewer w)) trackedEntity false ≠ PENDING →
  enableTranslate (scene (viewer (updateTrackedEntity w))) =
    (if SceneMode_eqb (mode (scene (viewer w))) COLUMBUS_VIEW
        || SceneMode_eqb (mode (scene (viewer w))) SCENE2D
     then false else enableTranslate (scene (viewer w))) ∧
  enableTilt (scene (viewer (updateTrackedEntity w))) =
    (if SceneMode_eqb (mode (scene (viewer w))) COLUMBUS_VIEW
        || SceneMode_eqb (mode (scene (viewer w))) SCENE3D
     then false else enableTilt (scene (viewer w))) ∧
  _trackedEntity (viewer (updateTrackedEntity w)) = Some trackedEntity.
Proof.
  intros Hneed Htracked Hposition Hstate. unfold updateTrackedEntity.
  rewrite Hneed, Htracked, Hposition. simpl. unfold getBoundingSphere.
  destruct (sphereState (_dataSourceDisplay (viewer w)) trackedEntity false);
    [|done|]; simpl; destruct (mode (scene (viewer w))); simpl; by rewrite ?Htracked.
Qed.

Lemma set_trackedEntity_clock value w :
  clock (viewer (set_trackedEntity value w)) = clock (viewer w) ∧
  _dataSourceDisplay (viewer (set_trackedEntity value w)) = _dataSourceDisplay (viewer w).
Proof.
  unfold set_trackedEntity. repeat case_match; simpl;
    rewrite ?cancelZoom_viewer; by repeat case_match.
Qed.

Lemma set_trackedEntity_undefined_stops w entity :
  _trackedEntity (viewer w) = Some entity →
  _trackedEntity (viewer (set_trackedEntity None w)) = None ∧
  _needTrackedEntityUpdate (viewer (set_trackedEntity None w)) = false ∧
  _entityView (viewer (set_trackedEntity None w)) = None ∧
  transform (scene (viewer (set_trackedEntity None w))) = IDENTITY ∧
  enableTranslate (scene (viewer (set_trackedEntity None w))) =
    (if SceneMode_eqb (mode (scene (viewer w))) COLUMBUS_VIEW
        || SceneMode_eqb (mode (scene (viewer w))) SCENE2D
     then true else enableTranslate (scene (viewer w))) ∧
  enableTilt (scene (viewer (set_trackedEntity None w))) =
    (if SceneMode_eqb (mode (scene (viewer w))) COLUMBUS_VIEW
        || SceneMode_eqb (mode (scene (viewer w))) SCENE3D
     then true else enableTilt (scene (viewer w))).
Proof.
  intros Htracked. unfold set_trackedEntity. rewrite Htracked.
  cbn [sameEntity negb hasPosition defined orb].
  set (w1 := cancelZoom (onViewer (setTrackedEntity None) w)).
  assert (scene (viewer w1) = scene (viewer w)) as Hscene
    by (subst w1; by rewrite cancelZoom_scene).
  assert (_trackedEntity (viewer w1) = None) as Hnone.
  { subst w1. rewrite cancelZoom_viewer. by case_match. }
  clearbody w1. rewrite Hscene.
  destruct (mode (scene (viewer w))); simpl; rewrite ?Hscene; done.
Qed.

(** X10.  Following an entity and letting it go: after the assignment of
    an entity, its first fix and the assignment of [undefined], there is
    no follower helper, the transform is the identity, and translation and
    tilting are enabled in the modes in which the first fix disabled them,
    whatever they were before the tracking; in the other modes they are as
    they were. *)
Theorem tracking_round_trip (w : World) (entity : Entity) (currentPosition : Cartesian3) :
  sameEntity (_trackedEntity (viewer w)) (Some entity) = false →
  getValueOrUndefined (position entity) (currentTime (clock (viewer w)))
    = Some currentPosition →
  sphereState (_dataSourceDisplay (viewer w)) entity false ≠ PENDING →
  let w' :=
    set_trackedEntity None (updateTrackedEntity (set_trackedEntity (Some entity) w)) in
  _trackedEntity (viewer w') = None ∧
  _entityView (viewer w') = None ∧
  _needTrackedEntityUpdate (viewer w') = false ∧
  transform (scene (viewer w')) = IDENTITY ∧
  enableTranslate (scene (viewer w')) =
    (if SceneMode_eqb (mode (scene (viewer w))) COLUMBUS_VIEW
        || SceneMode_eqb (mode (scene (viewer w))) SCENE2D
     then true else enableTranslate (scene (viewer w))) ∧
  enableTilt (scene (viewer w')) =
    (if SceneMode_eqb (mode (scene (viewer w))) COLUMBUS_VIEW
        || SceneMode_eqb (mode (scene (viewer w))) SCENE3D
     then true else enableTilt (scene (viewer w))).
Proof.
  intros Hnew Hposition Hstate. cbv zeta.
  assert (defined (position entity) = true) as Hpos.
  { unfold getValueOrUndefined in Hposition. by destruct (position entity). }
  destruct (set_trackedEntity_trackable w entity Hnew Hpos)
    as (Htracked & Hneed & Hscene).
  destruct (set_trackedEntity_clock (Some entity) w) as [Hclock Hdisplay].
  set (w1 := set_trackedEntity (Some entity) w) in *. clearbody w1.
  destruct (first_fix_controls w1 entity currentPosition Hneed Htracked)
    as (Htranslate & Htilt & Htracked2);
    [by rewrite Hclock | by rewrite Hdisplay |].
  assert (mode (scene (viewer (updateTrackedEntity w1))) = mode (scene (viewer w)))
    as Hmode.
  { unfold updateTrackedEntity. repeat case_match; simpl; by rewrite Hscene. }
  set (w2 := updateTrackedEntity w1) in *. clearbody w2.
  destruct (set_trackedEntity_undefined_stops w2 entity Htracked2)
    as (H1 & H2 & H3 & H4 & H5 & H6).
  rewrite Hmode in H5, H6. rewrite Hscene in Htranslate, Htilt.
  simpl in Htranslate, Htilt.
  rewrite H1, H2, H3, H4, H5, H6, Htranslate, Htilt.
  by destruct (mode (scene (viewer w))).
Qed.

Lemma X10_witness :
  enableTranslate (scene (viewer
    (set_trackedEntity None (updateTrackedEntity
       (set_trackedEntity (Some Scenario.rover)
          (onScene (setEnableTranslate false)
             (initial COLUMBUS_VIEW Scenario.allDone))))))) = true.
Proof.
  pose (w := onScene (setEnableTranslate false) (initial COLUMBUS_VIEW Scenario.allDone)).
  assert (sameEntity (_trackedEntity (viewer w)) (Some Scenario.rover) = false)
    as Hnew by reflexivity.
  assert (getValueOrUndefined (position Scenario.rover) (currentTime (clock (viewer w)))
          = Some Scenario.origin) as Hposition by reflexivity.
  assert (sphereState (_dataSourceDisplay (viewer w)) Scenario.rover false ≠ PENDING)
    as Hstate by discriminate.
  destruct (tracking_round_trip w Scenario.rover Scenario.origin Hnew Hposition Hstate)
    as (_ & _ & _ & _ & Htranslate & _).
  exact Htranslate.
Defined.

(** ** Entities removed from a collection *)

Lemma existsb_undefined (removed : list Entity) :
  existsb (λ removedObject, sameEntity None (Some removedObject)) removed = false.
Proof. by induction removed. Qed.

(** X11.  When a collection reports removed entities, the tracked entity
    becomes undefined exactly when it is one of them (the same object), and
    so does the selected entity; an entity that is not among the removed
    ones stays tracked or selected. *)
Theorem removed_entities_are_let_go (removed : list Entity) (w : World) :
  _trackedEntity (viewer (_onEntityCollectionChanged removed w)) =
    (if existsb (λ removedObject,
                   sameEntity (_trackedEntity (viewer w)) (Some removedObject)) removed
     then None else _trackedEntity (viewer w)) ∧
  _selectedEntity (viewer (_onEntityCollectionChanged removed w)) =
    (if existsb (λ removedObject,
                   sameEntity (_selectedEntity (viewer w)) (Some removedObject)) removed
     then None else _selectedEntity (viewer w)).
Proof.
  revert w. induction removed as [|removedObject rest IH]; intros w; [done|].
  cbn [_onEntityCollectionChanged existsb].
  set (w1 := if sameEntity (_trackedEntity (viewer w)) (Some removedObject)
             then set_trackedEntity None w else w).
  assert (_selectedEntity (viewer w1) = _selectedEntity (viewer w)) as Hsel1.
  { subst w1. case_match; [apply set_trackedEntity_selected | done]. }
  assert (_trackedEntity (viewer w1) =
          if sameEntity (_trackedEntity (viewer w)) (Some removedObject)
          then None else _trackedEntity (viewer w)) as Htr1.
  { subst w1. destruct (_trackedEntity (viewer w)) as [e|] eqn:He; [|done].
    case_match; [|done]. by eapply set_trackedEntity_undefined. }
  clearbody w1.
  set (w2 := if sameEntity (_selectedEntity (viewer w1)) (Some removedObject)
             then set_selectedEntity None w1 else w1).
  assert (_trackedEntity (viewer w2) = _trackedEntity (viewer w1)) as Htr2.
  { subst w2.
    destruct (sameEntity (_selectedEntity (viewer w1)) (Some removedObject));
      [apply set_selectedEntity_tracked | done]. }
  assert (_selectedEntity (viewer w2) =
          if sameEntity (_selectedEntity (viewer w)) (Some removedObject)
          then None else _selectedEntity (viewer w)) as Hsel2.
  { subst w2. rewrite Hsel1.
    destruct (_selectedEntity (viewer w)) as [e|] eqn:He; simpl; [|done].
    destruct (objectId e =? objectId removedObject); [|done].
    by eapply set_selectedEntity_undefined. }
  clearbody w2. destruct (IH w2) as [-> ->]. rewrite Htr2, Htr1, Hsel2.
  split.
  - destruct (sameEntity (_trackedEntity (viewer w)) (Some removedObject));
      simpl; [by rewrite existsb_undefined | done].
  - destruct (sameEntity (_selectedEntity (viewer w)) (Some removedObject));
      simpl; [by rewrite existsb_undefined | done].
Qed.

(** ** Settlement of the other targets *)

Lemma updateTrackedEntity_zoom w :
  _zoomIsFlight (viewer (updateTrackedEntity w)) = _zoomIsFlight (viewer w) ∧
  _zoomOptions (viewer (updateTrackedEntity w)) = _zoomOptions (viewer w) ∧
  _completeZoom (viewer (updateTrackedEntity w)) = _completeZoom (viewer w) ∧
  mode (scene (viewer (updateTrackedEntity w))) = mode (scene (viewer w)).
Proof. unfold updateTrackedEntity. by repeat case_match. Qed.

Lemma completeZoom_unresolved w p value :
  _completeZoom (viewer w) = Some p → promises w !! p = Some None →
  outcome (completeZoom value w) p = Some value ∧
  resolveCalls (completeZoom value w) = resolveCalls w ++ [(p, value)].
Proof.
  intros Hc Hu. unfold completeZoom. rewrite Hc.
  split; [by apply resolve_unresolved | apply resolve_calls].
Qed.

Section Targets.
Context `{Engine}.

(** X12.  A pass that finds a snap request on a list of entities, none
    PENDING and one at least usable, while no entity is tracked, views the
    sphere made of the usable spheres, sets the transform back to the
    identity, clears the request and calls the resolver once, with
    [true].  An outcome that was unresolved becomes [true]; one that was
    resolved already, as the function of an earlier flight can have done,
    stays what it was. *)
Theorem snap_request_views_the_usable_spheres (w : World) (array : ArrayRef)
    (p : PromiseId) :
  _zoomTarget (viewer w) = Some (TargetEntities array) →
  mode (scene (viewer w)) ≠ MORPHING →
  _zoomPromise (viewer w) = Some p →
  _completeZoom (viewer w) = Some p →
  _zoomIsFlight (viewer w) = false →
  _trackedEntity (viewer w) = None →
  Forall (λ e, sphereState (_dataSourceDisplay (viewer w)) e false ≠ PENDING)
    (readArray array w) →
  usableSpheres (_dataSourceDisplay (viewer w)) (readArray array w) ≠ [] →
  resolveCalls (updateZoomTarget w) = resolveCalls w ++ [(p, true)] ∧
  (promises w !! p = Some None → outcome (updateZoomTarget w) p = Some true) ∧
  (∀ b, outcome w p = Some b → outcome (updateZoomTarget w) p = Some b) ∧
  cameraCalls (scene (viewer (updateZoomTarget w))) =
    cameraCalls (scene (viewer w)) ++
    [Camera.viewBoundingSphere
       (fromBoundingSpheres
          (usableSpheres (_dataSourceDisplay (viewer w)) (readArray array w)))
       (offset (defaultValue (_zoomOptions (viewer w)) emptyOptions));
     Camera.lookAtTransform IDENTITY] ∧
  transform (scene (viewer (updateZoomTarget w))) = IDENTITY ∧
  _zoomPromise (viewer (updateZoomTarget w)) = None ∧
  _zoomTarget (viewer (updateZoomTarget w)) = None.
Proof.
  intros Ht Hmode Hp Hc Hsnap Htracked Hsettled Husable.
  unfold updateZoomTarget. rewrite Ht, (SceneMode_eqb_false _ _ Hmode).
  destruct (pollEntities_settled (_dataSourceDisplay (viewer w))
              (readArray array w) [] (boundingSphereScratch w) Hsettled)
    as [scratch ->].
  simpl app at 1.
  destruct (usableSpheres _ _) as [|sphere spheres] eqn:Hspheres; [done|].
  simpl length. simpl Nat.eqb. cbv iota.
  assert (set_trackedEntity None (setScratch scratch w) = setScratch scratch w) as ->.
  { unfold set_trackedEntity. simpl. by rewrite Htracked. }
  simpl _zoomIsFlight. rewrite Hsnap. simpl negb. cbv iota.
  rewrite completeZoom_viewer.
  set (w1 := clearZoom _).
  destruct (completeZoom_outcome w1 p true) as (-> & Hnew & Hold); [done|].
  split; [done|]. split; [exact Hnew|]. split; [exact Hold|].
  subst w1. simpl. by rewrite <- app_assoc.
Qed.

(** X13.  A pass that finds a flight request on such a list, while no
    entity is tracked, starts the flight to the sphere made of the usable
    spheres and clears the request, the outcome still unresolved.  When
    the camera then calls [complete], or [cancel], before anything else
    happens, the outcome is resolved to [true], or to [false]. *)
Theorem flight_request_settles_with_the_flight (w : World) (array : ArrayRef)
    (p : PromiseId) (completed : bool) :
  _zoomTarget (viewer w) = Some (TargetEntities array) →
  mode (scene (viewer w)) ≠ MORPHING →
  _zoomPromise (viewer w) = Some p →
  _completeZoom (viewer w) = Some p →
  promises w !! p = Some None →
  _zoomIsFlight (viewer w) = true →
  _trackedEntity (viewer w) = None →
  Forall (λ e, sphereState (_dataSourceDisplay (viewer w)) e false ≠ PENDING)
    (readArray array w) →
  usableSpheres (_dataSourceDisplay (viewer w)) (readArray array w) ≠ [] →
  outcome (_postRender w) p = None ∧
  _zoomPromise (viewer (_postRender w)) = None ∧
  cameraCalls (scene (viewer (_postRender w))) =
    cameraCalls (scene (viewer w)) ++
    [Camera.flyToBoundingSphere
       (fromBoundingSpheres
          (usableSpheres (_dataSourceDisplay (viewer w)) (readArray array w)))
       {| offset := offset (defaultValue (_zoomOptions (viewer w)) emptyOptions);
          duration := duration (defaultValue (_zoomOptions (viewer w)) emptyOptions);
          maximumHeight :=
            maximumHeight (defaultValue (_zoomOptions (viewer w)) emptyOptions) |}] ∧
  pending (_postRender w) = pending w ++ [Flight] ∧
  outcome (run w [PostRender; Invoke (length (pending w)) completed]) p
    = Some completed.
Proof.
  intros Ht Hmode Hp Hc Hu Hflight Htracked Hsettled Husable.
  assert (∃ scratch,
            updateZoomTarget w =
            camera_flyToBoundingSphere
              (fromBoundingSpheres
                 (usableSpheres (_dataSourceDisplay (viewer w)) (readArray array w)))
              {| offset := offset (defaultValue (_zoomOptions (viewer w)) emptyOptions);
                 duration := duration (defaultValue (_zoomOptions (viewer w)) emptyOptions);
                 maximumHeight :=
                   maximumHeight (defaultValue (_zoomOptions (viewer w)) emptyOptions) |}
              (clearZoom (setScratch scratch w))) as [scratch Hsettle].
  { unfold updateZoomTarget. rewrite Ht, (SceneMode_eqb_false _ _ Hmode).
    destruct (pollEntities_settled (_dataSourceDisplay (viewer w))
                (readArray array w) [] (boundingSphereScratch w) Hsettled)
      as [scratch ->].
    exists scratch. simpl app at 1.
    destruct (usableSpheres _ _) as [|sphere spheres] eqn:Hspheres; [done|].
    simpl length. simpl Nat.eqb. cbv iota.
    assert (set_trackedEntity None (setScratch scratch w) = setScratch scratch w) as ->.
    { unfold set_trackedEntity. simpl. by rewrite Htracked. }
    simpl _zoomIsFlight. by rewrite Hflight. }
  simpl run. unfold _postRender.
  destruct (updateTrackedEntity_frame (updateZoomTarget w))
    as (Ep & Er & Ec & Ez & Et & _).
  destruct (updateTrackedEntity_zoom (updateZoomTarget w)) as (_ & _ & Ecz & _).
  pose proof (updateTrackedEntity_pending (updateZoomTarget w)) as Epend.
  set (w1 := updateTrackedEntity (updateZoomTarget w)) in *.
  rewrite Hsettle in Ep, Er, Ec, Ez, Et, Ecz, Epend. simpl in Ep, Ec, Ez, Ecz, Epend.
  clearbody w1. unfold outcome at 1. rewrite Ep, Hu, Ez, Ec, Epend.
  repeat (split; [done|]).
  rewrite lookup_app_r, Nat.sub_diag by lia. simpl.
  edestruct (completeZoom_unresolved
               (setPending (delete (length (pending w)) (pending w ++ [Flight])) w1)
               p completed) as [Ho _]; simpl; [by rewrite Ecz | by rewrite Ep | done].
Qed.

End Targets.

Lemma X12_witness :
  outcome (updateZoomTarget (H := Scenario.sumEngine)
             (Scenario.pendingList Scenario.allDone [Scenario.beacon])) 0 = Some true.
Proof.
  set (w := Scenario.pendingList Scenario.allDone [Scenario.beacon]).
  assert (_zoomTarget (viewer w) = Some (TargetEntities 1)) as Ht by reflexivity.
  assert (mode (scene (viewer w)) ≠ MORPHING) as Hmode by discriminate.
  assert (_zoomPromise (viewer w) = Some 0) as Hp by reflexivity.
  assert (_completeZoom (viewer w) = Some 0) as Hc by reflexivity.
  assert (_zoomIsFlight (viewer w) = false) as Hsnap by reflexivity.
  assert (_trackedEntity (viewer w) = None) as Htracked by reflexivity.
  assert (Forall (λ e, sphereState (_dataSourceDisplay (viewer w)) e false ≠ PENDING)
            (readArray 1 w)) as Hsettled
    by (vm_compute; repeat constructor; discriminate).
  assert (usableSpheres (_dataSourceDisplay (viewer w)) (readArray 1 w) ≠ [])
    as Husable by (vm_compute; discriminate).
  destruct (snap_request_views_the_usable_spheres (H := Scenario.sumEngine) w 1 0
              Ht Hmode Hp Hc Hsnap Htracked Hsettled Husable) as (_ & Hnew & _).
  apply Hnew. reflexivity.
Defined.

Lemma X13_witness :
  outcome (run (H := Scenario.sumEngine) Cases.flightRequest
             [PostRender; Invoke 0 true]) 0 = Some true.
Proof.
  set (w := Cases.flightRequest).
  assert (_zoomTarget (viewer w) = Some (TargetEntities 1)) as Ht by reflexivity.
  assert (mode (scene (viewer w)) ≠ MORPHING) as Hmode by discriminate.
  assert (_zoomPromise (viewer w) = Some 0) as Hp by reflexivity.
  assert (_completeZoom (viewer w) = Some 0) as Hc by reflexivity.
  assert (promises w !! 0 = Some None) as Hu by reflexivity.
  assert (_zoomIsFlight (viewer w) = true) as Hflight by reflexivity.
  assert (_trackedEntity (viewer w) = None) as Htracked by reflexivity.
  assert (Forall (λ e, sphereState (_dataSourceDisplay (viewer w)) e false ≠ PENDING)
            (readArray 1 w)) as Hsettled
    by (vm_compute; repeat constructor; discriminate).
  assert (usableSpheres (_dataSourceDisplay (viewer w)) (readArray 1 w) ≠ [])
    as Husable by (vm_compute; discriminate).
  destruct (flight_request_settles_with_the_flight (H := Scenario.sumEngine) w 1 0 true
              Ht Hmode Hp Hc Hu Hflight Htracked Hsettled Husable)
    as (_ & _ & _ & _ & Ho).
  exact Ho.
Defined.

Section Deferral.
Context `{Engine}.

(** X14.  While one entity of the list is PENDING, or while the scene is
    morphing, a pass commits nothing of the request: no function of the
    camera is called, no resolver is called, the request, its target and
    the tracked entity stay as they are. *)
Theorem unsettled_request_is_left_alone (w : World) (array : ArrayRef) :
  _zoomTarget (viewer w) = Some (TargetEntities array) →
  mode (scene (viewer w)) = MORPHING
  ∨ Exists (λ e, sphereState (_dataSourceDisplay (viewer w)) e false = PENDING)
      (readArray array w) →
  viewer (updateZoomTarget w) = viewer w ∧
  promises (updateZoomTarget w) = promises w ∧
  resolveCalls (updateZoomTarget w) = resolveCalls w ∧
  pending (updateZoomTarget w) = pending w ∧
  arrays (updateZoomTarget w) = arrays w.
Proof.
  intros Ht [Hmorph|Hpending].
  - unfold updateZoomTarget. by rewrite Ht, Hmorph.
  - destruct (pending_entity_defers w array Ht Hpending) as [scratch ->]. done.
Qed.

End Deferral.

Lemma X14_witness :
  viewer (updateZoomTarget (H := Scenario.sumEngine) Cases.waiting)
  = viewer Cases.waiting.
Proof.
  assert (_zoomTarget (viewer Cases.waiting) = Some (TargetEntities 1)) as Ht
    by reflexivity.
  assert (Exists (λ e, sphereState (_dataSourceDisplay (viewer Cases.waiting)) e false
                       = PENDING) (readArray 1 Cases.waiting)) as Hpending
    by (vm_compute; constructor; reflexivity).
  destruct (unsettled_request_is_left_alone (H := Scenario.sumEngine)
              Cases.waiting 1 Ht (or_intror Hpending)) as [Hviewer _].
  exact Hviewer.
Defined.

Section Positions.
Context `{Engine}.

(** What a pass does with a position as the target. *)
Lemma updateZoomTarget_position w location :
  _zoomTarget (viewer w) = Some (TargetCartographic location) →
  mode (scene (viewer w)) ≠ MORPHING →
  updateZoomTarget w =
  clearZoom
    (if _zoomIsFlight (viewer w) then
       camera_flyTo (cartographicToCartesian location)
         (duration (defaultValue (_zoomOptions (viewer w)) emptyOptions))
         (maximumHeight (defaultValue (_zoomOptions (viewer w)) emptyOptions)) w
     else completeZoom true (camera_setView (cartographicToCartesian location) w)).
Proof.
  intros Ht Hmode. unfold updateZoomTarget.
  by rewrite Ht, (SceneMode_eqb_false _ _ Hmode).
Qed.


Lemma step_invoke_last w callbacks c ok :
  pending w = callbacks ++ [c] →
  step w (Invoke (length callbacks) ok) = invoke c ok (setPending callbacks w).
Proof.
  intros Hpending. simpl. rewrite Hpending.
  rewrite lookup_app_r, Nat.sub_diag by lia. simpl.
  by rewrite delete_middle, app_nil_r.
Qed.

Lemma zoomToOrFly_installed w zoomTarget options isFlight :
  fst (zoomToOrFly (Some zoomTarget) options isFlight w)
    = Return (length (promises w)) ∧
  pending (snd (zoomToOrFly (Some zoomTarget) options isFlight w)) =
    pending w ++ [ThenTarget (length (promises w)) zoomTarget] ∧
  _zoomPromise (viewer (snd (zoomToOrFly (Some zoomTarget) options isFlight w)))
    = Some (length (promises w)) ∧
  _completeZoom (viewer (snd (zoomToOrFly (Some zoomTarget) options isFlight w)))
    = Some (length (promises w)) ∧
  _zoomIsFlight (viewer (snd (zoomToOrFly (Some zoomTarget) options isFlight w)))
    = isFlight ∧
  promises (snd (zoomToOrFly (Some zoomTarget) options isFlight w))
    !! length (promises w) = Some None ∧
  cameraCalls (scene (viewer (snd (zoomToOrFly (Some zoomTarget) options isFlight w))))
    = cameraCalls (scene (viewer w)) ∧
  mode (scene (viewer (snd (zoomToOrFly (Some zoomTarget) options isFlight w))))
    = mode (scene (viewer w)).
Proof.
  assert (length (promises (cancelZoom w)) = length (promises w)) as Hlen.
  { unfold cancelZoom. case_match; [|done]. unfold completeZoom.
    case_match; [|done]. by rewrite resolve_length. }
  assert (pending (cancelZoom w) = pending w) as Hpending.
  { unfold cancelZoom. case_match; [|done]. by rewrite completeZoom_pending. }
  simpl. rewrite Hlen, Hpending, cancelZoom_scene.
  repeat (split; [done|]). split; [|done].
  by rewrite lookup_app_r, Hlen, Nat.sub_diag by lia.
Qed.

(** X16.  [zoomTo] on an imagery layer, from the call to the move: once
    the functions handed to [then] have run and a pass has come, the
    camera has been set to the Cartesian point of the location computed
    for the rectangle of the layer, and the returned promise is resolved to
    [true].  The offset given to [zoomTo] plays no part. *)
Theorem imagery_layer_is_viewed (w : World) (layer : ImageryLayer)
    (offset : option HeadingPitchRange) :
  mode (scene (viewer w)) ≠ MORPHING →
  fst (zoomTo (Some (ImageryLayerArg layer)) offset w)
    = Return (length (promises w)) ∧
  cameraCalls (scene (viewer (run w
      [ZoomTo (Some (ImageryLayerArg layer)) offset;
       Invoke (length (pending w)) true;
       Invoke (length (pending w)) true;
       PostRender]))) =
    cameraCalls (scene (viewer w)) ++
    [Camera.setView (cartographicToCartesian
       (computeFlyToLocationForRectangle (getImageryRectangle layer)))] ∧
  outcome (run w
      [ZoomTo (Some (ImageryLayerArg layer)) offset;
       Invoke (length (pending w)) true;
       Invoke (length (pending w)) true;
       PostRender]) (length (promises w)) = Some true.
Proof.
  intros Hmode.
  change (run w [ZoomTo (Some (ImageryLayerArg layer)) offset;
                 Invoke (length (pending w)) true;
                 Invoke (length (pending w)) true; PostRender])
    with (_postRender
            (step (step (snd (zoomTo (Some (ImageryLayerArg layer)) offset w))
                     (Invoke (length (pending w)) true))
               (Invoke (length (pending w)) true))).
  unfold zoomTo.
  destruct (zoomToOrFly_installed w (ImageryLayerArg layer)
              (Some {| offset := offset; duration := None; maximumHeight := None |})
              false) as (Hfst & Hpend & Hp & Hc & Hfl & Hu & Hcalls & Hmode1).
  split; [done|].
  set (w1 := snd (zoomToOrFly _ _ _ _)) in *. clearbody w1.
  rewrite (step_invoke_last w1 _ _ true Hpend). cbn [invoke].
  unfold thenTarget. cbn [_zoomPromise viewer setPending]. rewrite Hp.
  cbn [samePromise]. rewrite Nat.eqb_refl. cbn [negb].
  rewrite (step_invoke_last _ (pending w) (ThenPosition (length (promises w)) layer) true)
    by done.
  cbn [invoke]. unfold thenPosition.
  cbn [_zoomPromise viewer setPending addCallback]. rewrite Hp.
  cbn [samePromise]. rewrite Nat.eqb_refl.
  set (w3 := onViewer _ _). unfold _postRender.
  destruct (updateTrackedEntity_frame (updateZoomTarget w3)) as (Ep & _ & Ec & _).
  unfold outcome. rewrite Ep, Ec.
  rewrite (updateZoomTarget_position w3
             (computeFlyToLocationForRectangle (getImageryRectangle layer)))
    by (subst w3; simpl; rewrite ?Hmode1; done).
  assert (_zoomIsFlight (viewer w3) = false) as -> by (subst w3; simpl; done).
  set (w4 := camera_setView _ w3).
  destruct (completeZoom_unresolved w4 (length (promises w)) true) as [Ho _];
    [subst w4 w3; simpl; done..|].
  unfold outcome in Ho. unfold clearZoom. simpl. rewrite Ho.
  rewrite completeZoom_viewer. subst w4 w3. simpl. by rewrite Hcalls.
Qed.

End Positions.


Lemma X16_witness :
  outcome (run (H := Scenario.sumEngine) (initial SCENE2D Scenario.allDone)
    [ZoomTo (Some (ImageryLayerArg Cases.layer)) None;
     Invoke 0 true; Invoke 0 true; PostRender]) 0 = Some true.
Proof.
  assert (mode (scene (viewer (initial SCENE2D Scenario.allDone))) ≠ MORPHING)
    as Hmode by discriminate.
  destruct (imagery_layer_is_viewed (H := Scenario.sumEngine)
              (initial SCENE2D Scenario.allDone) Cases.layer None Hmode)
    as (_ & _ & Ho).
  exact Ho.
Defined.

(** ** Primitives and their readiness *)

Section Readiness.
Context `{Engine}.

(** What the function handed to [then] does in snap mode. *)
Lemma thenReady_snap w target zoomOptions :
  _zoomIsFlight (viewer w) = false →
  thenReady target zoomOptions w =
  clearZoom (completeZoom true
    (camera_lookAtTransform IDENTITY
       (camera_viewBoundingSphere (boundingSphere target)
          (if negb (defined (offset zoomOptions))
           then Some {| heading := 0%Q; pitch := (- (1 # 2))%Q;
                        range := radius (boundingSphere target) |}
           else offset zoomOptions) w))).
Proof. intros Hsnap. unfold thenReady. by rewrite Hsnap. Qed.

(** X17.  A snap request on a tileset, a voxel primitive or a point cloud
    whose readiness promise is fulfilled: the pass hands [then] its
    function, and when that runs the camera views the bounding sphere of
    the primitive with the offset of the options, or, when they have none,
    with heading 0, pitch -0.5 and the radius of the sphere as range; the
    transform is set back to the identity, the resolver is called once,
    with [true], and the request is cleared.  An outcome that was
    unresolved becomes [true]; one that was resolved already, as the
    function of an earlier flight can have done, stays what it was.  The
    tracked entity is not touched. *)
Theorem ready_primitive_is_viewed (w : World) (primitive : Primitive) (p : PromiseId) :
  _zoomTarget (viewer w) = Some (TargetPrimitive primitive) →
  mode (scene (viewer w)) ≠ MORPHING →
  _completeZoom (viewer w) = Some p →
  _zoomIsFlight (viewer w) = false →
  let w' := run w [PostRender; Invoke (length (pending w)) true] in
  cameraCalls (scene (viewer w')) =
    cameraCalls (scene (viewer w)) ++
    [Camera.viewBoundingSphere (boundingSphere primitive)
       (match offset (defaultValue (_zoomOptions (viewer w)) emptyOptions) with
        | Some given => Some given
        | None => Some {| heading := 0%Q; pitch := (- (1 # 2))%Q;
                          range := radius (boundingSphere primitive) |}
        end);
     Camera.lookAtTransform IDENTITY] ∧
  resolveCalls w' = resolveCalls w ++ [(p, true)] ∧
  (promises w !! p = Some None → outcome w' p = Some true) ∧
  (∀ b, outcome w p = Some b → outcome w' p = Some b) ∧
  _zoomPromise (viewer w') = None ∧
  _zoomTarget (viewer w') = None ∧
  _trackedEntity (viewer w') = _trackedEntity (viewer w).
Proof.
  intros Ht Hmode Hc Hsnap. cbv zeta.
  change (run w [PostRender; Invoke (length (pending w)) true])
    with (step (_postRender w) (Invoke (length (pending w)) true)).
  unfold _postRender.
  assert (∃ hasCatch,
            updateZoomTarget w =
            addCallback (ThenReady primitive
              (defaultValue (_zoomOptions (viewer w)) emptyOptions) hasCatch) w)
    as [hasCatch Hpass].
  { unfold updateZoomTarget. rewrite Ht, (SceneMode_eqb_false _ _ Hmode).
    destruct (class primitive); by eexists. }
  destruct (updateTrackedEntity_frame (updateZoomTarget w))
    as (Ep & Er & Ec & _ & _ & Etr & _).
  destruct (updateTrackedEntity_zoom (updateZoomTarget w)) as (Efl & _ & Ecz & _).
  pose proof (updateTrackedEntity_pending (updateZoomTarget w)) as Epend.
  set (w1 := updateTrackedEntity (updateZoomTarget w)) in *.
  rewrite Hpass in Ep, Er, Ec, Etr, Efl, Ecz, Epend.
  simpl in Ep, Er, Ec, Etr, Efl, Ecz, Epend. clearbody w1.
  rewrite (step_invoke_last w1 _ _ true Epend). cbn [invoke].
  rewrite thenReady_snap by (simpl; congruence).
  set (w2 := camera_lookAtTransform _ _).
  destruct (completeZoom_outcome w2 p true) as (Hcalls & Hnew & Hold).
  { subst w2. simpl. congruence. }
  unfold outcome in *. unfold clearZoom. simpl. rewrite completeZoom_viewer, Hcalls.
  assert (promises w2 = promises w) as Ep2 by (subst w2; simpl; done).
  rewrite Ep2 in Hnew, Hold.
  split; [|split; [|split; [exact Hnew|split; [exact Hold|]]]].
  - subst w2. simpl. rewrite Ec, <- app_assoc.
    by destruct (offset (defaultValue (_zoomOptions (viewer w)) emptyOptions)).
  - subst w2. simpl. by rewrite Er.
  - subst w2. simpl. by rewrite Etr.
Qed.

(** X18.  A request on a tileset or on a voxel primitive whose readiness
    promise is rejected: the rejection reaches the [catch] the pass added,
    which cancels the request: the resolver is called once, with [false],
    the request is cleared and no function of the camera is called.  An
    outcome that was unresolved becomes [false]; one that was resolved
    already, as the function of an earlier flight can have done, stays
    what it was. *)
Theorem rejected_tileset_is_cancelled (w : World) (primitive : Primitive)
    (p : PromiseId) :
  _zoomTarget (viewer w) = Some (TargetPrimitive primitive) →
  class primitive ≠ TimeDynamicPointCloud →
  mode (scene (viewer w)) ≠ MORPHING →
  _zoomPromise (viewer w) = Some p →
  _completeZoom (viewer w) = Some p →
  let w' := run w [PostRender; Invoke (length (pending w)) false] in
  resolveCalls w' = resolveCalls w ++ [(p, false)] ∧
  (promises w !! p = Some None → outcome w' p = Some false) ∧
  (∀ b, outcome w p = Some b → outcome w' p = Some b) ∧
  cameraCalls (scene (viewer w')) = cameraCalls (scene (viewer w)) ∧
  _zoomPromise (viewer w') = None ∧
  _zoomTarget (viewer w') = None.
Proof.
  intros Ht Hclass Hmode Hp Hc. cbv zeta.
  change (run w [PostRender; Invoke (length (pending w)) false])
    with (step (_postRender w) (Invoke (length (pending w)) false)).
  unfold _postRender.
  assert (updateZoomTarget w =
          addCallback (ThenReady primitive
            (defaultValue (_zoomOptions (viewer w)) emptyOptions) true) w) as Hpass.
  { unfold updateZoomTarget. rewrite Ht, (SceneMode_eqb_false _ _ Hmode).
    by destruct (class primitive). }
  destruct (updateTrackedEntity_frame (updateZoomTarget w))
    as (Ep & Er & Ec & Ez & _).
  destruct (updateTrackedEntity_zoom (updateZoomTarget w)) as (_ & _ & Ecz & _).
  pose proof (updateTrackedEntity_pending (updateZoomTarget w)) as Epend.
  set (w1 := updateTrackedEntity (updateZoomTarget w)) in *.
  rewrite Hpass in Ep, Er, Ec, Ez, Ecz, Epend.
  simpl in Ep, Er, Ec, Ez, Ecz, Epend. clearbody w1.
  rewrite (step_invoke_last w1 _ _ false Epend). cbn [invoke].
  set (w2 := setPending (pending w) w1).
  destruct (cancelZoom_installed w2 p) as (Hcalls & Hnew & Hold & Hz & Hz').
  { subst w2. simpl. congruence. }
  { subst w2. simpl. congruence. }
  assert (promises w2 = promises w) as Ep2 by (subst w2; simpl; done).
  unfold outcome in *. rewrite Ep2 in Hnew, Hold.
  rewrite Hcalls, cancelZoom_scene.
  subst w2. simpl. rewrite Er, Ec. by repeat split.
Qed.

End Readiness.

Lemma X17_witness :
  cameraCalls (scene (viewer (run (H := Scenario.sumEngine) Cases.tilesetRequest
                                [PostRender; Invoke 0 true]))) =
  [Camera.viewBoundingSphere (Scenario.ball 4)
     (Some {| heading := 0%Q; pitch := (- (1 # 2))%Q; range := 4%Q |});
   Camera.lookAtTransform IDENTITY]
  ∧ outcome (run (H := Scenario.sumEngine) Cases.tilesetRequest
               [PostRender; Invoke 0 true]) 0 = Some true.
Proof.
  set (w := Cases.tilesetRequest).
  assert (_zoomTarget (viewer w) = Some (TargetPrimitive Cases.tileset)) as Ht
    by reflexivity.
  assert (mode (scene (viewer w)) ≠ MORPHING) as Hmode by discriminate.
  assert (_completeZoom (viewer w) = Some 0) as Hc by reflexivity.
  assert (_zoomIsFlight (viewer w) = false) as Hsnap by reflexivity.
  destruct (ready_primitive_is_viewed (H := Scenario.sumEngine) w Cases.tileset 0
              Ht Hmode Hc Hsnap) as (Hcalls & _ & Hnew & _).
  split; [exact Hcalls | apply Hnew; reflexivity].
Defined.

Lemma X18_witness :
  outcome (run (H := Scenario.sumEngine) Cases.tilesetRequest
             [PostRender; Invoke 0 false]) 0 = Some false.
Proof.
  set (w := Cases.tilesetRequest).
  assert (_zoomTarget (viewer w) = Some (TargetPrimitive Cases.tileset)) as Ht
    by reflexivity.
  assert (class Cases.tileset ≠ TimeDynamicPointCloud) as Hclass by discriminate.
  assert (mode (scene (viewer w)) ≠ MORPHING) as Hmode by discriminate.
  assert (_zoomPromise (viewer w) = Some 0) as Hp by reflexivity.
  assert (_completeZoom (viewer w) = Some 0) as Hc by reflexivity.
  destruct (rejected_tileset_is_cancelled (H := Scenario.sumEngine) w Cases.tileset 0
              Ht Hclass Hmode Hp Hc) as (_ & Hnew & _).
  apply Hnew. reflexivity.
Defined.

Section Waiting.
Context `{Engine}.

Lemma setPending_addCallback callbacks c w :
  addCallback c (setPending callbacks w) = setPending (callbacks ++ [c]) w.
Proof. done. Qed.

Lemma setPending_same w : setPending (pending w) w = w.
Proof. by destruct w. Qed.

(** Each pass over a primitive that is not ready hands [then] one more
    function. *)
Lemma waiting_passes w primitive n :
  _zoomTarget (viewer w) = Some (TargetPrimitive primitive) →
  mode (scene (viewer w)) ≠ MORPHING →
  _needTrackedEntityUpdate (viewer w) = false →
  ∃ hasCatch,
    run w (replicate n PostRender) =
    setPending
      (pending w ++
       replicate n (ThenReady primitive
                      (defaultValue (_zoomOptions (viewer w)) emptyOptions) hasCatch))
      w.
Proof.
  intros Ht Hmode Hneed.
  exists (match class primitive with TimeDynamicPointCloud => false | _ => true end).
  revert w Ht Hmode Hneed. induction n as [|n IH]; intros w Ht Hmode Hneed.
  - simpl. by rewrite app_nil_r, setPending_same.
  - cbn [replicate run foldl step]. unfold _postRender.
    assert (updateZoomTarget w =
            addCallback (ThenReady primitive
              (defaultValue (_zoomOptions (viewer w)) emptyOptions)
              (match class primitive with TimeDynamicPointCloud => false | _ => true end))
              w) as ->.
    { unfold updateZoomTarget. rewrite Ht, (SceneMode_eqb_false _ _ Hmode).
      by destruct (class primitive). }
    assert (∀ x, _needTrackedEntityUpdate (viewer x) = false →
                 updateTrackedEntity x = x) as Hidle.
    { intros x Hx. unfold updateTrackedEntity. by rewrite Hx. }
    rewrite Hidle by done.
    change (foldl step ?x ?l) with (run x l). rewrite IH by done.
    simpl. by rewrite <- app_assoc.
Qed.

Lemma step_invoke_first w c callbacks ok :
  pending w = c :: callbacks →
  step w (Invoke 0 ok) = invoke c ok (setPending callbacks w).
Proof. intros Hpending. simpl. by rewrite Hpending. Qed.

(** In snap mode each of these functions moves the camera and calls the
    resolver. *)
Lemma ready_invocations w primitive zoomOptions hasCatch p n :
  _zoomIsFlight (viewer w) = false →
  _completeZoom (viewer w) = Some p →
  pending w = replicate n (ThenReady primitive zoomOptions hasCatch) →
  cameraCalls (scene (viewer (run w (replicate n (Invoke 0 true))))) =
    cameraCalls (scene (viewer w)) ++
    mjoin (replicate n
      [Camera.viewBoundingSphere (boundingSphere primitive)
         (if negb (defined (offset zoomOptions))
          then Some {| heading := 0%Q; pitch := (- (1 # 2))%Q;
                       range := radius (boundingSphere primitive) |}
          else offset zoomOptions);
       Camera.lookAtTransform IDENTITY]) ∧
  resolveCalls (run w (replicate n (Invoke 0 true))) =
    resolveCalls w ++ replicate n (p, true).
Proof.
  revert w. induction n as [|n IH]; intros w Hsnap Hc Hpending.
  - simpl. by rewrite !app_nil_r.
  - cbn [replicate run foldl].
    change (foldl step ?x ?l) with (run x l).
    rewrite (step_invoke_first w _ _ true Hpending).
    cbn [invoke]. rewrite thenReady_snap by done.
    set (w1 := clearZoom _).
    assert (_zoomIsFlight (viewer w1) = false) as Hsnap1
      by (subst w1; simpl; by rewrite completeZoom_viewer).
    assert (_completeZoom (viewer w1) = Some p) as Hc1
      by (subst w1; simpl; by rewrite completeZoom_viewer).
    assert (pending w1 = replicate n (ThenReady primitive zoomOptions hasCatch))
      as Hpending1.
    { subst w1. simpl. by rewrite completeZoom_pending. }
    destruct (IH w1 Hsnap1 Hc1 Hpending1) as [-> ->].
    subst w1. simpl. rewrite completeZoom_viewer. simpl.
    unfold completeZoom. simpl. rewrite Hc, resolve_calls. simpl.
    by rewrite <- !app_assoc.
Qed.

(** X19.  A snap request on a primitive waits [n] passes for the
    readiness promise: each pass hands [then] one more function, and when
    the promise is fulfilled each of them moves the camera and calls the
    resolver, [n] moves and [n] calls in all. *)
Theorem waited_passes_repeat_the_move (w : World) (primitive : Primitive)
    (p : PromiseId) (n : nat) :
  _zoomTarget (viewer w) = Some (TargetPrimitive primitive) →
  mode (scene (viewer w)) ≠ MORPHING →
  _needTrackedEntityUpdate (viewer w) = false →
  _zoomIsFlight (viewer w) = false →
  _completeZoom (viewer w) = Some p →
  pending w = [] →
  cameraCalls (scene (viewer
    (run w (replicate n PostRender ++ replicate n (Invoke 0 true))))) =
    cameraCalls (scene (viewer w)) ++
    mjoin (replicate n
      [Camera.viewBoundingSphere (boundingSphere primitive)
         (match offset (defaultValue (_zoomOptions (viewer w)) emptyOptions) with
          | Some given => Some given
          | None => Some {| heading := 0%Q; pitch := (- (1 # 2))%Q;
                            range := radius (boundingSphere primitive) |}
          end);
       Camera.lookAtTransform IDENTITY]) ∧
  resolveCalls (run w (replicate n PostRender ++ replicate n (Invoke 0 true))) =
    resolveCalls w ++ replicate n (p, true).
Proof.
  intros Ht Hmode Hneed Hsnap Hc Hpending. rewrite run_app.
  destruct (waiting_passes w primitive n Ht Hmode Hneed) as [hasCatch ->].
  rewrite Hpending. simpl app.
  destruct (ready_invocations
              (setPending (replicate n (ThenReady primitive
                 (defaultValue (_zoomOptions (viewer w)) emptyOptions) hasCatch)) w)
              primitive (defaultValue (_zoomOptions (viewer w)) emptyOptions)
              hasCatch p n Hsnap Hc eq_refl) as [-> ->].
  simpl. by destruct (offset (defaultValue (_zoomOptions (viewer w)) emptyOptions)).
Qed.

End Waiting.

Lemma X19_witness :
  length (cameraCalls (scene (viewer
    (run (H := Scenario.sumEngine) Cases.tilesetRequest
       (replicate 3 PostRender ++ replicate 3 (Invoke 0 true)))))) = 6
  ∧ resolveCalls (run (H := Scenario.sumEngine) Cases.tilesetRequest
       (replicate 3 PostRender ++ replicate 3 (Invoke 0 true)))
    = [(0, true); (0, true); (0, true)].
Proof.
  set (w := Cases.tilesetRequest).
  assert (_zoomTarget (viewer w) = Some (TargetPrimitive Cases.tileset)) as Ht
    by reflexivity.
  assert (mode (scene (viewer w)) ≠ MORPHING) as Hmode by discriminate.
  assert (_needTrackedEntityUpdate (viewer w) = false) as Hneed by reflexivity.
  assert (_zoomIsFlight (viewer w) = false) as Hsnap by reflexivity.
  assert (_completeZoom (viewer w) = Some 0) as Hc by reflexivity.
  assert (pending w = []) as Hpending by reflexivity.
  destruct (waited_passes_repeat_the_move (H := Scenario.sumEngine)
              w Cases.tileset 0 3 Ht Hmode Hneed Hsnap Hc Hpending) as [Hcalls Hr].
  split; [by rewrite Hcalls | exact Hr].
Defined.

(** ** A request made over another *)

(** X20.  A call of [zoomTo] or [flyTo] made while a request is installed
    with its outcome unresolved resolves that outcome to [false], by one
    call of its resolver, before the new promise is installed. *)
Theorem new_request_cancels_the_installed_one (w : World) (p : PromiseId)
    (zoomTarget : ZoomArg) (options : option ZoomOptions) (isFlight : bool) :
  _zoomPromise (viewer w) = Some p →
  _completeZoom (viewer w) = Some p →
  promises w !! p = Some None →
  outcome (snd (zoomToOrFly (Some zoomTarget) options isFlight w)) p = Some false ∧
  resolveCalls (snd (zoomToOrFly (Some zoomTarget) options isFlight w)) =
    resolveCalls w ++ [(p, false)] ∧
  _zoomPromise (viewer (snd (zoomToOrFly (Some zoomTarget) options isFlight w)))
    = Some (length (promises w)).
Proof.
  intros Hp Hc Hu.
  destruct (superseding_cancels_installed_request w p zoomTarget options isFlight
              Hp Hc Hu) as [Ho Hr].
  destruct (zoomToOrFly_installed w zoomTarget options isFlight)
    as (_ & _ & Hnew & _).
  done.
Qed.

Lemma X20_witness :
  outcome (snd (zoomToOrFly (Some (EntityArg Scenario.tower)) None true Cases.waiting)) 0
  = Some false.
Proof.
  assert (_zoomPromise (viewer Cases.waiting) = Some 0) as Hp by reflexivity.
  assert (_completeZoom (viewer Cases.waiting) = Some 0) as Hc by reflexivity.
  assert (promises Cases.waiting !! 0 = Some None) as Hu by reflexivity.
  destruct (new_request_cancels_the_installed_one Cases.waiting 0
              (EntityArg Scenario.tower) None true Hp Hc Hu) as [Ho _].
  exact Ho.
Defined.

(** ** The clock and the data sources *)

Lemma sameSource_refl value : sameSource value value = true.
Proof. destruct value; simpl; [apply Nat.eqb_refl | done]. Qed.

Lemma set_clockTrackedDataSource_fields value t :
  _automaticallyTrackDataSourceClocks (set_clockTrackedDataSource value t)
    = _automaticallyTrackDataSourceClocks t ∧
  _dataSourceChangedListeners (set_clockTrackedDataSource value t)
    = _dataSourceChangedListeners t ∧
  changedSubscriptions (set_clockTrackedDataSource value t) = changedSubscriptions t ∧
  sameSource (_clockTrackedDataSource (set_clockTrackedDataSource value t)) value = true.
Proof.
  unfold set_clockTrackedDataSource, trackDataSourceClock.
  destruct (sameSource (_clockTrackedDataSource t) value) eqn:Hsame; simpl; [done|].
  destruct value as [dataSource|]; [|done].
  destruct (sourceClock dataSource); simpl; by rewrite Nat.eqb_refl.
Qed.

Lemma set_clockTrackedDataSource_changed value t :
  sameSource (_clockTrackedDataSource t) value = false →
  _clockTrackedDataSource (set_clockTrackedDataSource value t) = value ∧
  clockValues (set_clockTrackedDataSource value t) =
    clockValues t ++
    match value with
    | Some dataSource =>
        match sourceClock dataSource with Some c => [c] | None => [] end
    | None => []
    end.
Proof.
  intros Hsame. unfold set_clockTrackedDataSource, trackDataSourceClock.
  rewrite Hsame. simpl. repeat case_match; simpl; by rewrite ?app_nil_r.
Qed.

(** X21.  A data source is removed, with its removal function in place,
    from a collection that no longer holds it.  If the clock followed that
    data source, it now follows the last data source of the collection
    when clocks are tracked automatically and the collection is not empty,
    and that data source's clock, if it has one, is copied to the viewer's
    clock; otherwise it follows none.  If the clock followed another data
    source, or none, nothing changes there.  In no case does the clock
    still follow the removed data source. *)
Theorem removed_source_hands_the_clock_over (dataSourceCollection : list ClockedSource)
    (dataSource : ClockedSource) (t : ClockTracking) :
  is_Some (_dataSourceChangedListeners t !! entitiesId dataSource) →
  Forall (λ s, sourceId s ≠ sourceId dataSource) dataSourceCollection →
  fst (_onDataSourceRemoved dataSourceCollection dataSource t) = Finished () ∧
  _clockTrackedDataSource (snd (_onDataSourceRemoved dataSourceCollection dataSource t)) =
    (if sameSource (_clockTrackedDataSource t) (Some dataSource) then
       if _automaticallyTrackDataSourceClocks t then last dataSourceCollection
       else None
     else _clockTrackedDataSource t) ∧
  clockValues (snd (_onDataSourceRemoved dataSourceCollection dataSource t)) =
    clockValues t ++
    (if sameSource (_clockTrackedDataSource t) (Some dataSource)
        && _automaticallyTrackDataSourceClocks t then
       match last dataSourceCollection with
       | Some next => match sourceClock next with Some c => [c] | None => [] end
       | None => []
       end
     else []) ∧
  sameSource
    (_clockTrackedDataSource (snd (_onDataSourceRemoved dataSourceCollection dataSource t)))
    (Some dataSource) = false.
Proof.
  intros [subscribed Hlistener] Hgone.
  unfold _onDataSourceRemoved, callListener, listenerAt.
  rewrite Hlistener. cbv zeta.
  set (t1 := Build_ClockTracking _ _ _ _ _ _ _).
  assert (_clockTrackedDataSource t1 = _clockTrackedDataSource t) as Htr1 by done.
  assert (clockValues t1 = clockValues t) as Hcv1 by done.
  assert (_automaticallyTrackDataSourceClocks t1 = _automaticallyTrackDataSourceClocks t)
    as -> by done.
  clearbody t1.
  assert (dataSourceCollection !! (length dataSourceCollection - 1)
          = last dataSourceCollection) as ->.
  { rewrite last_lookup. by rewrite Nat.sub_1_r. }
  assert (∀ next, last dataSourceCollection = Some next →
                  sameSource (Some dataSource) (Some next) = false) as Hnext.
  { intros next Hn. rewrite last_lookup in Hn. simpl. apply Nat.eqb_neq.
    pose proof (Forall_lookup_1 _ _ _ _ Hgone Hn) as Hne. simpl in Hne. congruence. }
  destruct (sameSource (_clockTrackedDataSource t) (Some dataSource)) eqn:Htracked;
    cbn [fst snd andb]; [|by rewrite app_nil_r, Htr1, Hcv1].
  assert (∀ value, sameSource (Some dataSource) value = false →
                   sameSource (_clockTrackedDataSource t1) value = false) as Hother.
  { intros value. rewrite Htr1. destruct (_clockTrackedDataSource t) as [tracked|];
      [|done]. simpl in Htracked. apply Nat.eqb_eq in Htracked.
    destruct value; simpl; [|done]. by rewrite Htracked. }
  destruct (_automaticallyTrackDataSourceClocks t); cbn [andb].
  - destruct (last dataSourceCollection) as [next|] eqn:Hn.
    + assert ((0 <? length dataSourceCollection) = true) as ->
        by (by destruct dataSourceCollection).
      cbn [fst snd].
      destruct (set_clockTrackedDataSource_changed (Some next) t1) as [-> ->];
        [by apply Hother, Hnext|].
      rewrite Hcv1. repeat split.
      specialize (Hnext _ eq_refl). simpl in *.
      rewrite Nat.eqb_sym. done.
    + assert ((0 <? length dataSourceCollection) = false) as ->
        by (by apply last_None in Hn as ->).
      cbn [fst snd].
      destruct (set_clockTrackedDataSource_changed None t1) as [-> ->];
        [by apply Hother|].
      by rewrite Hcv1.
  - cbn [fst snd].
    destruct (set_clockTrackedDataSource_changed None t1) as [-> ->];
      [by apply Hother|].
    by rewrite Hcv1.
Qed.

Lemma X21_witness :
  _clockTrackedDataSource
    (snd (_onDataSourceRemoved [Cases.kml] Cases.czml
            (_onDataSourceAdded Cases.czml
               (_onDataSourceAdded Cases.kml (Cases.noSources true)))))
  = Some Cases.kml
  ∧ clockValues
      (snd (_onDataSourceRemoved [Cases.kml] Cases.czml
              (_onDataSourceAdded Cases.czml
                 (_onDataSourceAdded Cases.kml (Cases.noSources true)))))
    = [100; 200; 100].
Proof.
  set (t := _onDataSourceAdded Cases.czml
              (_onDataSourceAdded Cases.kml (Cases.noSources true))).
  assert (is_Some (_dataSourceChangedListeners t !! entitiesId Cases.czml)) as Hl
    by (vm_compute; eauto).
  assert (Forall (λ s, sourceId s ≠ sourceId Cases.czml) [Cases.kml]) as Hgone
    by (repeat constructor; discriminate).
  destruct (removed_source_hands_the_clock_over [Cases.kml] Cases.czml t Hl Hgone)
    as (_ & Htracked & Hvalues & _).
  split; [by rewrite Htracked | by rewrite Hvalues].
Defined.




Lemma unsubscribe_last source subscriptions :
  source ∉ subscriptions →
  unsubscribe source (subscriptions ++ [source]) = subscriptions.
Proof.
  induction subscriptions as [|s rest IH]; intros Hfresh; simpl.
  - by rewrite Nat.eqb_refl.
  - apply not_elem_of_cons in Hfresh as [Hne Hrest].
    assert ((s =? source) = false) as -> by (apply Nat.eqb_neq; congruence).
    by rewrite IH.
Qed.

(** X23.  Adding a data source and removing it again leaves no listener
    behind: when its entity collection id had no removal function and its
    changed event no listener of the viewer, the removal succeeds and the
    removal functions and the listeners are what they were before the
    addition. *)
Theorem added_source_is_unsubscribed (dataSourceCollection : list ClockedSource)
    (dataSource : ClockedSource) (t : ClockTracking) :
  _dataSourceChangedListeners t !! entitiesId dataSource = None →
  sourceId dataSource ∉ changedSubscriptions t →
  fst (_onDataSourceRemoved dataSourceCollection dataSource
         (_onDataSourceAdded dataSource t)) = Finished () ∧
  _dataSourceChangedListeners
    (snd (_onDataSourceRemoved dataSourceCollection dataSource
            (_onDataSourceAdded dataSource t)))
    = _dataSourceChangedListeners t ∧
  changedSubscriptions
    (snd (_onDataSourceRemoved dataSourceCollection dataSource
            (_onDataSourceAdded dataSource t)))
    = changedSubscriptions t.
Proof.
  intros Hnone Hfresh. unfold _onDataSourceAdded. cbv zeta.
  set (t0 := if _automaticallyTrackDataSourceClocks t
             then set_clockTrackedDataSource (Some dataSource) t else t).
  assert (_dataSourceChangedListeners t0 = _dataSourceChangedListeners t ∧
          changedSubscriptions t0 = changedSubscriptions t) as [Hl0 Hs0].
  { subst t0. case_match; [|done].
    by destruct (set_clockTrackedDataSource_fields (Some dataSource) t)
      as (_ & -> & -> & _). }
  clearbody t0. rewrite Hl0, Hs0.
  unfold _onDataSourceRemoved, callListener, listenerAt.
  cbn [_dataSourceChangedListeners]. rewrite lookup_insert_eq. cbv zeta.
  cbn [_dataSourceChangedListeners changedSubscriptions].
  rewrite delete_insert_eq, (delete_id _ _ Hnone), (unsubscribe_last _ _ Hfresh).
  repeat case_match; cbn [fst snd];
    rewrite ?(proj1 (proj2 (set_clockTrackedDataSource_fields _ _))),
            ?(proj1 (proj2 (proj2 (set_clockTrackedDataSource_fields _ _))));
    done.
Qed.

Lemma X23_witness :
  _dataSourceChangedListeners
    (snd (_onDataSourceRemoved [Cases.kml] Cases.czml
            (_onDataSourceAdded Cases.czml
               (_onDataSourceAdded Cases.kml (Cases.noSources true)))))
  = _dataSourceChangedListeners (_onDataSourceAdded Cases.kml (Cases.noSources true)).
Proof.
  set (t := _onDataSourceAdded Cases.kml (Cases.noSources true)).
  assert (_dataSourceChangedListeners t !! entitiesId Cases.czml = None) as Hnone
    by reflexivity.
  assert (sourceId Cases.czml ∉ changedSubscriptions t) as Hfresh.
  { apply not_elem_of_cons; split; [discriminate | apply not_elem_of_nil]. }
  destruct (added_source_is_unsubscribed [Cases.kml] Cases.czml t Hnone Hfresh)
    as (_ & Hlisteners & _).
  exact Hlisteners.
Defined.

Lemma _onDataSourceAdded_automatic dataSource t :
  _automaticallyTrackDataSourceClocks (_onDataSourceAdded dataSource t)
  = _automaticallyTrackDataSourceClocks t.
Proof.
  unfold _onDataSourceAdded. cbv zeta. cbn [_automaticallyTrackDataSourceClocks].
  case_match; [|done].
  by destruct (set_clockTrackedDataSource_fields (Some dataSource) t) as (-> & _).
Qed.

Lemma addAll_automatic added t :
  _automaticallyTrackDataSourceClocks
    (foldl (λ t dataSource, _onDataSourceAdded dataSource t) t added)
  = _automaticallyTrackDataSourceClocks t.
Proof.
  revert t. induction added as [|d rest IH]; intros t; [done|].
  simpl. by rewrite IH, _onDataSourceAdded_automatic.
Qed.

Lemma addAll_manual added t :
  _automaticallyTrackDataSourceClocks t = false →
  _clockTrackedDataSource
    (foldl (λ t dataSource, _onDataSourceAdded dataSource t) t added)
    = _clockTrackedDataSource t ∧
  clockValues (foldl (λ t dataSource, _onDataSourceAdded dataSource t) t added)
    = clockValues t.
Proof.
  revert t. induction added as [|d rest IH]; intros t Hauto; [done|].
  simpl.
  assert (_automaticallyTrackDataSourceClocks (_onDataSourceAdded d t) = false) as Hauto1
    by (by rewrite _onDataSourceAdded_automatic).
  destruct (IH _ Hauto1) as [-> ->].
  unfold _onDataSourceAdded. cbv zeta. by rewrite Hauto.
Qed.

(** X24.  With automatic tracking of the clocks, after any number of data
    sources have been added the clock follows the one added last; without
    it, additions never change which data source the clock follows, and
    never set the clock. *)
Theorem clock_follows_the_newest_source (earlier : list ClockedSource)
    (newest : ClockedSource) (t : ClockTracking) :
  let after :=
    foldl (λ t dataSource, _onDataSourceAdded dataSource t) t (earlier ++ [newest]) in
  if _automaticallyTrackDataSourceClocks t then
    sameSource (_clockTrackedDataSource after) (Some newest) = true
  else
    _clockTrackedDataSource after = _clockTrackedDataSource t ∧
    clockValues after = clockValues t.
Proof.
  cbv zeta. destruct (_automaticallyTrackDataSourceClocks t) eqn:Hauto.
  - rewrite foldl_app. simpl. set (t1 := foldl _ t earlier).
    assert (_automaticallyTrackDataSourceClocks t1 = true) as Hauto1
      by (subst t1; by rewrite addAll_automatic).
    clearbody t1. unfold _onDataSourceAdded. cbv zeta.
    cbn [_clockTrackedDataSource]. rewrite Hauto1.
    apply set_clockTrackedDataSource_fields.
  - by apply addAll_manual.
Qed.

Lemma X24_witness :
  sameSource
    (_clockTrackedDataSource
       (foldl (λ t dataSource, _onDataSourceAdded dataSource t)
          (Cases.noSources true) ([Cases.kml] ++ [Cases.czml])))
    (Some Cases.czml) = true.
Proof.
  exact (clock_follows_the_newest_source [Cases.kml] Cases.czml (Cases.noSources true)).
Defined.

(** X25.  With automatic tracking, once some data sources have been
    added, a changed event of a data source other than the newest is
    ignored, while a changed event of the newest copies its clock, if it
    has one, to the viewer's clock again. *)
Theorem changed_event_counts_for_the_followed_source (earlier : list ClockedSource)
    (newest other : ClockedSource) (t : ClockTracking) :
  _automaticallyTrackDataSourceClocks t = true →
  sourceId other ≠ sourceId newest →
  let after :=
    foldl (λ t dataSource, _onDataSourceAdded dataSource t) t (earlier ++ [newest]) in
  _onDataSourceChanged other after = after ∧
  clockValues (_onDataSourceChanged newest after) =
    clockValues after ++
    match sourceClock newest with Some c => [c] | None => [] end.
Proof.
  intros Hauto Hother. cbv zeta. rewrite foldl_app. simpl.
  set (t1 := foldl _ t earlier).
  assert (_automaticallyTrackDataSourceClocks t1 = true) as Hauto1
    by (subst t1; by rewrite addAll_automatic).
  clearbody t1.
  assert (sameSource (_clockTrackedDataSource (_onDataSourceAdded newest t1))
            (Some newest) = true) as Hnewest.
  { unfold _onDataSourceAdded. cbv zeta. cbn [_clockTrackedDataSource].
    rewrite Hauto1. apply set_clockTrackedDataSource_fields. }
  unfold _onDataSourceChanged. rewrite Hnewest.
  assert (sameSource (_clockTrackedDataSource (_onDataSourceAdded newest t1))
            (Some other) = false) as ->.
  { destruct (_clockTrackedDataSource (_onDataSourceAdded newest t1)) as [tracked|];
      [|done]. simpl in *. apply Nat.eqb_eq in Hnewest. apply Nat.eqb_neq. congruence. }
  split; [done|]. unfold trackDataSourceClock.
  destruct (sourceClock newest); [done | by rewrite app_nil_r].
Qed.

Lemma X25_witness :
  _onDataSourceChanged Cases.kml
    (foldl (λ t dataSource, _onDataSourceAdded dataSource t)
       (Cases.noSources true) ([Cases.kml] ++ [Cases.czml]))
  = foldl (λ t dataSource, _onDataSourceAdded dataSource t)
      (Cases.noSources true) ([Cases.kml] ++ [Cases.czml]).
Proof.
  assert (_automaticallyTrackDataSourceClocks (Cases.noSources true) = true) as Hauto
    by reflexivity.
  assert (sourceId Cases.kml ≠ sourceId Cases.czml) as Hother by discriminate.
  destruct (changed_event_counts_for_the_followed_source [Cases.kml] Cases.czml
              Cases.kml (Cases.noSources true) Hauto Hother) as [Hignored _].
  exact Hignored.
Defined.

(** ** The info box and the layout *)

Lemma set_trackedEntity_new value w :
  sameEntity (_trackedEntity (viewer w)) value = false →
  _trackedEntity (viewer (set_trackedEntity value w)) = value ∧
  _needTrackedEntityUpdate (viewer (set_trackedEntity value w))
    = defined value && hasPosition value ∧
  _trackedEntityChanged (viewer (set_trackedEntity value w))
    = _trackedEntityChanged (viewer w) ++ [value].
Proof.
  intros Hnew. unfold set_trackedEntity. rewrite Hnew. cbn [negb]. cbv zeta.
  set (w1 := cancelZoom (onViewer (setTrackedEntity value) w)).
  assert (_trackedEntity (viewer w1) = value ∧
          _trackedEntityChanged (viewer w1) = _trackedEntityChanged (viewer w))
    as [Htracked Hchanged].
  { subst w1. rewrite cancelZoom_viewer. by case_match. }
  clearbody w1.
  destruct (defined value), (hasPosition value); simpl;
    repeat case_match; simpl; by rewrite ?Htracked, ?Hchanged.
Qed.

(** X26.  The camera button of the info box toggles the tracking of the
    selected entity when that entity has a position: a click while another
    entity, or none, is tracked makes it the tracked entity and asks for
    its first fix; a further click, the view model reporting that the
    camera is tracking, stops the tracking.  The selection stays, and the
    tracked-entity event has been raised twice, with the entity and with
    [undefined]. *)
Theorem info_box_camera_toggles_tracking (isCameraTracking : bool) (entity : Entity)
    (w : World) :
  _selectedEntity (viewer w) = Some entity →
  defined (position entity) = true →
  sameEntity (_trackedEntity (viewer w)) (Some entity) = false →
  let w1 := snd (_onInfoBoxCameraClicked isCameraTracking w) in
  let w2 := snd (_onInfoBoxCameraClicked true w1) in
  fst (_onInfoBoxCameraClicked isCameraTracking w) = Finished () ∧
  _trackedEntity (viewer w1) = Some entity ∧
  _needTrackedEntityUpdate (viewer w1) = true ∧
  fst (_onInfoBoxCameraClicked true w1) = Finished () ∧
  _trackedEntity (viewer w2) = None ∧
  _needTrackedEntityUpdate (viewer w2) = false ∧
  _entityView (viewer w2) = None ∧
  _selectedEntity (viewer w2) = Some entity ∧
  _trackedEntityChanged (viewer w2) =
    _trackedEntityChanged (viewer w) ++ [Some entity; None].
Proof.
  intros Hselected Hposition Hnew. cbv zeta.
  assert (_onInfoBoxCameraClicked isCameraTracking w
          = (Finished (), set_trackedEntity (Some entity) w)) as ->.
  { unfold _onInfoBoxCameraClicked. rewrite Hselected, Hnew, andb_false_r.
    cbv zeta. by rewrite Hposition. }
  cbn [fst snd].
  destruct (set_trackedEntity_new (Some entity) w Hnew) as (Htracked & Hneed & Hchanged).
  pose proof (set_trackedEntity_selected (Some entity) w) as Hselected1.
  rewrite Hselected in Hselected1.
  set (w1 := set_trackedEntity (Some entity) w) in *. clearbody w1.
  assert (_onInfoBoxCameraClicked true w1 = (Finished (), set_trackedEntity None w1)) as ->.
  { unfold _onInfoBoxCameraClicked. rewrite Htracked, Hselected1.
    cbn [andb]. by rewrite sameEntity_refl. }
  cbn [fst snd].
  assert (sameEntity (_trackedEntity (viewer w1)) None = false) as Hstop
    by (by rewrite Htracked).
  destruct (set_trackedEntity_new None w1 Hstop) as (Htracked2 & Hneed2 & Hchanged2).
  destruct (set_trackedEntity_undefined_stops w1 entity Htracked) as (_ & _ & Hview & _).
  rewrite set_trackedEntity_selected, Htracked2, Hneed2, Hview, Hchanged2, Hchanged.
  rewrite Hneed. cbn [defined hasPosition andb]. rewrite Hposition.
  by rewrite <- app_assoc.
Qed.

Lemma X26_witness :
  _trackedEntity
    (viewer (snd (_onInfoBoxCameraClicked false
                    (set_selectedEntity (Some Scenario.rover)
                       (initial SCENE3D Scenario.allDone)))))
  = Some Scenario.rover.
Proof.
  set (w := set_selectedEntity (Some Scenario.rover) (initial SCENE3D Scenario.allDone)).
  assert (_selectedEntity (viewer w) = Some Scenario.rover) as Hselected by reflexivity.
  assert (defined (position Scenario.rover) = true) as Hposition by reflexivity.
  assert (sameEntity (_trackedEntity (viewer w)) (Some Scenario.rover) = false) as Hnew
    by reflexivity.
  destruct (info_box_camera_toggles_tracking false Scenario.rover w
              Hselected Hposition Hnew) as (_ & Htracked & _).
  exact Htracked.
Defined.

(** X27.  A click on the camera button while the selected entity has no
    position, and is not the entity reported as tracked, tracks nothing:
    it is [zoomTo] on the selected entity.  A snap request with a new,
    unresolved promise is installed, its normalisation for that entity is
    handed to [then], and the tracked entity and the selection are
    untouched. *)
Theorem info_box_camera_views_entity_without_position (isCameraTracking : bool)
    (entity : Entity) (w : World) :
  _selectedEntity (viewer w) = Some entity →
  defined (position entity) = false →
  isCameraTracking && sameEntity (_trackedEntity (viewer w)) (Some entity) = false →
  let w1 := snd (_onInfoBoxCameraClicked isCameraTracking w) in
  fst (_onInfoBoxCameraClicked isCameraTracking w) = Finished () ∧
  _trackedEntity (viewer w1) = _trackedEntity (viewer w) ∧
  _selectedEntity (viewer w1) = Some entity ∧
  _needTrackedEntityUpdate (viewer w1) = _needTrackedEntityUpdate (viewer w) ∧
  _zoomPromise (viewer w1) = Some (length (promises w)) ∧
  _zoomIsFlight (viewer w1) = false ∧
  promises w1 !! length (promises w) = Some None ∧
  pending w1 = pending w ++ [ThenTarget (length (promises w)) (EntityArg entity)].
Proof.
  intros Hselected Hposition Hother. cbv zeta.
  assert (_onInfoBoxCameraClicked isCameraTracking w
          = (Finished (), snd (zoomTo (Some (EntityArg entity)) None w))) as ->.
  { unfold _onInfoBoxCameraClicked. rewrite Hselected, Hother.
    cbv zeta. by rewrite Hposition. }
  cbn [fst snd]. unfold zoomTo.
  destruct (zoomToOrFly_installed w (EntityArg entity)
              (Some {| offset := None; duration := None; maximumHeight := None |}) false)
    as (_ & -> & -> & _ & -> & -> & _).
  cbn [zoomToOrFly snd]. simpl. rewrite cancelZoom_viewer.
  rewrite <- Hselected. by case_match.
Qed.

Lemma X27_witness :
  pending
    (snd (_onInfoBoxCameraClicked true
            (set_selectedEntity (Some Scenario.beacon)
               (initial SCENE3D Scenario.allDone))))
  = [ThenTarget 0 (EntityArg Scenario.beacon)].
Proof.
  set (w := set_selectedEntity (Some Scenario.beacon) (initial SCENE3D Scenario.allDone)).
  assert (_selectedEntity (viewer w) = Some Scenario.beacon) as Hselected by reflexivity.
  assert (defined (position Scenario.beacon) = false) as Hposition by reflexivity.
  assert (true && sameEntity (_trackedEntity (viewer w)) (Some Scenario.beacon) = false)
    as Hother by reflexivity.
  destruct (info_box_camera_views_entity_without_position true Scenario.beacon w
              Hselected Hposition Hother) as (_ & _ & _ & _ & _ & _ & _ & Hpending).
  exact Hpending.
Defined.

(** X28.  After [_clearObjects] nothing is tracked and nothing selected,
    whatever was before.  A click on the camera button of the info box
    then changes nothing, and ends with a [TypeError] unless the view
    model reports that the camera is tracking. *)
Theorem cleared_viewer_has_nothing_to_track (isCameraTracking : bool) (w : World) :
  _trackedEntity (viewer (_clearObjects w)) = None ∧
  _selectedEntity (viewer (_clearObjects w)) = None ∧
  _onInfoBoxCameraClicked isCameraTracking (_clearObjects w) =
    (if isCameraTracking then Finished () else TypeError, _clearObjects w).
Proof.
  assert (_trackedEntity (viewer (_clearObjects w)) = None) as Htracked.
  { unfold _clearObjects.
    assert (_trackedEntity (viewer (set_trackedEntity None w)) = None) as Hnone.
    { pose proof (set_trackedEntity_stored None w) as Hstored.
      by destruct (_trackedEntity (viewer (set_trackedEntity None w))). }
    unfold set_selectedEntity. by case_match. }
  assert (_selectedEntity (viewer (_clearObjects w)) = None) as Hselected.
  { unfold _clearObjects, set_selectedEntity.
    destruct (_selectedEntity (viewer (set_trackedEntity None w))) eqn:Hs;
      simpl; [done | by rewrite Hs]. }
  repeat split; [done..|].
  unfold _onInfoBoxCameraClicked. rewrite Htracked, Hselected.
  destruct isCameraTracking; [|done].
  cbn [andb sameEntity]. unfold set_trackedEntity. by rewrite Htracked.
Qed.

(** X29.  [resize] always resizes the widget, and afterwards the size the
    viewer remembers is the size of the container.  Hence a second
    [resize], the container unchanged, only resizes the widget once more:
    it writes no style and remembers the same size. *)
Theorem resize_records_the_container_size (l : Layout) :
  _lastWidth (resize l) = clientWidth l ∧
  _lastHeight (resize l) = clientHeight l ∧
  widgetResizes (resize l) = S (widgetResizes l) ∧
  resize (resize l) =
    {| clientWidth := clientWidth l; clientHeight := clientHeight l;
       _lastWidth := clientWidth l; _lastHeight := clientHeight l;
       style_left := style_left (resize l); style_bottom := style_bottom (resize l);
       widgetResizes := S (S (widgetResizes l)) |}.
Proof.
  assert (_lastWidth (resize l) = clientWidth l ∧
          _lastHeight (resize l) = clientHeight l ∧
          clientWidth (resize l) = clientWidth l ∧
          clientHeight (resize l) = clientHeight l ∧
          widgetResizes (resize l) = S (widgetResizes l)) as (Hw & Hh & Hcw & Hch & Hn).
  { unfold resize.
    destruct ((clientWidth l =? _lastWidth l)%Z && (clientHeight l =? _lastHeight l)%Z)
      eqn:Hsame; simpl; [|done].
    apply andb_true_iff in Hsame as [Hw%Z.eqb_eq Hh%Z.eqb_eq]. by rewrite Hw, Hh. }
  repeat split; [done..|].
  unfold resize at 1. rewrite Hw, Hh, Hcw, Hch, Hn, !Z.eqb_refl. done.
Qed.

(** X30.  [forceResize] places the credits again and remembers the size of
    the container whenever the container has a width other than 0.  With
    a width of 0 and the height the viewer remembers, nothing is forced:
    no style is written. *)
Theorem forceResize_needs_a_width (l : Layout) :
  (clientWidth l ≠ 0%Z →
   style_left (forceResize l) = Some "0px" ∧
   style_bottom (forceResize l) = Some "0px" ∧
   _lastWidth (forceResize l) = clientWidth l ∧
   _lastHeight (forceResize l) = clientHeight l) ∧
  (clientWidth l = 0%Z → clientHeight l = _lastHeight l →
   style_left (forceResize l) = style_left l ∧
   style_bottom (forceResize l) = style_bottom l ∧
   _lastWidth (forceResize l) = 0%Z) ∧
  widgetResizes (forceResize l) = S (widgetResizes l).
Proof.
  unfold forceResize, resize. cbn [clientWidth clientHeight _lastWidth _lastHeight
    style_left style_bottom widgetResizes].
  split; [|split].
  - intros Hwidth. apply Z.eqb_neq in Hwidth. by rewrite Hwidth.
  - intros -> ->. by rewrite !Z.eqb_refl.
  - by case_match.
Qed.

Lemma X30_witness : style_left (forceResize Cases.laidOut) = Some "0px".
Proof.
  assert (clientWidth Cases.laidOut ≠ 0%Z) as Hwidth by discriminate.
  destruct (forceResize_needs_a_width Cases.laidOut) as [Hforced _].
  destruct (Hforced Hwidth) as (Hleft & _).
  exact Hleft.
Defined.
